(** * ProtectAI backend: fingerprinting, search, store and the analyze pipeline

    A shallow embedding of [backend/fingerprint.py], [backend/search.py],
    [backend/db.py] and the orchestration in [backend/main.py], followed by
    the properties of the design document that can be checked against them.

    Python values are modelled as follows: [str] is [string], [bytes] is
    [list byte], a [dict] literal is an association list in insertion order,
    an exception is a class name with its [str(e)] text, and a call either
    returns a value or raises ([outcome]); a call that writes files also hands
    back the file system it leaves ([io]).  Third-party libraries (PIL, numpy,
    hashlib, the network of the classifier) are parameters, and so are the
    readings of the clock and the rendering of a float with two decimals. *)

From Stdlib Require Import Ascii String NArith ZArith QArith Strings.Byte.
From stdpp Require Import base option list gmap strings pretty.


#[local] Set Warnings "-register-all".

(** ** Python outcomes *)

Module Py.

Record exn := Exn { exn_class : string; exn_str : string }.

Inductive outcome (A : Type) : Type :=
| Returned (a : A)
| Raised (e : exn).
Arguments Returned {A} a.
Arguments Raised {A} e.

Definition bind {A B} (m : outcome A) (k : A -> outcome B) : outcome B :=
  match m with
  | Returned a => k a
  | Raised e => Raised e
  end.

(** [try: body except Exception as e: handler(e)].  Every exception of the
    model is an instance of [Exception]. *)
Definition try_except {A} (body : outcome A) (handler : exn -> outcome A) : outcome A :=
  match body with
  | Returned a => Returned a
  | Raised e => handler e
  end.

Definition is_raised {A} (m : outcome A) : bool :=
  match m with Returned _ => false | Raised _ => true end.

(** JSON-like values, as they travel in dictionaries and responses. *)
Inductive value :=
| VNone
| VStr (s : string)
| VFloat (q : Q)
| VList (l : list value)
| VDict (d : list (string * value)).

(** [d.get(k)] on an insertion-ordered dictionary. *)
Fixpoint dict_get (k : string) (d : list (string * value)) : option value :=
  match d with
  | [] => None
  | (k', v) :: d' => if String.eqb k k' then Some v else dict_get k d'
  end.

(** [k in d]. *)
Definition dict_has (k : string) (d : list (string * value)) : bool :=
  match dict_get k d with Some _ => true | None => false end.

Definition dict_keys (d : list (string * value)) : list string := map fst d.

(** [s.startswith(p)]. *)
Definition startswith (s p : string) : bool := String.prefix p s.

(** [needle in hay] for strings. *)
Fixpoint contains (needle hay : string) : bool :=
  String.prefix needle hay ||
  match hay with
  | EmptyString => false
  | String _ hay' => contains needle hay'
  end.

End Py.
Export Py.

Notation "'do' x <- m ; k" := (Py.bind m (fun x => k))
  (at level 10, x name, m at level 100, k at level 200, only parsing).

(** ** The file system seen by [os] and [PIL]

    Regular files hold bytes; a directory holds the names [os.listdir]
    enumerates, in the order the platform happens to give them.  Writing a
    file sets its bytes and leaves the enumerations as they are: where the
    platform would enumerate a new name is not known, and the program lists
    no folder it writes to (it writes to [uploads] and [alerts] and lists
    [dataset]). *)

Record FS := mkFS {
  fs_files : gmap string (list byte);
  fs_dirs : gmap string (list string)
}.

(** A call that may write files: its outcome together with the file system
    it leaves behind, also when it raises. *)
Definition io (A : Type) : Type := FS -> outcome A * FS.

Definition io_ret {A} (a : A) : io A := fun fs => (Returned a, fs).

(** A call that does not touch the file system. *)
Definition io_lift {A} (m : outcome A) : io A := fun fs => (m, fs).

Definition io_bind {A B} (m : io A) (k : A -> io B) : io B :=
  fun fs =>
    match m fs with
    | (Returned a, fs') => k a fs'
    | (Raised e, fs') => (Raised e, fs')
    end.

Notation "'run' x <- m ; k" := (io_bind m (fun x => k))
  (at level 10, x name, m at level 100, k at level 200, only parsing).

Module OsPath.

(** [os.path.exists]. *)
Definition exists_ (fs : FS) (p : string) : bool :=
  bool_decide (is_Some (fs_files fs !! p)) || bool_decide (is_Some (fs_dirs fs !! p)).

(** [os.path.isfile]. *)
Definition isfile (fs : FS) (p : string) : bool :=
  bool_decide (is_Some (fs_files fs !! p)).

Fixpoint ends_with_slash (s : string) : bool :=
  match s with
  | EmptyString => false
  | String c EmptyString => Ascii.eqb c "/"
  | String _ s' => ends_with_slash s'
  end.

(** [os.path.join(a, b)] (POSIX). *)
Definition join (a b : string) : string :=
  if String.prefix "/" b then b
  else if String.eqb a "" || ends_with_slash a then a +:+ b
  else a +:+ "/" +:+ b.

(** [os.path.basename]: what follows the last slash. *)
Fixpoint basename_from (acc : string) (s : string) : string :=
  match s with
  | EmptyString => acc
  | String c s' => if Ascii.eqb c "/" then basename_from s' s' else basename_from acc s'
  end.
Definition basename (s : string) : string := basename_from s s.

(** [os.listdir]. *)
Definition listdir (fs : FS) (p : string) : outcome (list string) :=
  match fs_dirs fs !! p with
  | Some names => Returned names
  | None =>
      match fs_files fs !! p with
      | Some _ => Raised (Exn "NotADirectoryError" ("[Errno 20] Not a directory: '" +:+ p +:+ "'"))
      | None => Raised (Exn "FileNotFoundError" ("[Errno 2] No such file or directory: '" +:+ p +:+ "'"))
      end
  end.

End OsPath.

(** ** Third-party libraries used by the fingerprint engine *)

(** What PIL makes of the content of a file.  It recognises and decodes a
    picture by its bytes, whatever the file is called; when it fails, the
    exception is given for the path that was opened, which its message may
    name (["cannot identify image file '...'"]). *)
Inductive decoding (image : Type) : Type :=
| Decoded (img : image)
| Undecodable (error : string -> exn).
Arguments Decoded {image} img.
Arguments Undecodable {image} error.

Class Libraries := {
  image : Type;
  (** [Image.open(image_path).convert("L")] on a file with the given
      content: the decoded grayscale image, or the failure. *)
  Image_open_L : list byte -> decoding image;
  (** [img.resize((w, h))]. *)
  Image_resize : image -> nat * nat -> image;
  (** [np.array(img).flatten().tobytes()]. *)
  pixel_bytes_of : image -> list byte;
  (** [hashlib.sha256(b).digest()]. *)
  sha256 : list byte -> list byte
}.

(** ** backend/fingerprint.py *)

Module Fingerprint.

Definition hex_alphabet : string := "0123456789abcdef".

Definition hex_digit (n : N) : ascii :=
  match String.get (N.to_nat n) hex_alphabet with
  | Some c => c
  | None => "0"%char
  end.

(** [hexdigest()]: two lowercase hexadecimal digits per byte. *)
Fixpoint hexlify (bs : list byte) : string :=
  match bs with
  | [] => ""
  | b :: bs' =>
      String (hex_digit (Byte.to_N b / 16))
        (String (hex_digit (Byte.to_N b mod 16)) (hexlify bs'))
  end.

(** [Image.open(image_path)] reads the file at the path. *)
Definition open_L `{Libraries} (fs : FS) (image_path : string) : outcome image :=
  match fs_files fs !! image_path with
  | Some content =>
      match Image_open_L content with
      | Decoded img => Returned img
      | Undecodable error => Raised (error image_path)
      end
  | None =>
      match fs_dirs fs !! image_path with
      | Some _ => Raised (Exn "IsADirectoryError" ("[Errno 21] Is a directory: '" +:+ image_path +:+ "'"))
      | None => Raised (Exn "FileNotFoundError" ("[Errno 2] No such file or directory: '" +:+ image_path +:+ "'"))
      end
  end.

(** The body of the [try] block. *)
Definition fingerprint_body `{Libraries} (fs : FS) (image_path : string) : outcome string :=
  do img <- open_L fs image_path;
  let img := Image_resize img (128, 128) in
  let pixel_bytes := pixel_bytes_of img in
  let fingerprint := hexlify (sha256 pixel_bytes) in
  Returned fingerprint.

Definition error_prefix : string := "Error generating fingerprint: ".

Definition generate_fingerprint `{Libraries} (fs : FS) (image_path : string)
    (raise_error : bool) : outcome string :=
  try_except (fingerprint_body fs image_path)
    (fun e => if raise_error then Raised e
              else Returned (error_prefix +:+ exn_str e)).

End Fingerprint.

(** ** The [imagehash] package, as far as [search_similar] uses it

    [hex_to_hash] turns a hexadecimal string into a two-dimensional boolean
    array; the difference of two hashes is the number of positions where the
    flattened arrays differ.  Strings of hexadecimal digits are parsed as
    Python's [int(s, 16)] parses them; any other text is taken to raise
    [ValueError] (Python also accepts a sign, a [0x] prefix, surrounding
    blanks and single underscores, none of which occurs in a digest). *)

Module ImageHash.

Definition hex_value (c : ascii) : option N :=
  let n := N_of_ascii c in
  if (48 <=? n)%N && (n <=? 57)%N then Some (n - 48)%N
  else if (97 <=? n)%N && (n <=? 102)%N then Some (n - 87)%N
  else if (65 <=? n)%N && (n <=? 70)%N then Some (n - 55)%N
  else None.

Fixpoint int_of_hex_from (acc : N) (s : string) : option N :=
  match s with
  | EmptyString => Some acc
  | String c s' =>
      match hex_value c with
      | Some d => int_of_hex_from (16 * acc + d)%N s'
      | None => None
      end
  end.

(** [int(hexstr, 16)]. *)
Definition int16 (hexstr : string) : outcome N :=
  match hexstr with
  | EmptyString => Raised (Exn "ValueError" "invalid literal for int() with base 16: ''")
  | _ =>
      match int_of_hex_from 0 hexstr with
      | Some n => Returned n
      | None => Raised (Exn "ValueError"
                  ("invalid literal for int() with base 16: '" +:+ hexstr +:+ "'"))
      end
  end.

(** Binary digits of a positive number, least significant first. *)
Fixpoint pos_bits (p : positive) : list bool :=
  match p with
  | xH => [true]
  | xO p' => false :: pos_bits p'
  | xI p' => true :: pos_bits p'
  end.

(** ['{:b}'.format(n)], most significant digit first. *)
Definition bin (n : N) : list bool :=
  match n with
  | N0 => [false]
  | Npos p => rev (pos_bits p)
  end.

(** ['{:0>{width}b}'.format(n, width=width)]: padded on the left, never cut. *)
Definition format_bin (n : N) (width : nat) : list bool :=
  replicate (width - length (bin n)) false ++ bin n.

(** [[a[i:i+k] for i in range(0, len(a), k)]] for [k > 0]. *)
Fixpoint chunks_fuel {A} (fuel k : nat) (l : list A) : list (list A) :=
  match fuel with
  | O => []
  | S fuel' =>
      match l with
      | [] => []
      | _ => take k l :: chunks_fuel fuel' k (drop k l)
      end
  end.
Definition chunks {A} (k : nat) (l : list A) : list (list A) :=
  chunks_fuel (length l) k l.

(** The boolean array of a hash, as its list of rows. *)
Record ImageHash := mkImageHash { hash_rows : list (list bool) }.

Definition flatten (h : ImageHash) : list bool := concat (hash_rows h).
Definition size (h : ImageHash) : nat := length (flatten h).

(** [hex_to_hash(hexstr)].  [hash_size] is [int(numpy.sqrt(len(hexstr) * 4))];
    rows of unequal length make [numpy.array] raise. *)
Definition hex_to_hash (hexstr : string) : outcome ImageHash :=
  let hash_size := Nat.sqrt (String.length hexstr * 4) in
  do n <- int16 hexstr;
  let binary_array := format_bin n (hash_size * hash_size) in
  let bit_rows := chunks hash_size binary_array in
  if forallb (fun row => Nat.eqb (length row) hash_size) bit_rows
  then Returned (mkImageHash bit_rows)
  else Raised (Exn "ValueError"
         "setting an array element with a sequence. The requested array has an inhomogeneous shape").

(** [numpy.count_nonzero(a != b)] on flattened arrays of equal size. *)
Fixpoint count_differing (a b : list bool) : nat :=
  match a, b with
  | x :: a', y :: b' => (if xorb x y then 1 else 0) + count_differing a' b'
  | _, _ => 0
  end.

(** [self - other]: the Hamming distance. *)
Definition sub (self other : ImageHash) : outcome nat :=
  if Nat.eqb (size self) (size other)
  then Returned (count_differing (flatten self) (flatten other))
  else Raised (Exn "TypeError" "ImageHashes must be of the same shape.").

(** The number of one bits of a number. *)
Fixpoint pos_popcount (p : positive) : nat :=
  match p with
  | xH => 1
  | xO p' => pos_popcount p'
  | xI p' => S (pos_popcount p')
  end.
Definition popcount (n : N) : nat :=
  match n with
  | N0 => 0
  | Npos p => pos_popcount p
  end.

(** The number a string of hexadecimal digits denotes. *)
Definition int_of_hex (s : string) : N :=
  match int_of_hex_from 0 s with
  | Some n => n
  | None => 0%N
  end.

(** The number of bits of the array [hex_to_hash] builds from [len]
    hexadecimal digits: [hash_size * hash_size]. *)
Definition hash_bits (len : nat) : nat := Nat.sqrt (len * 4) * Nat.sqrt (len * 4).

(** One space of fixed-length hashes: the strings of [len] hexadecimal
    digits that denote a number of at most [hash_bits len] bits.  When
    [4 * len] is a square ([len = 16] for a 64-bit perceptual hash,
    [len = 64] for a 256-bit one) these are all the strings of [len]
    hexadecimal digits. *)
Definition in_hash_space (len : nat) (s : string) : Prop :=
  String.length s = len /\
  0 < len /\
  is_Some (int_of_hex_from 0 s) /\
  (int_of_hex s < 2 ^ N.of_nat (hash_bits len))%N.

(** The bits of a number, least significant first, on a fixed width. *)
Fixpoint lsb_bits (w : nat) (n : N) : list bool :=
  match w with
  | O => []
  | S w' => N.odd n :: lsb_bits w' (N.div2 n)
  end.

End ImageHash.

(** ** backend/search.py *)

Module Search.
Import Fingerprint.

Definition no_matches_found : string := "No matches found".

(** The loop over [os.listdir(dataset_folder)]. *)
Fixpoint scan_dataset `{Libraries} (fs : FS) (dataset_folder query_fingerprint : string)
    (files : list string) (matches : list string) : outcome (list string) :=
  match files with
  | [] => Returned matches
  | file :: rest =>
      let file_path := OsPath.join dataset_folder file in
      if OsPath.isfile fs file_path then
        do dataset_fingerprint <- generate_fingerprint fs file_path false;
        if String.eqb dataset_fingerprint query_fingerprint
        then scan_dataset fs dataset_folder query_fingerprint rest (matches ++ [file])
        else scan_dataset fs dataset_folder query_fingerprint rest matches
      else scan_dataset fs dataset_folder query_fingerprint rest matches
  end.

(** What the loop keeps, said at once: the enumerated names that are
    regular files and whose fingerprint is the query's. *)
Definition is_exact_match `{Libraries} (fs : FS) (dataset_folder query_fingerprint : string)
    (file : string) : bool :=
  OsPath.isfile fs (OsPath.join dataset_folder file) &&
  match generate_fingerprint fs (OsPath.join dataset_folder file) false with
  | Returned dataset_fingerprint => String.eqb dataset_fingerprint query_fingerprint
  | Raised _ => false
  end.

Definition exact_matches `{Libraries} (fs : FS) (dataset_folder query_fingerprint : string)
    (files : list string) : list string :=
  List.filter (is_exact_match fs dataset_folder query_fingerprint) files.

Definition search_image_in_dataset `{Libraries} (fs : FS) (image_path dataset_folder : string)
    : outcome (list (string * value)) :=
  do query_fingerprint <- generate_fingerprint fs image_path false;
  if contains "Error" query_fingerprint then
    Returned [("error", VStr query_fingerprint)]
  else if negb (OsPath.exists_ fs dataset_folder) then
    Returned [("error", VStr ("Dataset folder '" +:+ dataset_folder +:+ "' not found."))]
  else
    do files <- OsPath.listdir fs dataset_folder;
    do matches <- scan_dataset fs dataset_folder query_fingerprint files [];
    Returned [("query", VStr (OsPath.basename image_path));
              ("matches", VList (map VStr (match matches with
                                           | [] => [no_matches_found]
                                           | _ => matches
                                           end)))].

(** An entry of [all_fingerprints]: a dictionary with the keys
    ['filename'] and ['hash_value']. *)
Record entry := mkEntry { filename : string; hash_value : string }.

(** A result: a dictionary with the keys ['filename'], ['hash'] and
    ['distance']. *)
Record similar := mkSimilar { s_filename : string; s_hash : string; s_distance : nat }.

(** The loop over [all_fingerprints]. *)
Fixpoint scan_fingerprints (target_hash : ImageHash.ImageHash) (threshold : Z)
    (fps : list entry) (results : list similar) : outcome (list similar) :=
  match fps with
  | [] => Returned results
  | fp :: rest =>
      do db_hash <- ImageHash.hex_to_hash (hash_value fp);
      do distance <- ImageHash.sub target_hash db_hash;
      if (Z.of_nat distance <=? threshold)%Z
      then scan_fingerprints target_hash threshold rest
             (results ++ [mkSimilar (filename fp) (hash_value fp) distance])
      else scan_fingerprints target_hash threshold rest results
  end.

(** The Hamming distance of two hashes given in hexadecimal:
    [popcount (q XOR h)]. *)
Definition hamming (q h : string) : nat :=
  ImageHash.popcount (N.lxor (ImageHash.int_of_hex q) (ImageHash.int_of_hex h)).

Definition within (q : string) (threshold : Z) (fp : entry) : bool :=
  (Z.of_nat (hamming q (hash_value fp)) <=? threshold)%Z.

Definition similar_of (q : string) (fp : entry) : similar :=
  mkSimilar (filename fp) (hash_value fp) (hamming q (hash_value fp)).

(** What the loop over the candidates keeps, said at once. *)
Definition similar_matches (q : string) (threshold : Z) (fps : list entry) : list similar :=
  map (similar_of q) (List.filter (within q threshold) fps).

Definition search_similar (hash_value : string) (threshold : Z)
    (all_fingerprints : option (list entry)) : outcome (list similar) :=
  let all_fingerprints :=
    match all_fingerprints with
    | None => []
    | Some l => l
    end in
  do target_hash <- ImageHash.hex_to_hash hash_value;
  scan_fingerprints target_hash threshold all_fingerprints [].

End Search.

(** ** backend/db.py

    The table [fingerprints] is the list of its rows in insertion order.  The
    engine refuses an insert whose [filename] is already present
    ([IntegrityError], from the [unique=True] column) and, when it cannot be
    reached at all, fails every statement with [db_fault]. *)

Module Db.

Record Fingerprint := mkRow { id : nat; filename : string; hash_value : string }.

Record Store := mkStore { db_rows : list Fingerprint; db_fault : option exn }.

Definition with_rows (db : Store) (rows : list Fingerprint) : Store :=
  mkStore rows (db_fault db).

Definition integrity_error : exn :=
  Exn "IntegrityError" "UNIQUE constraint failed: fingerprints.filename".

(** The integer primary key the engine assigns: one more than the greatest. *)
Definition next_id (rows : list Fingerprint) : nat := S (list_max (map id rows)).

(** [filter_by(filename=k)]. *)
Definition keyp (k : string) (r : Fingerprint) : bool := String.eqb (filename r) k.

(** [session.add(Fingerprint(filename=..., hash_value=...)); session.commit()]. *)
Definition add_commit (filename hash_value : string) (db : Store) : outcome unit * Store :=
  match db_fault db with
  | Some e => (Raised e, db)
  | None =>
      if existsb (keyp filename) (db_rows db)
      then (Raised integrity_error, db)
      else (Returned tt,
            with_rows db (db_rows db ++ [mkRow (next_id (db_rows db)) filename hash_value]))
  end.

(** [session.query(Fingerprint).filter_by(filename=filename).first()]. *)
Definition query_first (filename : string) (db : Store) : outcome (option Fingerprint) :=
  match db_fault db with
  | Some e => Raised e
  | None => Returned (List.find (keyp filename) (db_rows db))
  end.

(** [UPDATE fingerprints SET hash_value=? WHERE id=?], on one row. *)
Definition set_hash (existing_fp : Fingerprint) (hash_value : string) (r : Fingerprint)
    : Fingerprint :=
  if Nat.eqb (id r) (id existing_fp) then mkRow (id r) (filename r) hash_value else r.

(** [existing_fp.hash_value = hash_value; session.commit()]: an update of
    the row with the primary key of [existing_fp]. *)
Definition update_commit (existing_fp : Fingerprint) (hash_value : string) (db : Store)
    : outcome unit * Store :=
  match db_fault db with
  | Some e => (Raised e, db)
  | None => (Returned tt, with_rows db (map (set_hash existing_fp hash_value) (db_rows db)))
  end.

(** [init_db(drop)]. *)
Definition init_db (drop : bool) (db : Store) : Store :=
  if drop then with_rows db [] else db.

Definition save_fingerprint (filename hash_value : string) (db : Store)
    : outcome unit * Store :=
  match add_commit filename hash_value db with
  | (Returned tt, db') => (Returned tt, db')
  | (Raised e, db') =>
      if String.eqb (exn_class e) "IntegrityError" then
        (* session.rollback(), then update the existing record *)
        match query_first filename db' with
        | Returned (Some existing_fp) => update_commit existing_fp hash_value db'
        | Returned None => (Returned tt, db')
        | Raised e' => (Raised e', db')
        end
      else (Raised e, db')
  end.

Definition get_fingerprints (db : Store) : outcome (list Fingerprint) :=
  match db_fault db with
  | Some e => Raised e
  | None => Returned (db_rows db)
  end.

Definition get_fingerprint_by_filename (filename : string) (db : Store)
    : outcome (option Fingerprint) :=
  query_first filename db.

Definition delete_fingerprint (filename : string) (db : Store) : outcome bool * Store :=
  match query_first filename db with
  | Raised e => (Raised e, db)
  | Returned (Some fp) =>
      (Returned true,
       with_rows db (List.filter (fun r => negb (Nat.eqb (id r) (id fp))) (db_rows db)))
  | Returned None => (Returned false, db)
  end.

Definition count_fingerprints (db : Store) : outcome nat :=
  match db_fault db with
  | Some e => Raised e
  | None => Returned (length (db_rows db))
  end.

(** The stores a process can be in: the empty table that [init_db] creates,
    changed by the functions of this module, while the engine may become
    unreachable or reachable again at any time. *)
Inductive reachable : Store -> Prop :=
| reach_empty : reachable (mkStore [] None)
| reach_init drop db : reachable db -> reachable (init_db drop db)
| reach_save k h db : reachable db -> reachable (snd (save_fingerprint k h db))
| reach_delete k db : reachable db -> reachable (snd (delete_fingerprint k db))
| reach_fault f db : reachable db -> reachable (mkStore (db_rows db) f).

(** The records stored under a key. *)
Definition records_of (k : string) (db : Store) : list Fingerprint :=
  List.filter (keyp k) (db_rows db).

(** The unique constraint on [filename]. *)
Definition keys_unique (db : Store) : Prop := List.NoDup (map filename (db_rows db)).

End Db.

(** ** backend/main.py: the [/analyze/] endpoint *)

Module Main.

(** What the classifier hands back: one of the two dictionaries that
    [detect_deepfake] builds. *)
Inductive detection :=
| DetectionError (error : string)
| Detection (file prediction : string) (confidence : Q).

Definition detection_dict (d : detection) : list (string * value) :=
  match d with
  | DetectionError error => [("error", VStr error)]
  | Detection file prediction confidence =>
      [("file", VStr file); ("prediction", VStr prediction); ("confidence", VFloat confidence)]
  end.

(** The collaborators of a request.  The orchestrator treats the classifier
    and the report writers as opaque calls that return or raise; the
    classifier reads the file system, the report writers may write to it. *)
Record Externals := mkExternals {
  PROJECT_ROOT : string;
  uuid4_hex : string;
  detect_deepfake : FS -> string -> outcome detection;
  generate_alert : string -> value -> Q -> list value -> io string;
  generate_takedown_request : string -> value -> list value -> io string
}.

Definition UPLOAD_FOLDER (X : Externals) : string := OsPath.join (PROJECT_ROOT X) "uploads".
Definition DATASET_FOLDER (X : Externals) : string := OsPath.join (PROJECT_ROOT X) "dataset".

Record UploadFile := mkUpload { upload_filename : option string; upload_content : list byte }.

(** What a request finds and leaves: the files (the file of the database
    apart, whose content is the store), the store and the log. *)
Record World := mkWorld { w_fs : FS; w_db : Db.Store; w_log : list string }.

Inductive response :=
| HTTPException (status_code : nat) (detail : string)
| JSONResponse (status_code : nat) (content : list (string * value))
| Unhandled (e : exn).

Definition _safe_filename (X : Externals) (original_filename : string) : string :=
  let base := OsPath.basename original_filename in
  uuid4_hex X +:+ "_" +:+ base.

(** [open(dest_path, "wb")] followed by [shutil.copyfileobj]: the folder
    must exist and the destination must not be a directory. *)
Definition _save_upload_to_disk (folder : string) (upload_file : UploadFile)
    (dest_path : string) (fs : FS) : outcome FS :=
  match fs_dirs fs !! folder with
  | None => Raised (Exn "FileNotFoundError"
               ("[Errno 2] No such file or directory: '" +:+ dest_path +:+ "'"))
  | Some _ =>
      match fs_dirs fs !! dest_path with
      | Some _ => Raised (Exn "IsADirectoryError"
                    ("[Errno 21] Is a directory: '" +:+ dest_path +:+ "'"))
      | None => Returned (mkFS (<[dest_path := upload_content upload_file]> (fs_files fs))
                               (fs_dirs fs))
      end
  end.

(** Lines 117-124: the matches handed to the report writers. *)
Definition normalize_matches (search_result : list (string * value)) : list value :=
  match dict_get "matches" search_result with
  | Some (VList [VStr s]) => if String.eqb s Search.no_matches_found then [] else [VStr s]
  | Some (VList matches) => matches
  | _ => []
  end.

(** [float(confidence) if confidence is not None else 0.0], for the values
    a [detection] carries. *)
Definition confidence_float (confidence : option value) : outcome Q :=
  match confidence with
  | None | Some VNone => Returned 0%Q
  | Some (VFloat q) => Returned q
  | Some _ => Raised (Exn "TypeError" "float() argument must be a string or a real number")
  end.

Definition get_or_none (k : string) (d : list (string * value)) : value :=
  match dict_get k d with
  | Some v => v
  | None => VNone
  end.

(** STEP 2: the search, with its own [try]. *)
Definition search_stage `{Libraries} (X : Externals) (fs : FS) (file_location : string)
    : outcome (list (string * value)) :=
  Search.search_image_in_dataset fs file_location (DATASET_FOLDER X).

Definition search_result_of (searched : outcome (list (string * value)))
    : list (string * value) :=
  match searched with
  | Returned r => r
  | Raised e => [("error", VStr ("Dataset search failed: " +:+ exn_str e))]
  end.

(** STEP 4: the body of the last [try].  What the alert writer left on
    disk stays there when the takedown writer raises. *)
Definition report_stage (X : Externals) (safe_name : string)
    (detection_result : list (string * value)) (matches_list : list value)
    : io (value * value) :=
  let prediction := get_or_none "prediction" detection_result in
  let confidence := dict_get "confidence" detection_result in
  run c <- io_lift (confidence_float confidence);
  run alert_path <- generate_alert X safe_name prediction c matches_list;
  run takedown_path <- generate_takedown_request X safe_name prediction matches_list;
  io_ret (VStr alert_path, VStr takedown_path).

Definition artifacts_of (reported : outcome (value * value)) : value * value :=
  match reported with
  | Returned (alert_path, takedown_path) => (alert_path, takedown_path)
  | Raised _ => (VNone, VNone)
  end.

Definition logged {A} (m : outcome A) (message : string) (log : list string) : list string :=
  match m with
  | Returned _ => log
  | Raised _ => log ++ [message]
  end.

(** The request from the moment the fingerprint is known: persist, search,
    classify, report.  Only the report writers write to the file system. *)
Definition after_fingerprint `{Libraries} (X : Externals) (fs : FS)
    (safe_name file_location fingerprint : string) (db0 : Db.Store) (log0 : list string)
    : response * World :=
  let saved := Db.save_fingerprint safe_name fingerprint db0 in
  let db := snd saved in
  let log := logged (fst saved) "Failed to save fingerprint to DB" log0 in
  (* STEP 2: search dataset *)
  let searched := search_stage X fs file_location in
  let search_result := search_result_of searched in
  let log := logged searched "Dataset search failed" log in
  let matches_list := normalize_matches search_result in
  (* STEP 3: run deepfake detection *)
  match detect_deepfake X fs file_location with
  | Raised e =>
      (JSONResponse 500 [("error", VStr ("Deepfake detection failed: " +:+ exn_str e))],
       mkWorld fs db (log ++ ["Deepfake detection failed"]))
  | Returned detected =>
      let detection_result := detection_dict detected in
      if dict_has "error" detection_result then
        (JSONResponse 500 detection_result, mkWorld fs db (log ++ ["Detector error"]))
      else
        (* STEP 4: generate alert and takedown request *)
        let reporting := report_stage X safe_name detection_result matches_list fs in
        let reported := fst reporting in
        let log := logged reported "Failed to generate alert/takedown" log in
        (JSONResponse 200
           [("file", VStr safe_name);
            ("fingerprint", VStr fingerprint);
            ("search_result", VDict search_result);
            ("deepfake_result", VDict detection_result);
            ("alert_file", fst (artifacts_of reported));
            ("takedown_request", snd (artifacts_of reported))],
         mkWorld (snd reporting) db log)
  end.

Definition analyze_image `{Libraries} (X : Externals) (file : UploadFile) (w : World)
    : response * World :=
  match upload_filename file with
  | None | Some EmptyString => (HTTPException 400 "No filename provided.", w)
  | Some original_filename =>
      let safe_name := _safe_filename X original_filename in
      let file_location := OsPath.join (UPLOAD_FOLDER X) safe_name in
      match _save_upload_to_disk (UPLOAD_FOLDER X) file file_location (w_fs w) with
      | Raised e =>
          (HTTPException 500 ("Failed to save uploaded file: " +:+ exn_str e),
           mkWorld (w_fs w) (w_db w) (w_log w ++ ["Failed to save uploaded file"]))
      | Returned fs =>
          (* STEP 1: generate fingerprint and store in DB *)
          match Fingerprint.generate_fingerprint fs file_location false with
          | Raised e => (Unhandled e, mkWorld fs (w_db w) (w_log w))
          | Returned fingerprint =>
              if startswith fingerprint "Error" then
                (HTTPException 500 fingerprint,
                 mkWorld fs (w_db w) (w_log w ++ ["Fingerprinting error: " +:+ fingerprint]))
              else
                after_fingerprint X fs safe_name file_location fingerprint (w_db w) (w_log w)
          end
      end
  end.

(** Where the upload of a request is stored. *)
Definition file_location_of (X : Externals) (original_filename : string) : string :=
  OsPath.join (UPLOAD_FOLDER X) (_safe_filename X original_filename).

End Main.

(** ** backend/deepfake_detector.py

    What lines 48 to 54 do with a file that can be read is a parameter
    ([model]): PIL decodes the picture at the path, the transform and the
    network run on it, and the predicted class (1 is fake) comes back with
    its confidence, or one of them raises (PIL with a message that may name
    the file).  Everything happens inside one [try], so a failure comes back
    as a dictionary with the key ["error"]. *)

Module DeepfakeDetector.

Definition detect_deepfake (model : string -> list byte -> outcome (bool * Q))
    (fs : FS) (image_path : string) : outcome Main.detection :=
  try_except
    (do content <-
       match fs_files fs !! image_path with
       | Some content => Returned content
       | None =>
           match fs_dirs fs !! image_path with
           | Some _ => Raised (Exn "IsADirectoryError"
                         ("[Errno 21] Is a directory: '" +:+ image_path +:+ "'"))
           | None => Raised (Exn "FileNotFoundError"
                       ("[Errno 2] No such file or directory: '" +:+ image_path +:+ "'"))
           end
       end;
     do predicted <- model image_path content;
     let label := if fst predicted then "FAKE" else "REAL" in
     Returned (Main.Detection (OsPath.basename image_path) label (snd predicted)))
    (fun e => Returned (Main.DetectionError (exn_str e))).

End DeepfakeDetector.

(** ** backend/alert.py (what main.py imports as [alerts])

    The clock is a parameter: [timestamp] is what
    [datetime.now().strftime("%Y%m%d_%H%M%S")] gives, to the second.  The
    two-decimal rendering of a float ([{confidence:.2f}]) is a parameter as
    well.  A text file holds the bytes of its text. *)

Module Alerts.

Definition ALERTS_FOLDER : string := "alerts".

Definition nl : string := String (Ascii.ascii_of_nat 10) "".

(** [", ".join(matches)]. *)
Fixpoint join_comma (matches : list string) : string :=
  match matches with
  | [] => ""
  | m :: rest =>
      match rest with
      | [] => m
      | _ => m +:+ ", " +:+ join_comma rest
      end
  end.

(** [", ".join(matches) if matches else "None"]. *)
Definition matches_text (matches : option (list string)) : string :=
  match matches with
  | Some (m :: rest) => join_comma (m :: rest)
  | _ => "None"
  end.

(** [with open(path, "w") as f: f.write(...)]: the file is created or
    truncated.  The folder [alerts] must exist. *)
Definition write_text (path text : string) (fs : FS) : outcome FS :=
  match fs_dirs fs !! ALERTS_FOLDER with
  | None => Raised (Exn "FileNotFoundError"
               ("[Errno 2] No such file or directory: '" +:+ path +:+ "'"))
  | Some _ =>
      match fs_dirs fs !! path with
      | Some _ => Raised (Exn "IsADirectoryError"
                    ("[Errno 21] Is a directory: '" +:+ path +:+ "'"))
      | None => Returned (mkFS (<[path := String.list_byte_of_string text]> (fs_files fs))
                               (fs_dirs fs))
      end
  end.

(** What [generate_alert] writes. *)
Definition alert_text (timestamp : string) (format_2f : Q -> string)
    (image_file prediction : string) (confidence : Q) (matches : option (list string))
    : string :=
  "==== ProtectAI Alert ====" +:+ nl +:+
  "Image: " +:+ image_file +:+ nl +:+
  "Deepfake Prediction: " +:+ prediction +:+
    " (Confidence: " +:+ format_2f confidence +:+ ")" +:+ nl +:+
  "Matches Found: " +:+ matches_text matches +:+ nl +:+
  "Timestamp: " +:+ timestamp +:+ nl +:+
  "=========================" +:+ nl.

Definition alert_path (timestamp : string) : string :=
  OsPath.join ALERTS_FOLDER ("alert_" +:+ timestamp +:+ ".txt").

Definition generate_alert (timestamp : string) (format_2f : Q -> string)
    (image_file prediction : string) (confidence : Q) (matches : option (list string))
    (fs : FS) : outcome (string * FS) :=
  do fs' <- write_text (alert_path timestamp)
              (alert_text timestamp format_2f image_file prediction confidence matches) fs;
  Returned (alert_path timestamp, fs').

(** What [generate_takedown_request] writes: the line of matched files is
    there only when there are matches. *)
Definition takedown_text (timestamp : string) (image_file prediction : string)
    (matches : option (list string)) : string :=
  "To: Abuse/Privacy Team" +:+ nl +:+
  "Subject: Takedown Request - Misuse of Personal Image" +:+ nl +:+ nl +:+
  "Dear Team," +:+ nl +:+ nl +:+
  "I am writing to request the immediate removal of content that misuses my personal image ("
    +:+ image_file +:+ ")." +:+ nl +:+
  "Detection Result: " +:+ prediction +:+ nl +:+
  match matches with
  | Some (_ :: _) => "Matched Files: " +:+ matches_text matches +:+ nl
  | _ => ""
  end +:+
  nl +:+ "This violates my privacy rights. Please take urgent action." +:+ nl +:+ nl +:+
  "Sincerely," +:+ nl +:+ "User" +:+ nl +:+
  "Timestamp: " +:+ timestamp +:+ nl.

Definition takedown_path (timestamp : string) : string :=
  OsPath.join ALERTS_FOLDER ("takedown_" +:+ timestamp +:+ ".txt").

Definition generate_takedown_request (timestamp : string)
    (image_file prediction : string) (matches : option (list string))
    (fs : FS) : outcome (string * FS) :=
  do fs' <- write_text (takedown_path timestamp)
              (takedown_text timestamp image_file prediction matches) fs;
  Returned (takedown_path timestamp, fs').

(** An empty [alerts] folder. *)
Definition empty_folder : FS := mkFS ∅ (list_to_map [("alerts", [])]).

Definition two_decimals_stub : Q -> string := fun _ => "0.93".

End Alerts.

(** ** The report writers as [main.py] calls them

    [analyze_image] hands the writers of alert.py the stored name, the
    prediction it read from the verdict, the confidence and the normalized
    matches.  The clock reading of each writer is a parameter, and so is the
    text an f-string gives a prediction that is neither a string nor
    [None].  Both writers build the text of the matches before they open
    their file, so a list they cannot join leaves the disk as it was. *)

Module Reports.

(** [type(v).__name__]. *)
Definition type_name (v : value) : string :=
  match v with
  | VNone => "NoneType"
  | VStr _ => "str"
  | VFloat _ => "float"
  | VList _ => "list"
  | VDict _ => "dict"
  end.

(** The items [", ".join(matches)] accepts: strings only; the first item,
    at index [i], that is none raises. *)
Fixpoint strings_of (i : nat) (matches : list value) : outcome (list string) :=
  match matches with
  | [] => Returned []
  | VStr s :: rest => do names <- strings_of (S i) rest; Returned (s :: names)
  | v :: _ =>
      Raised (Exn "TypeError"
                ("sequence item " +:+ pretty i +:+ ": expected str instance, "
                   +:+ type_name v +:+ " found"))
  end.

(** [f"{prediction}"]. *)
Definition text_of (render : value -> string) (prediction : value) : string :=
  match prediction with
  | VStr s => s
  | VNone => "None"
  | v => render v
  end.

(** A writer of alert.py as a call on the file system: when it raises, the
    file was not opened. *)
Definition written (r : outcome (string * FS)) : io string :=
  fun fs =>
    match r with
    | Returned (path, fs') => (Returned path, fs')
    | Raised e => (Raised e, fs)
    end.

Definition generate_alert (timestamp : string) (format_2f : Q -> string)
    (render : value -> string)
    (image_file : string) (prediction : value) (confidence : Q) (matches : list value)
    : io string :=
  fun fs =>
    match strings_of 0 matches with
    | Raised e => (Raised e, fs)
    | Returned names =>
        written (Alerts.generate_alert timestamp format_2f image_file
                   (text_of render prediction) confidence (Some names) fs) fs
    end.

Definition generate_takedown_request (timestamp : string) (render : value -> string)
    (image_file : string) (prediction : value) (matches : list value) : io string :=
  fun fs =>
    match strings_of 0 matches with
    | Raised e => (Raised e, fs)
    | Returned names =>
        written (Alerts.generate_takedown_request timestamp image_file
                   (text_of render prediction) (Some names) fs) fs
    end.

(** The collaborators of the program around a given classifier: the two
    writers of alert.py, each with its reading of the clock. *)
Definition externals (root uuid : string)
    (classifier : FS -> string -> outcome Main.detection)
    (alert_time takedown_time : string) (format_2f : Q -> string)
    (render : value -> string) : Main.Externals :=
  Main.mkExternals root uuid classifier
    (generate_alert alert_time format_2f render)
    (generate_takedown_request takedown_time render).

End Reports.

(** ** Stand-ins for the libraries, used in the worked examples

    [Sample.libs] decodes a toy picture format: the magic byte [I], one byte
    of metadata that does not reach the pixels, then the pixels; a file in
    another format is refused with a message that names it, as PIL does.
    Its digest is the first 32 bytes of the zero-padded input.  The theorems
    below hold for every instance of [Libraries]; the examples run on this
    one, with the writers of alert.py at a fixed reading of the clock. *)

Module Sample.
Import Main.

Definition byte_of (n : nat) : byte :=
  match Byte.of_nat n with Some b => b | None => x00 end.

Definition unidentified (path : string) : exn :=
  Exn "UnidentifiedImageError" ("cannot identify image file '" +:+ path +:+ "'").

Definition open_toy (content : list byte) : decoding (list byte) :=
  match content with
  | magic :: _ :: pixels =>
      if Byte.eqb magic (byte_of 73) then Decoded pixels
      else Undecodable unidentified
  | _ => Undecodable unidentified
  end.

#[export] Instance libs : Libraries := {|
  image := list byte;
  Image_open_L := open_toy;
  Image_resize := fun img _ => img;
  pixel_bytes_of := fun img => img;
  sha256 := fun b => take 32 (b ++ replicate 32 x00)
|}.

(** A toy picture with the given metadata byte and pixels. *)
Definition picture (meta : nat) (pixels : list nat) : list byte :=
  byte_of 73 :: byte_of meta :: map byte_of pixels.

Definition query_bytes : list byte := picture 0 [17; 34; 51].

(** The upload folder holds the query; the dataset holds a byte-identical
    copy, a second copy, a different picture, a file that is no picture and
    a sub-directory.  [os.listdir] happens to enumerate [b.png] first.  The
    folder [alerts] of the working directory is there and empty. *)
Definition fs : FS :=
  mkFS
    (list_to_map
       [("/srv/uploads/q.png", query_bytes);
        ("/srv/uploads/bad.jpg", map byte_of [1; 2; 3]);
        ("/srv/dataset/b.png", query_bytes);
        ("/srv/dataset/a.png", query_bytes);
        ("/srv/dataset/other.png", picture 0 [9; 9; 9]);
        ("/srv/dataset/notes.txt", map byte_of [104; 105]);
        ("/srv/solo/ref.png", query_bytes);
        ("/srv/solo/other.png", picture 0 [9; 9; 9]);
        ("/srv/meta/ref.png", picture 7 [17; 34; 51]);
        ("/srv/none/other.png", picture 0 [9; 9; 9]);
        ("/opt/dataset/other.png", picture 0 [9; 9; 9])])
    (list_to_map
       [("/srv/uploads", ["q.png"; "bad.jpg"]);
        ("/srv/dataset", ["b.png"; "notes.txt"; "thumbs"; "a.png"; "other.png"]);
        ("/srv/dataset/thumbs", []);
        ("/srv/solo", ["other.png"; "ref.png"]);
        ("/srv/meta", ["ref.png"]);
        ("/srv/none", ["other.png"]);
        ("/opt/uploads", []);
        ("/opt/dataset", ["other.png"]);
        ("alerts", [])]).

(** The same files, enumerated in another order. *)
Definition fs_reordered : FS :=
  mkFS (fs_files fs)
    (<["/srv/dataset" := ["a.png"; "b.png"; "notes.txt"; "other.png"; "thumbs"]]> (fs_dirs fs)).

(** The two-decimal rendering of the confidence of the examples, 9/10. *)
Definition format_2f : Q -> string := fun _ => "0.90".

(** The examples have no prediction other than a string. *)
Definition render : value -> string := fun _ => "".

Definition clock : string := "20240101_000000".

(** Collaborators with a classifier that answers the same to every call,
    and the writers of alert.py. *)
Definition externals_at (root : string) (classifier : outcome detection) : Externals :=
  Reports.externals root "0f3a" (fun _ _ => classifier) clock clock format_2f render.

(** The file that is no picture, copied under another name. *)
Definition fs_bad_copy : FS :=
  mkFS (<["/srv/uploads/bad_copy.jpg" := map byte_of [1; 2; 3]]> (fs_files fs)) (fs_dirs fs).

Definition externals : outcome detection -> Externals := externals_at "/srv".

Definition upload : UploadFile := mkUpload (Some "holiday/q.png") query_bytes.

Definition operational_error : exn :=
  Exn "OperationalError" "unable to open database file".

Definition world (db : Db.Store) : World := mkWorld fs db [].

(** The file system once the upload is stored under [root]. *)
Definition fs_uploaded (root : string) : FS :=
  mkFS (<[root +:+ "/uploads/0f3a_q.png" := query_bytes]> (fs_files fs)) (fs_dirs fs).

Definition digest_of_query : string :=
  "1122330000000000000000000000000000000000000000000000000000000000".

End Sample.

(** ** The primary key of the table *)

Module DbKeys.

(** The primary-key constraint on [id]. *)
Definition ids_unique (db : Db.Store) : Prop := List.NoDup (map Db.id (Db.db_rows db)).

(** A small table: two files stored, the engine reachable. *)
Definition two_rows : Db.Store :=
  snd (Db.save_fingerprint "b.jpg" "h0"
         (snd (Db.save_fingerprint "a.jpg" "h1" (Db.mkStore [] None)))).

End DbKeys.

(** ** More worked examples *)

Module Sample2.

(** A dataset whose only file carries the name of the sentinel and is a
    copy of the query. *)
Definition fs_sentinel : FS :=
  mkFS
    (list_to_map
       [("/srv/uploads/q.png", Sample.query_bytes);
        ("/data/No matches found", Sample.query_bytes)])
    (list_to_map [("/data", ["No matches found"])]).

(** A project root whose [dataset] is a regular file. *)
Definition fs_dataset_is_file : FS :=
  mkFS (list_to_map [("/mnt/dataset", map Sample.byte_of [1; 2; 3])])
       (list_to_map [("/mnt/uploads", []); ("alerts", [])]).

Definition fs_dataset_is_file_uploaded : FS :=
  mkFS (<["/mnt/uploads/0f3a_q.png" := Sample.query_bytes]> (fs_files fs_dataset_is_file))
       (fs_dirs fs_dataset_is_file).

(** Collaborators whose takedown writer fails after the alert was written. *)
Definition externals_takedown_fails (classifier : outcome Main.detection) : Main.Externals :=
  Main.mkExternals "/srv" "0f3a"
    (fun _ _ => classifier)
    (Reports.generate_alert Sample.clock Sample.format_2f Sample.render)
    (fun _ _ _ fs => (Raised (Exn "OSError" "[Errno 28] No space left on device"), fs)).

(** Collaborators with the classifier of [deepfake_detector.py] around a
    given network, and the writers of alert.py. *)
Definition externals_shipped (model : string -> list byte -> outcome (bool * Q))
    : Main.Externals :=
  Reports.externals "/srv" "0f3a" (DeepfakeDetector.detect_deepfake model)
    Sample.clock Sample.clock Sample.format_2f Sample.render.

Definition broken_model : string -> list byte -> outcome (bool * Q) :=
  fun _ _ => Raised (Exn "RuntimeError" "CUDA out of memory").

(** A classifier whose decoder refuses the file, naming it. *)
Definition unreadable_model : string -> list byte -> outcome (bool * Q) :=
  fun path _ => Raised (Sample.unidentified path).

End Sample2.

(** ** The number a byte sequence denotes *)

Module Digests.

(** The big-endian value of [bs], continuing from [acc]: what [int(s, 16)]
    yields on the hexadecimal text of the bytes. *)
Definition bytes_value (bs : list byte) (acc : N) : N :=
  fold_left (fun a b => (256 * a + Byte.to_N b)%N) bs acc.

(** An entry of the store as [search_similar] takes it, holding the digest
    of [bs]. *)
Definition entry_of (name : string) (bs : list byte) : Search.entry :=
  Search.mkEntry name (Fingerprint.hexlify bs).

End Digests.

(** * Properties *)

(** ** The fingerprint engine *)

Section FingerprintFacts.
Import Fingerprint.
Context `{L : Libraries}.

Lemma hex_digit_not_E (n : N) : "E"%char <> hex_digit n.
Proof.
  unfold hex_digit.
  generalize (N.to_nat n); intros k.
  do 17 (try destruct k as [|k]); cbn; discriminate.
Qed.

Lemma prefix_Error_hex (n : N) (s : string) :
  String.prefix "Error" (String (hex_digit n) s) = false.
Proof.
  change (String.prefix "Error" (String (hex_digit n) s))
    with (if ascii_dec "E" (hex_digit n) then String.prefix "rror" s else false).
  destruct (ascii_dec "E" (hex_digit n)) as [Heq|]; [|reflexivity].
  exfalso. exact (hex_digit_not_E n Heq).
Qed.

(** A digest never contains the word the callers look for. *)
Lemma hexlify_no_Error (bs : list byte) : contains "Error" (hexlify bs) = false.
Proof.
  induction bs as [|b bs IH]; [reflexivity|].
  cbn [hexlify contains].
  rewrite !prefix_Error_hex. exact IH.
Qed.

Lemma hexlify_not_startswith_Error (bs : list byte) :
  startswith (hexlify bs) "Error" = false.
Proof.
  unfold startswith. destruct bs; [reflexivity|].
  cbn [hexlify]. apply prefix_Error_hex.
Qed.

Lemma prefix_app (p s : string) : String.prefix p (p +:+ s) = true.
Proof.
  induction p as [|c p IH]; [destruct s; reflexivity|].
  change (String.prefix (String c p) (String c p +:+ s))
    with (if ascii_dec c c then String.prefix p (p +:+ s) else false).
  destruct (ascii_dec c c); [exact IH|congruence].
Qed.

Lemma contains_prefix (p s : string) : String.prefix p s = true -> contains p s = true.
Proof. intros Hp. destruct s; cbn [contains]; rewrite Hp; reflexivity. Qed.

(** Success of the body is success of [generate_fingerprint], with the
    same digest, whatever the flag. *)
Lemma generate_fingerprint_ok fs p r d :
  fingerprint_body fs p = Returned d -> generate_fingerprint fs p r = Returned d.
Proof. unfold generate_fingerprint. intros ->. reflexivity. Qed.

Lemma generate_fingerprint_err fs p e :
  fingerprint_body fs p = Raised e ->
  generate_fingerprint fs p false = Returned (error_prefix +:+ exn_str e).
Proof. unfold generate_fingerprint. intros ->. reflexivity. Qed.

(** What the body returns is a digest. *)
Lemma fingerprint_body_digest fs p d :
  fingerprint_body fs p = Returned d -> exists bs, d = hexlify (sha256 bs).
Proof.
  unfold fingerprint_body, Py.bind.
  destruct (open_L fs p) as [img|e]; [|discriminate].
  intros [= <-]. eexists. reflexivity.
Qed.

Lemma error_string_contains_Error (msg : string) :
  contains "Error" (error_prefix +:+ msg) = true.
Proof. apply contains_prefix. reflexivity. Qed.

(** With the default flag the result is a string, never an exception. *)
Lemma generate_fingerprint_returns fs p :
  exists s, generate_fingerprint fs p false = Returned s.
Proof.
  unfold generate_fingerprint.
  destruct (fingerprint_body fs p); cbn; eauto.
Qed.

(** What the body does with a file, by what PIL makes of its content. *)
Lemma fingerprint_body_decoded fs p b img :
  fs_files fs !! p = Some b -> Image_open_L b = Decoded img ->
  fingerprint_body fs p
    = Returned (hexlify (sha256 (pixel_bytes_of (Image_resize img (128, 128))))).
Proof. intros Hb Ho. unfold fingerprint_body, open_L. rewrite Hb, Ho. reflexivity. Qed.

Lemma fingerprint_body_undecodable fs p b error :
  fs_files fs !! p = Some b -> Image_open_L b = Undecodable error ->
  fingerprint_body fs p = Raised (error p).
Proof. intros Hb Ho. unfold fingerprint_body, open_L. rewrite Hb, Ho. reflexivity. Qed.

(** At one path, the content of the file decides the result: the rest of
    the file system does not matter. *)
Lemma fingerprint_body_same_path fs1 fs2 p b :
  fs_files fs1 !! p = Some b -> fs_files fs2 !! p = Some b ->
  fingerprint_body fs1 p = fingerprint_body fs2 p.
Proof.
  intros H1 H2. unfold fingerprint_body, open_L. rewrite H1, H2. reflexivity.
Qed.

Lemma generate_fingerprint_same_path fs1 fs2 p b r :
  fs_files fs1 !! p = Some b -> fs_files fs2 !! p = Some b ->
  generate_fingerprint fs1 p r = generate_fingerprint fs2 p r.
Proof.
  intros H1 H2. unfold generate_fingerprint.
  rewrite (fingerprint_body_same_path fs1 fs2 p b H1 H2). reflexivity.
Qed.

(** A digest obtained from a file is the digest of every file with the same
    bytes, whatever its path. *)
Lemma fingerprint_body_content fs1 fs2 p1 p2 b d :
  fs_files fs1 !! p1 = Some b -> fs_files fs2 !! p2 = Some b ->
  fingerprint_body fs1 p1 = Returned d ->
  fingerprint_body fs2 p2 = Returned d.
Proof.
  intros H1 H2. unfold fingerprint_body, open_L. rewrite H1, H2.
  destruct (Image_open_L b); [|discriminate]. intros Hd. exact Hd.
Qed.

End FingerprintFacts.

(** C9.  With [raise_error] left at its default, [generate_fingerprint]
    returns for every file system and every path and never raises: a digest
    when the body of the [try] block succeeds, and otherwise the text
    ["Error generating fingerprint: "] followed by the message of the
    exception that was caught. *)
Theorem generate_fingerprint_default_never_raises `{L : Libraries}
    (fs : FS) (image_path : string) :
  is_raised (Fingerprint.generate_fingerprint fs image_path false) = false /\
  match Fingerprint.fingerprint_body fs image_path with
  | Returned digest =>
      Fingerprint.generate_fingerprint fs image_path false = Returned digest
  | Raised e =>
      Fingerprint.generate_fingerprint fs image_path false
        = Returned ("Error generating fingerprint: " +:+ exn_str e) /\
      startswith ("Error generating fingerprint: " +:+ exn_str e)
        "Error generating fingerprint: " = true
  end.
Proof.
  unfold Fingerprint.generate_fingerprint.
  destruct (Fingerprint.fingerprint_body fs image_path) as [d|e]; cbn [try_except is_raised].
  - split; reflexivity.
  - split; [reflexivity|]. split; [reflexivity|].
    unfold startswith. apply prefix_app.
Qed.

(** C1, as stated, fails: a file that is no picture makes the default call
    return an ordinary string, not a tagged failure. *)
Lemma undecodable_file_yields_plain_string :
  Fingerprint.open_L (H:=Sample.libs) Sample.fs "/srv/uploads/bad.jpg"
    = Raised (Exn "UnidentifiedImageError" "cannot identify image file '/srv/uploads/bad.jpg'") /\
  Fingerprint.generate_fingerprint (H:=Sample.libs) Sample.fs "/srv/uploads/bad.jpg" false
    = Returned "Error generating fingerprint: cannot identify image file '/srv/uploads/bad.jpg'" /\
  ~ (exists e, Fingerprint.generate_fingerprint (H:=Sample.libs)
                 Sample.fs "/srv/uploads/bad.jpg" false = Raised e).
Proof.
  split; [vm_compute; reflexivity|].
  assert (Hr : Fingerprint.generate_fingerprint (H:=Sample.libs) Sample.fs
                 "/srv/uploads/bad.jpg" false
               = Returned "Error generating fingerprint: cannot identify image file '/srv/uploads/bad.jpg'")
    by (vm_compute; reflexivity).
  split; [exact Hr|].
  intros [e He]. rewrite Hr in He. discriminate.
Qed.

(** C1, amended.  When the image cannot be opened, the default call returns
    (it does not raise) the text ["Error generating fingerprint: "] followed
    by the message, a value of the same type as a digest; only with
    [raise_error=True] is the original exception raised.  The text differs
    from every digest of the success path: a digest never contains
    ["Error"], the text starts with it, and this is what callers test. *)
Theorem fingerprint_failure_is_error_text `{L : Libraries}
    (fs : FS) (image_path : string) (e : exn) :
  Fingerprint.fingerprint_body fs image_path = Raised e ->
  let text := Fingerprint.error_prefix +:+ exn_str e in
  Fingerprint.generate_fingerprint fs image_path false = Returned text /\
  Fingerprint.generate_fingerprint fs image_path true = Raised e /\
  contains "Error" text = true /\
  startswith text "Error" = true /\
  (forall fs' p' r digest,
     Fingerprint.fingerprint_body fs' p' = Returned digest ->
     Fingerprint.generate_fingerprint fs' p' r = Returned digest /\
     digest <> text /\ contains "Error" digest = false /\
     startswith digest "Error" = false).
Proof.
  intros Hbody text.
  split; [exact (generate_fingerprint_err fs image_path e Hbody)|].
  split; [unfold Fingerprint.generate_fingerprint; rewrite Hbody; reflexivity|].
  assert (Hc : contains "Error" text = true) by apply error_string_contains_Error.
  split; [exact Hc|].
  split; [unfold startswith; exact (prefix_app "Error" _)|].
  intros fs' p' r digest Hd.
  split; [exact (generate_fingerprint_ok fs' p' r digest Hd)|].
  destruct (fingerprint_body_digest fs' p' digest Hd) as [bs ->].
  split; [|split].
  - intros Heq. rewrite <- Heq in Hc. rewrite hexlify_no_Error in Hc. discriminate.
  - apply hexlify_no_Error.
  - apply hexlify_not_startswith_Error.
Qed.

Lemma fingerprint_failure_is_error_text_witness :
  Fingerprint.generate_fingerprint (H:=Sample.libs) Sample.fs "/srv/uploads/bad.jpg" false
    = Returned (Fingerprint.error_prefix +:+ "cannot identify image file '/srv/uploads/bad.jpg'").
Proof.
  refine (proj1 (fingerprint_failure_is_error_text (L:=Sample.libs) Sample.fs
                   "/srv/uploads/bad.jpg"
                   (Exn "UnidentifiedImageError" "cannot identify image file '/srv/uploads/bad.jpg'") _)).
  vm_compute. reflexivity.
Defined.

(** C8.  The digest is a function of the bytes of the image.  When PIL
    decodes the byte sequence [b], every invocation on a file that holds [b]
    returns the same digest, the hexadecimal SHA-256 of the resized grayscale
    pixels: under whatever path the file is stored, whatever else the file
    system holds at the time of the call, and whatever the flag.  So two
    invocations on [b] yield identical digests.  When PIL does not decode
    [b] there is no digest: each invocation gives the error of the path it
    opened, and two invocations agree when they open the same path. *)
Theorem fingerprint_deterministic `{L : Libraries}
    (fs1 fs2 : FS) (p1 p2 : string) (b : list byte) (r1 r2 : bool) :
  fs_files fs1 !! p1 = Some b ->
  fs_files fs2 !! p2 = Some b ->
  match Image_open_L b with
  | Decoded img =>
      let digest :=
        Fingerprint.hexlify (sha256 (pixel_bytes_of (Image_resize img (128, 128)))) in
      Fingerprint.generate_fingerprint fs1 p1 r1 = Returned digest /\
      Fingerprint.generate_fingerprint fs2 p2 r2 = Returned digest /\
      Fingerprint.generate_fingerprint fs1 p1 r1
        = Fingerprint.generate_fingerprint fs2 p2 r2
  | Undecodable error =>
      Fingerprint.generate_fingerprint fs1 p1 false
        = Returned (Fingerprint.error_prefix +:+ exn_str (error p1)) /\
      Fingerprint.generate_fingerprint fs2 p2 false
        = Returned (Fingerprint.error_prefix +:+ exn_str (error p2)) /\
      Fingerprint.generate_fingerprint fs1 p1 true = Raised (error p1) /\
      Fingerprint.generate_fingerprint fs2 p2 true = Raised (error p2) /\
      (p1 = p2 ->
       Fingerprint.generate_fingerprint fs1 p1 r1
         = Fingerprint.generate_fingerprint fs2 p2 r1)
  end.
Proof.
  intros H1 H2.
  destruct (Image_open_L b) as [img|error] eqn:Ho.
  - cbv zeta.
    pose proof (fingerprint_body_decoded fs1 p1 b img H1 Ho) as Hb1.
    pose proof (fingerprint_body_decoded fs2 p2 b img H2 Ho) as Hb2.
    rewrite (generate_fingerprint_ok fs1 p1 r1 _ Hb1).
    rewrite (generate_fingerprint_ok fs2 p2 r2 _ Hb2).
    repeat split.
  - pose proof (fingerprint_body_undecodable fs1 p1 b error H1 Ho) as Hb1.
    pose proof (fingerprint_body_undecodable fs2 p2 b error H2 Ho) as Hb2.
    split; [exact (generate_fingerprint_err fs1 p1 _ Hb1)|].
    split; [exact (generate_fingerprint_err fs2 p2 _ Hb2)|].
    split; [unfold Fingerprint.generate_fingerprint; rewrite Hb1; reflexivity|].
    split; [unfold Fingerprint.generate_fingerprint; rewrite Hb2; reflexivity|].
    intros <-. exact (generate_fingerprint_same_path fs1 fs2 p1 b r1 H1 H2).
Qed.

Lemma fingerprint_deterministic_witness :
  Fingerprint.generate_fingerprint (H:=Sample.libs) Sample.fs "/srv/uploads/q.png" false
    = Fingerprint.generate_fingerprint (H:=Sample.libs) Sample.fs_reordered
        "/srv/dataset/a.png" true.
Proof.
  refine (proj2 (proj2 (fingerprint_deterministic (L:=Sample.libs)
            Sample.fs Sample.fs_reordered
            "/srv/uploads/q.png" "/srv/dataset/a.png" Sample.query_bytes false true _ _)));
    vm_compute; reflexivity.
Defined.

(** The error text is no function of the bytes alone: the same bytes that
    are no picture, stored under two names, give two texts, each naming its
    file. *)
Lemma error_text_names_the_file :
  fs_files Sample.fs !! "/srv/uploads/bad.jpg"
    = fs_files Sample.fs_bad_copy !! "/srv/uploads/bad_copy.jpg" /\
  Fingerprint.generate_fingerprint (H:=Sample.libs) Sample.fs "/srv/uploads/bad.jpg" false
    = Returned "Error generating fingerprint: cannot identify image file '/srv/uploads/bad.jpg'" /\
  Fingerprint.generate_fingerprint (H:=Sample.libs) Sample.fs_bad_copy
      "/srv/uploads/bad_copy.jpg" false
    = Returned
        "Error generating fingerprint: cannot identify image file '/srv/uploads/bad_copy.jpg'".
Proof. repeat split; vm_compute; reflexivity. Qed.

(** ** Exact-match search *)

Section ExactSearchFacts.
Import Fingerprint Search.
Context `{L : Libraries}.

(** The loop is the filter [exact_matches], appended to what was found. *)
Lemma scan_dataset_filter fs folder q files matches :
  scan_dataset fs folder q files matches
    = Returned (matches ++ exact_matches fs folder q files).
Proof.
  revert matches. induction files as [|file rest IH]; intros matches.
  - cbn. rewrite app_nil_r. reflexivity.
  - cbn [scan_dataset]. unfold exact_matches. cbn [List.filter].
    unfold is_exact_match at 1.
    destruct (OsPath.isfile fs (OsPath.join folder file)); cbn [andb].
    + destruct (generate_fingerprint_returns fs (OsPath.join folder file)) as [d ->].
      cbn [Py.bind].
      destruct (String.eqb d q).
      * rewrite IH. rewrite <- app_assoc. reflexivity.
      * apply IH.
    + apply IH.
Qed.

(** The outcome of the search for a query that decodes, in a dataset
    folder that is a directory. *)
Lemma search_image_in_dataset_ok fs image_path folder digest names :
  fingerprint_body fs image_path = Returned digest ->
  fs_dirs fs !! folder = Some names ->
  search_image_in_dataset fs image_path folder
    = Returned [("query", VStr (OsPath.basename image_path));
                ("matches",
                 VList (map VStr
                   match exact_matches fs folder digest names with
                   | [] => [no_matches_found]
                   | _ => exact_matches fs folder digest names
                   end))].
Proof.
  intros Hq Hdir. unfold search_image_in_dataset.
  rewrite (generate_fingerprint_ok fs image_path false digest Hq). cbn [Py.bind].
  destruct (fingerprint_body_digest fs image_path digest Hq) as [bs ->].
  rewrite hexlify_no_Error.
  unfold OsPath.exists_, OsPath.listdir. rewrite Hdir.
  rewrite (bool_decide_eq_true_2 (is_Some (Some names))) by eauto.
  rewrite orb_true_r. cbn [negb Py.bind].
  rewrite scan_dataset_filter. cbn [Py.bind app]. reflexivity.
Qed.

(** A name enumerated in the dataset whose file has the bytes of the query
    is kept. *)
Lemma identical_copy_is_match fs image_path folder digest names X b :
  fingerprint_body fs image_path = Returned digest ->
  fs_files fs !! image_path = Some b ->
  fs_files fs !! OsPath.join folder X = Some b ->
  In X names ->
  In X (exact_matches fs folder digest names).
Proof.
  intros Hq Hb HX Hin. unfold exact_matches. apply filter_In. split; [exact Hin|].
  unfold is_exact_match, OsPath.isfile.
  rewrite HX. rewrite bool_decide_eq_true_2 by eauto. cbn [andb].
  rewrite (generate_fingerprint_ok _ _ false digest
             (fingerprint_body_content fs fs image_path (OsPath.join folder X) b digest
                Hb HX Hq)).
  apply String.eqb_refl.
Qed.

Lemma NoDup_all_equal {A} (l : list A) (x : A) :
  List.NoDup l -> In x l -> (forall y, In y l -> y = x) -> l = [x].
Proof.
  intros Hnd Hin Hall. destruct l as [|a l]; [destruct Hin|].
  assert (a = x) by (apply Hall; left; reflexivity). subst a.
  destruct l as [|c l]; [reflexivity|].
  assert (c = x) by (apply Hall; right; left; reflexivity). subst c.
  inversion Hnd as [|? ? Hnotin _]. exfalso. apply Hnotin. left. reflexivity.
Qed.

Lemma search_never_raises_on_directory fs image_path folder names :
  fs_dirs fs !! folder = Some names ->
  exists r, search_image_in_dataset fs image_path folder = Returned r.
Proof.
  intros Hdir. unfold search_image_in_dataset.
  destruct (generate_fingerprint_returns fs image_path) as [q ->]. cbn [Py.bind].
  destruct (contains "Error" q); [eauto|].
  unfold OsPath.exists_, OsPath.listdir. rewrite Hdir.
  rewrite (bool_decide_eq_true_2 (is_Some (Some names))) by eauto.
  rewrite orb_true_r. cbn [negb Py.bind].
  rewrite scan_dataset_filter. cbn [Py.bind]. eauto.
Qed.

(** Whatever the search returns, its ["matches"] entry is not the empty
    list. *)
Lemma search_matches_nonempty fs image_path folder r :
  search_image_in_dataset fs image_path folder = Returned r ->
  dict_get "matches" r <> Some (VList []).
Proof.
  unfold search_image_in_dataset.
  destruct (generate_fingerprint_returns fs image_path) as [q ->]. cbn [Py.bind].
  destruct (contains "Error" q); [intros [= <-]; cbn; discriminate|].
  destruct (negb (OsPath.exists_ fs folder)); [intros [= <-]; cbn; discriminate|].
  destruct (OsPath.listdir fs folder) as [files|e]; [|discriminate]. cbn [Py.bind].
  rewrite scan_dataset_filter. cbn [Py.bind app].
  intros [= <-]. cbn.
  destruct (exact_matches fs folder q files); cbn; discriminate.
Qed.

End ExactSearchFacts.

(** C2, as stated, fails.  The dataset [/srv/none] holds no copy of the
    query, and the search answers with the list ["No matches found"], not
    with the empty list; the dataset [/srv/dataset] holds two copies, and the
    search answers with both names. *)
Lemma exact_search_sentinel_not_empty_list :
  fs_dirs Sample.fs !! "/srv/none" = Some ["other.png"] /\
  fs_files Sample.fs !! "/srv/none/other.png" <> fs_files Sample.fs !! "/srv/uploads/q.png" /\
  Search.search_image_in_dataset (H:=Sample.libs) Sample.fs "/srv/uploads/q.png" "/srv/none"
    = Returned [("query", VStr "q.png"); ("matches", VList [VStr "No matches found"])] /\
  Search.search_image_in_dataset (H:=Sample.libs) Sample.fs "/srv/uploads/q.png" "/srv/none"
    <> Returned [("query", VStr "q.png"); ("matches", VList [])] /\
  fs_files Sample.fs !! "/srv/dataset/a.png" = fs_files Sample.fs !! "/srv/uploads/q.png" /\
  Search.search_image_in_dataset (H:=Sample.libs) Sample.fs "/srv/uploads/q.png" "/srv/dataset"
    = Returned [("query", VStr "q.png"); ("matches", VList [VStr "b.png"; VStr "a.png"])].
Proof.
  assert (Hnone :
    Search.search_image_in_dataset (H:=Sample.libs) Sample.fs "/srv/uploads/q.png" "/srv/none"
    = Returned [("query", VStr "q.png"); ("matches", VList [VStr "No matches found"])])
    by (vm_compute; reflexivity).
  split; [vm_compute; reflexivity|].
  split; [vm_compute; discriminate|].
  split; [exact Hnone|].
  split; [rewrite Hnone; discriminate|].
  split; vm_compute; reflexivity.
Qed.

(** C2, amended.  For a query that decodes and a dataset folder that is a
    directory, the search returns a dictionary with the keys ["query"] and
    ["matches"] and no ["error"].  Its matches are the enumerated regular
    files whose fingerprint equals the query's, in enumeration order: every
    byte-identical copy [X] is among them, and they are exactly [[X]] when
    [X] is the only such file.  When there is none, the matches are the list
    ["No matches found"], not the empty list. *)
Theorem exact_search_lists_equal_fingerprints `{L : Libraries}
    (fs : FS) (image_path dataset_folder digest : string) (names : list string) :
  Fingerprint.fingerprint_body fs image_path = Returned digest ->
  fs_dirs fs !! dataset_folder = Some names ->
  let found := Search.exact_matches fs dataset_folder digest names in
  Search.search_image_in_dataset fs image_path dataset_folder
    = Returned [("query", VStr (OsPath.basename image_path));
                ("matches",
                 VList (map VStr match found with
                                 | [] => ["No matches found"]
                                 | _ => found
                                 end))] /\
  (forall X b,
     In X names ->
     fs_files fs !! image_path = Some b ->
     fs_files fs !! OsPath.join dataset_folder X = Some b ->
     In X found) /\
  (forall X,
     List.NoDup names -> In X found -> (forall Y, In Y found -> Y = X) ->
     found = [X]) /\
  (forall r,
     Search.search_image_in_dataset fs image_path dataset_folder = Returned r ->
     dict_has "error" r = false /\ dict_has "matches" r = true).
Proof.
  intros Hq Hdir found.
  pose proof (search_image_in_dataset_ok fs image_path dataset_folder digest names Hq Hdir)
    as Hs.
  split; [exact Hs|].
  split; [|split].
  - intros X b Hin Hb HX.
    exact (identical_copy_is_match fs image_path dataset_folder digest names X b Hq Hb HX Hin).
  - intros X Hnd Hin Hall. apply NoDup_all_equal; [|exact Hin|exact Hall].
    unfold found, Search.exact_matches. apply List.NoDup_filter. exact Hnd.
  - intros r Hr. rewrite Hs in Hr. injection Hr as <-. split; reflexivity.
Qed.

Lemma exact_search_lists_equal_fingerprints_witness :
  Search.search_image_in_dataset (H:=Sample.libs) Sample.fs "/srv/uploads/q.png" "/srv/solo"
    = Returned [("query", VStr (OsPath.basename "/srv/uploads/q.png"));
                ("matches",
                 VList (map VStr
                   match Search.exact_matches (H:=Sample.libs) Sample.fs "/srv/solo"
                           "1122330000000000000000000000000000000000000000000000000000000000"
                           ["other.png"; "ref.png"] with
                   | [] => ["No matches found"]
                   | _ => Search.exact_matches (H:=Sample.libs) Sample.fs "/srv/solo"
                            "1122330000000000000000000000000000000000000000000000000000000000"
                            ["other.png"; "ref.png"]
                   end))].
Proof.
  refine (proj1 (exact_search_lists_equal_fingerprints (L:=Sample.libs) Sample.fs
                   "/srv/uploads/q.png" "/srv/solo"
                   "1122330000000000000000000000000000000000000000000000000000000000"
                   ["other.png"; "ref.png"] _ _));
    vm_compute; reflexivity.
Defined.

(** ** Hashes and their Hamming distance *)

Section ImageHashFacts.
Import ImageHash.

Lemma lsb_bits_length w n : length (lsb_bits w n) = w.
Proof. revert n. induction w as [|w IH]; intros n; cbn; [reflexivity|]. now rewrite IH. Qed.

Lemma lsb_bits_zero w : lsb_bits w 0 = replicate w false.
Proof. induction w as [|w IH]; cbn; [reflexivity|]. now rewrite IH. Qed.

Lemma pos_bits_padded p k :
  pos_bits p ++ replicate k false = lsb_bits (length (pos_bits p) + k) (Npos p).
Proof.
  induction p as [p IH|p IH|]; cbn [pos_bits length app Nat.add lsb_bits].
  - change (N.odd (N.pos p~1)) with true. change (N.div2 (N.pos p~1)) with (N.pos p).
    now rewrite IH.
  - change (N.odd (N.pos p~0)) with false. change (N.div2 (N.pos p~0)) with (N.pos p).
    now rewrite IH.
  - change (N.odd 1) with true. change (N.div2 1) with 0%N.
    now rewrite lsb_bits_zero.
Qed.

Lemma pos_bits_length_bound w p :
  (N.pos p < 2 ^ N.of_nat w)%N -> length (pos_bits p) <= w.
Proof.
  revert p. induction w as [|w IH]; intros p Hp.
  - cbn in Hp. lia.
  - rewrite Nat2N.inj_succ, N.pow_succ_r' in Hp.
    destruct p as [p|p|]; cbn [pos_bits length].
    + apply le_n_S, IH. lia.
    + apply le_n_S, IH. lia.
    + lia.
Qed.

Lemma rev_replicate {A} k (x : A) : rev (replicate k x) = replicate k x.
Proof.
  induction k as [|k IH]; [reflexivity|].
  cbn [replicate rev]. rewrite IH.
  clear IH. induction k as [|k IH]; cbn; [reflexivity|]. now rewrite IH.
Qed.

(** The padded binary text of a number that fits, read from its end. *)
Lemma format_bin_lsb w n :
  0 < w -> (n < 2 ^ N.of_nat w)%N -> format_bin n w = rev (lsb_bits w n).
Proof.
  intros Hw Hn. unfold format_bin, bin. destruct n as [|p].
  - rewrite lsb_bits_zero, rev_replicate. cbn [length].
    destruct w as [|w]; [lia|].
    replace (S w - 1) with w by lia.
    change [false] with (replicate 1 false). rewrite <- replicate_add.
    f_equal. lia.
  - pose proof (pos_bits_length_bound w p Hn) as Hlen.
    rewrite length_rev.
    replace w with (length (pos_bits p) + (w - length (pos_bits p))) at 2 by lia.
    rewrite <- pos_bits_padded, rev_app_distr, rev_replicate. reflexivity.
Qed.

Lemma count_differing_app a1 b1 a2 b2 :
  length a1 = length b1 ->
  count_differing (a1 ++ a2) (b1 ++ b2)
    = count_differing a1 b1 + count_differing a2 b2.
Proof.
  revert b1. induction a1 as [|x a1 IH]; intros [|y b1] Hlen; cbn in *; try lia.
  rewrite IH by lia. lia.
Qed.

Lemma count_differing_rev a b :
  length a = length b -> count_differing (rev a) (rev b) = count_differing a b.
Proof.
  revert b. induction a as [|x a IH]; intros [|y b] Hlen; cbn in *; try lia.
  rewrite count_differing_app by (rewrite !length_rev; lia).
  rewrite IH by lia. cbn. lia.
Qed.

Lemma popcount_odd_div2 n :
  popcount n = (if N.odd n then 1 else 0) + popcount (N.div2 n).
Proof. destruct n as [|[p|p|]]; reflexivity. Qed.

Lemma odd_lxor a b : N.odd (N.lxor a b) = xorb (N.odd a) (N.odd b).
Proof. rewrite <- !N.bit0_odd. apply N.lxor_spec. Qed.

Lemma div2_lxor a b : N.div2 (N.lxor a b) = N.lxor (N.div2 a) (N.div2 b).
Proof. rewrite !N.div2_spec. apply N.shiftr_lxor. Qed.

Lemma div2_bound w n : (n < 2 ^ N.of_nat (S w))%N -> (N.div2 n < 2 ^ N.of_nat w)%N.
Proof.
  rewrite Nat2N.inj_succ, N.pow_succ_r'. intros Hn.
  rewrite N.div2_div. apply N.Div0.div_lt_upper_bound. exact Hn.
Qed.

(** The positions where two numbers differ are the one bits of their
    exclusive or. *)
Lemma count_differing_lsb w a b :
  (a < 2 ^ N.of_nat w)%N -> (b < 2 ^ N.of_nat w)%N ->
  count_differing (lsb_bits w a) (lsb_bits w b) = popcount (N.lxor a b).
Proof.
  revert a b. induction w as [|w IH]; intros a b Ha Hb.
  - cbn in Ha, Hb. assert (a = 0%N) by lia. assert (b = 0%N) by lia. subst. reflexivity.
  - cbn [lsb_bits count_differing].
    rewrite (IH _ _ (div2_bound w a Ha) (div2_bound w b Hb)).
    rewrite (popcount_odd_div2 (N.lxor a b)), odd_lxor, div2_lxor. reflexivity.
Qed.

Lemma count_differing_format_bin w a b :
  0 < w -> (a < 2 ^ N.of_nat w)%N -> (b < 2 ^ N.of_nat w)%N ->
  count_differing (format_bin a w) (format_bin b w) = popcount (N.lxor a b).
Proof.
  intros Hw Ha Hb. rewrite !format_bin_lsb by assumption.
  rewrite count_differing_rev by (rewrite !lsb_bits_length; reflexivity).
  apply count_differing_lsb; assumption.
Qed.

Lemma format_bin_length w n :
  0 < w -> (n < 2 ^ N.of_nat w)%N -> length (format_bin n w) = w.
Proof.
  intros Hw Hn. rewrite format_bin_lsb by assumption.
  now rewrite length_rev, lsb_bits_length.
Qed.

Lemma popcount_zero n : popcount n = 0 <-> n = 0%N.
Proof.
  split; [|intros ->; reflexivity].
  destruct n as [|p]; [reflexivity|]. cbn.
  induction p as [p IH|p IH|]; cbn; intros Hp; [lia| |lia].
  specialize (IH Hp). discriminate.
Qed.

End ImageHashFacts.

(** Membership of a given string in a given hash space, by computation. *)
Ltac in_hash_space_by_computation :=
  split; [reflexivity | split; [lia | split; [eexists; reflexivity | reflexivity]]].

Section SimilarSearchFacts.
Import ImageHash Search.

Lemma chunks_fuel_exact {A} k m :
  0 < k -> forall fuel (l : list A),
  length l = m * k -> length l <= fuel ->
  forallb (fun row => Nat.eqb (length row) k) (chunks_fuel fuel k l) = true /\
  concat (chunks_fuel fuel k l) = l.
Proof.
  intros Hk. induction m as [|m IH]; intros fuel l Hlen Hfuel.
  - destruct l; [|cbn in Hlen; lia]. destruct fuel; cbn; auto.
  - destruct l as [|x l']; [cbn in Hlen; lia|].
    destruct fuel as [|fuel]; [cbn in Hfuel; lia|].
    set (l := x :: l') in *.
    change (chunks_fuel (S fuel) k l) with (take k l :: chunks_fuel fuel k (drop k l)).
    assert (Hdrop : length (drop k l) = m * k) by (rewrite length_drop; lia).
    destruct (IH fuel (drop k l) Hdrop) as [Hrows Hcat].
    { rewrite Hdrop. unfold l in Hfuel, Hlen. cbn [length] in Hfuel, Hlen. lia. }
    cbn [forallb concat]. rewrite Hrows, Hcat, take_drop.
    rewrite length_take. split; [|reflexivity].
    rewrite andb_true_r. apply Nat.eqb_eq. lia.
Qed.

Lemma hex_value_bound c d : hex_value c = Some d -> (d < 16)%N.
Proof.
  unfold hex_value.
  destruct ((48 <=? N_of_ascii c)%N && (N_of_ascii c <=? 57)%N) eqn:H1.
  { apply andb_prop in H1 as [_ H1]. apply N.leb_le in H1. intros [= <-]. lia. }
  destruct ((97 <=? N_of_ascii c)%N && (N_of_ascii c <=? 102)%N) eqn:H2.
  { apply andb_prop in H2 as [_ H2]. apply N.leb_le in H2. intros [= <-]. lia. }
  destruct ((65 <=? N_of_ascii c)%N && (N_of_ascii c <=? 70)%N) eqn:H3.
  { apply andb_prop in H3 as [_ H3]. apply N.leb_le in H3. intros [= <-]. lia. }
  discriminate.
Qed.

Lemma int_of_hex_from_bound s acc v :
  int_of_hex_from acc s = Some v ->
  (v < (acc + 1) * 16 ^ N.of_nat (String.length s))%N.
Proof.
  revert acc. induction s as [|c s IH]; intros acc; cbn [int_of_hex_from String.length].
  - intros [= <-]. cbn. lia.
  - destruct (hex_value c) as [d|] eqn:Hd; [|discriminate].
    intros Hv. apply IH in Hv. apply hex_value_bound in Hd.
    rewrite Nat2N.inj_succ, N.pow_succ_r'. nia.
Qed.

Lemma pow16_pow2 len : (16 ^ N.of_nat len = 2 ^ N.of_nat (len * 4))%N.
Proof.
  rewrite Nat2N.inj_mul, N.mul_comm, N.pow_mul_r. reflexivity.
Qed.

Lemma in_hash_space_int len s :
  in_hash_space len s -> int16 s = Returned (int_of_hex s).
Proof.
  intros (Hlen & Hpos & [v Hv] & _). unfold int16, int_of_hex. rewrite Hv.
  destruct s; [cbn in Hlen; lia|reflexivity].
Qed.

Lemma sqrt_positive n : 0 < n -> 0 < Nat.sqrt n.
Proof.
  intros Hn. pose proof (Nat.sqrt_spec' n) as Hs.
  destruct (Nat.sqrt n); [cbn in Hs; lia|lia].
Qed.

Lemma hash_bits_pos len : 0 < len -> 0 < hash_bits len.
Proof.
  intros Hpos. unfold hash_bits.
  assert (0 < Nat.sqrt (len * 4)) by (apply sqrt_positive; lia). nia.
Qed.

(** When the bits fill the square array, every string of [len] hexadecimal
    digits is in the space. *)
Lemma hex_digits_in_square_space len s :
  String.length s = len -> 0 < len -> is_Some (int_of_hex_from 0 s) ->
  hash_bits len = len * 4 ->
  in_hash_space len s.
Proof.
  intros Hlen Hpos [v Hv] Hsq. split; [exact Hlen|]. split; [exact Hpos|].
  split; [eauto|]. unfold int_of_hex. rewrite Hv, Hsq.
  apply int_of_hex_from_bound in Hv. rewrite Hlen, pow16_pow2 in Hv. lia.
Qed.

(** In a hash space, [hex_to_hash] succeeds and the array it builds holds
    the [4 * len] bits of the number. *)
Lemma hex_to_hash_in_space len s :
  in_hash_space len s ->
  exists h, hex_to_hash s = Returned h /\
            flatten h = format_bin (int_of_hex s) (hash_bits len).
Proof.
  intros Hs. pose proof (in_hash_space_int len s Hs) as Hint.
  destruct Hs as (Hlen & Hpos & _ & Hbound).
  pose proof (hash_bits_pos len Hpos) as Hbits.
  unfold hex_to_hash. rewrite Hint, Hlen. cbn [Py.bind].
  fold (hash_bits len).
  assert (Hk : 0 < Nat.sqrt (len * 4)) by (apply sqrt_positive; lia).
  assert (Hfmt : length (format_bin (int_of_hex s) (hash_bits len))
                 = Nat.sqrt (len * 4) * Nat.sqrt (len * 4)).
  { rewrite format_bin_length by assumption. reflexivity. }
  destruct (chunks_fuel_exact _ _ Hk _ _ Hfmt (le_n _)) as [Hrows Hcat].
  unfold chunks. rewrite Hrows. eexists. split; [reflexivity|].
  unfold flatten. cbn [hash_rows]. exact Hcat.
Qed.

Lemma hex_value_hex_digit n : is_Some (hex_value (Fingerprint.hex_digit n)).
Proof.
  unfold Fingerprint.hex_digit. generalize (N.to_nat n); intros k.
  do 17 (try destruct k as [|k]); cbn; eauto.
Qed.

Lemma int_of_hex_from_hexlify bs acc :
  is_Some (int_of_hex_from acc (Fingerprint.hexlify bs)).
Proof.
  revert acc. induction bs as [|b bs IH]; intros acc; cbn [Fingerprint.hexlify int_of_hex_from].
  - eauto.
  - destruct (hex_value_hex_digit (Byte.to_N b / 16)) as [d1 ->].
    destruct (hex_value_hex_digit (Byte.to_N b mod 16)) as [d2 ->].
    apply IH.
Qed.

Lemma hexlify_length bs : String.length (Fingerprint.hexlify bs) = 2 * length bs.
Proof. induction bs as [|b bs IH]; cbn [Fingerprint.hexlify String.length length]; lia. Qed.

(** The hexadecimal text of a 32-byte digest, which is what the store
    holds, lies in the space of 256-bit hashes. *)
Lemma digest_in_hash_space bs :
  length bs = 32 -> in_hash_space 64 (Fingerprint.hexlify bs).
Proof.
  intros Hlen. apply hex_digits_in_square_space.
  - rewrite hexlify_length, Hlen. reflexivity.
  - lia.
  - apply int_of_hex_from_hexlify.
  - reflexivity.
Qed.

(** In one hash space the difference of two hashes is
    [popcount (q XOR h)]. *)
Lemma sub_in_space len q h tq th :
  in_hash_space len q -> in_hash_space len h ->
  hex_to_hash q = Returned tq -> hex_to_hash h = Returned th ->
  sub tq th = Returned (hamming q h).
Proof.
  intros Hq Hh Htq Hth.
  destruct (hex_to_hash_in_space len q Hq) as (tq' & Htq' & Hfq).
  destruct (hex_to_hash_in_space len h Hh) as (th' & Hth' & Hfh).
  rewrite Htq in Htq'. rewrite Hth in Hth'.
  injection Htq' as <-. injection Hth' as <-.
  assert (Hbq : (int_of_hex q < 2 ^ N.of_nat (hash_bits len))%N) by apply Hq.
  assert (Hbh : (int_of_hex h < 2 ^ N.of_nat (hash_bits len))%N) by apply Hh.
  assert (Hw : 0 < hash_bits len) by (apply hash_bits_pos, Hq).
  unfold sub, size. rewrite Hfq, Hfh.
  rewrite !format_bin_length by assumption. rewrite Nat.eqb_refl.
  rewrite count_differing_format_bin by assumption. reflexivity.
Qed.

Lemma scan_fingerprints_filter len q tq t fps results :
  in_hash_space len q -> hex_to_hash q = Returned tq ->
  Forall (fun fp => in_hash_space len (hash_value fp)) fps ->
  scan_fingerprints tq t fps results
    = Returned (results ++ similar_matches q t fps).
Proof.
  intros Hq Htq Hall. revert results.
  induction Hall as [|fp fps Hfp _ IH]; intros results.
  - cbn. now rewrite app_nil_r.
  - cbn [scan_fingerprints].
    destruct (hex_to_hash_in_space len _ Hfp) as (th & Hth & _).
    rewrite Hth. cbn [Py.bind].
    rewrite (sub_in_space len q (hash_value fp) tq th Hq Hfp Htq Hth). cbn [Py.bind].
    change (Z.of_nat (hamming q (hash_value fp)) <=? t)%Z with (within q t fp).
    unfold similar_matches in *. cbn [List.filter].
    destruct (within q t fp).
    + rewrite IH. cbn [map]. rewrite <- app_assoc. reflexivity.
    + apply IH.
Qed.

(** The similarity search in one hash space: it returns, and its results
    are the candidates within the threshold, in the order of the
    candidates. *)
Lemma search_similar_filter len q t fps :
  in_hash_space len q ->
  Forall (fun fp => in_hash_space len (hash_value fp)) fps ->
  search_similar q t (Some fps) = Returned (similar_matches q t fps).
Proof.
  intros Hq Hall. unfold search_similar.
  destruct (hex_to_hash_in_space len q Hq) as (tq & Htq & _).
  rewrite Htq. cbn [Py.bind].
  now rewrite (scan_fingerprints_filter len q tq t fps [] Hq Htq Hall).
Qed.

Lemma hamming_zero q h :
  hamming q h = 0 <-> int_of_hex q = int_of_hex h.
Proof.
  unfold hamming. rewrite popcount_zero. split.
  - apply N.lxor_eq.
  - intros ->. apply N.lxor_nilpotent.
Qed.

Lemma similar_of_in q t fps fp :
  In fp fps ->
  (In (similar_of q fp) (similar_matches q t fps) <-> within q t fp = true).
Proof.
  intros Hin. unfold similar_matches. rewrite in_map_iff. split.
  - intros (fp' & Heq & Hin'). apply filter_In in Hin' as [_ Hw].
    unfold within in *. unfold similar_of in Heq.
    injection Heq as _ Hh _. rewrite <- Hh. exact Hw.
  - intros Hw. exists fp. split; [reflexivity|]. apply filter_In. auto.
Qed.

End SimilarSearchFacts.

Section OrderFacts.
Import ImageHash Search.

Lemma count_differing_same l : count_differing l l = 0.
Proof. induction l as [|x l IH]; cbn; [reflexivity|]. rewrite IH. now destruct x. Qed.

(** In one hash space, two strings give the same hash exactly when their
    Hamming distance is zero. *)
Lemma hash_equal_iff_distance_zero len q h :
  in_hash_space len q -> in_hash_space len h ->
  (hex_to_hash h = hex_to_hash q <-> hamming q h = 0).
Proof.
  intros Hq Hh.
  destruct (hex_to_hash_in_space len q Hq) as (tq & Htq & _).
  destruct (hex_to_hash_in_space len h Hh) as (th & Hth & _).
  pose proof (sub_in_space len q h tq th Hq Hh Htq Hth) as Hsub.
  split.
  - rewrite Htq, Hth. intros [= ->].
    unfold sub in Hsub. rewrite Nat.eqb_refl, count_differing_same in Hsub.
    now injection Hsub as <-.
  - intros Hz. apply hamming_zero in Hz.
    pose proof (in_hash_space_int len q Hq) as Hiq.
    pose proof (in_hash_space_int len h Hh) as Hih.
    destruct Hq as (Hlq & _). destruct Hh as (Hlh & _).
    unfold hex_to_hash. rewrite Hiq, Hih, Hlq, Hlh, Hz. reflexivity.
Qed.

Lemma filter_Permutation' {A} (f : A -> bool) l l' :
  Permutation l l' -> Permutation (List.filter f l) (List.filter f l').
Proof.
  induction 1 as [|x l l' _ IH|x y l|l l' l'' _ IH1 _ IH2]; cbn.
  - constructor.
  - destruct (f x); [constructor|]; exact IH.
  - destruct (f x), (f y); try reflexivity. constructor.
  - etransitivity; eassumption.
Qed.

(** Whether a name matches depends on the regular files only. *)
Lemma is_exact_match_files `{L : Libraries} fs fs' folder q file :
  fs_files fs' = fs_files fs ->
  is_exact_match fs' folder q file = is_exact_match fs folder q file.
Proof.
  intros Hf. unfold is_exact_match, OsPath.isfile. rewrite Hf.
  destruct (fs_files fs !! OsPath.join folder file) as [b|] eqn:Hb.
  - rewrite (generate_fingerprint_same_path fs' fs (OsPath.join folder file) b false);
      [reflexivity| |exact Hb].
    rewrite Hf. exact Hb.
  - rewrite bool_decide_eq_false_2; [reflexivity|]. intros [? ?]. discriminate.
Qed.

End OrderFacts.

(** C4.  In one space of fixed-length hashes, the similarity search returns
    and keeps a candidate with hash [h] if and only if
    [popcount (q XOR h) <= t]; what it keeps carries that distance.  With
    [t = 0] a candidate is kept if and only if its hash is the hash of the
    query. *)
Theorem similar_search_hamming_bound
    (len : nat) (q : string) (t : Z) (fps : list Search.entry) :
  ImageHash.in_hash_space len q ->
  Forall (fun fp => ImageHash.in_hash_space len (Search.hash_value fp)) fps ->
  exists results,
    Search.search_similar q t (Some fps) = Returned results /\
    (forall fp, In fp fps ->
       let d := ImageHash.popcount
                  (N.lxor (ImageHash.int_of_hex q)
                          (ImageHash.int_of_hex (Search.hash_value fp))) in
       In (Search.mkSimilar (Search.filename fp) (Search.hash_value fp) d) results
       <-> (Z.of_nat d <= t)%Z) /\
    (forall r, In r results ->
       exists fp, In fp fps /\ r = Search.similar_of q fp /\
                  (Z.of_nat (Search.s_distance r) <= t)%Z) /\
    (t = 0%Z -> forall fp, In fp fps ->
       (exists d, In (Search.mkSimilar (Search.filename fp) (Search.hash_value fp) d) results)
       <-> ImageHash.hex_to_hash (Search.hash_value fp) = ImageHash.hex_to_hash q).
Proof.
  intros Hq Hall. exists (Search.similar_matches q t fps).
  split; [exact (search_similar_filter len q t fps Hq Hall)|].
  split; [|split].
  - intros fp Hin d.
    change (Search.mkSimilar (Search.filename fp) (Search.hash_value fp) d)
      with (Search.similar_of q fp).
    rewrite (similar_of_in q t fps fp Hin). unfold Search.within.
    apply Z.leb_le.
  - intros r Hr. unfold Search.similar_matches in Hr.
    apply in_map_iff in Hr as (fp & <- & Hfp).
    apply filter_In in Hfp as [Hin Hw].
    exists fp. split; [exact Hin|]. split; [reflexivity|].
    apply Z.leb_le. exact Hw.
  - intros -> fp Hin.
    assert (Hfp : ImageHash.in_hash_space len (Search.hash_value fp)).
    { rewrite Forall_forall in Hall. apply Hall. apply list_elem_of_In. exact Hin. }
    rewrite (hash_equal_iff_distance_zero len q _ Hq Hfp). split.
    + intros (d & Hd). unfold Search.similar_matches in Hd.
      apply in_map_iff in Hd as (fp' & Heq & Hfp').
      apply filter_In in Hfp' as [_ Hw].
      unfold Search.similar_of in Heq. injection Heq as _ Hh _.
      unfold Search.within in Hw. rewrite Hh in Hw. apply Z.leb_le in Hw. lia.
    + intros Hz. exists 0.
      replace (Search.mkSimilar (Search.filename fp) (Search.hash_value fp) 0)
        with (Search.similar_of q fp)
        by (unfold Search.similar_of; now rewrite Hz).
      apply (similar_of_in q 0 fps fp Hin). unfold Search.within. rewrite Hz. reflexivity.
Qed.

Lemma similar_search_hamming_bound_witness :
  exists results,
    Search.search_similar "0f0f" 1
      (Some [Search.mkEntry "a.png" "0f0e"; Search.mkEntry "b.png" "ffff"])
    = Returned results.
Proof.
  destruct (similar_search_hamming_bound 4 "0f0f" 1
              [Search.mkEntry "a.png" "0f0e"; Search.mkEntry "b.png" "ffff"])
    as (results & Hr & _).
  - in_hash_space_by_computation.
  - repeat (constructor; [in_hash_space_by_computation|]). constructor.
  - exists results. exact Hr.
Defined.

(** C6, as stated, fails.  The exact-match search lists [b.png] before
    [a.png] because the directory was enumerated that way, and lists them
    the other way round for another enumeration of the same files; the
    similarity search lists a candidate at distance 1 before one at
    distance 0, and of two candidates at the same distance the one given
    first. *)
Lemma search_results_are_not_sorted :
  Search.search_image_in_dataset (H:=Sample.libs) Sample.fs "/srv/uploads/q.png" "/srv/dataset"
    = Returned [("query", VStr "q.png"); ("matches", VList [VStr "b.png"; VStr "a.png"])] /\
  String.ltb "a.png" "b.png" = true /\
  fs_files Sample.fs_reordered = fs_files Sample.fs /\
  Search.search_image_in_dataset (H:=Sample.libs) Sample.fs_reordered
      "/srv/uploads/q.png" "/srv/dataset"
    = Returned [("query", VStr "q.png"); ("matches", VList [VStr "a.png"; VStr "b.png"])] /\
  Search.search_similar "0f0f" 5
      (Some [Search.mkEntry "far.png" "0f0e"; Search.mkEntry "near.png" "0f0f"])
    = Returned [Search.mkSimilar "far.png" "0f0e" 1; Search.mkSimilar "near.png" "0f0f" 0] /\
  Search.search_similar "0f0f" 5
      (Some [Search.mkEntry "b.png" "0f0f"; Search.mkEntry "a.png" "0f0f"])
    = Returned [Search.mkSimilar "b.png" "0f0f" 0; Search.mkSimilar "a.png" "0f0f" 0].
Proof. repeat split; vm_compute; reflexivity. Qed.

(** C6, amended.  Neither search sorts.  The exact-match search returns the
    matching names in the order in which [os.listdir] enumerates them, and
    the similarity search returns the candidates within the threshold in the
    order of [all_fingerprints].  For another order of enumeration the
    results are the same up to their order. *)
Theorem search_results_keep_enumeration_order `{L : Libraries}
    (fs : FS) (image_path dataset_folder digest : string) (names : list string)
    (len : nat) (q : string) (t : Z) (fps : list Search.entry) :
  Fingerprint.fingerprint_body fs image_path = Returned digest ->
  fs_dirs fs !! dataset_folder = Some names ->
  ImageHash.in_hash_space len q ->
  Forall (fun fp => ImageHash.in_hash_space len (Search.hash_value fp)) fps ->
  Search.search_image_in_dataset fs image_path dataset_folder
    = Returned [("query", VStr (OsPath.basename image_path));
                ("matches",
                 VList (map VStr
                   match List.filter (Search.is_exact_match fs dataset_folder digest) names with
                   | [] => ["No matches found"]
                   | found => found
                   end))] /\
  Search.search_similar q t (Some fps)
    = Returned (map (Search.similar_of q) (List.filter (Search.within q t) fps)) /\
  (forall fs' names',
     fs_files fs' = fs_files fs ->
     Permutation names names' ->
     Permutation (Search.exact_matches fs dataset_folder digest names)
                 (Search.exact_matches fs' dataset_folder digest names')) /\
  (forall fps',
     Permutation fps fps' ->
     Permutation (Search.similar_matches q t fps) (Search.similar_matches q t fps')).
Proof.
  intros Hq Hdir Hsq Hall.
  split.
  { rewrite (search_image_in_dataset_ok fs image_path dataset_folder digest names Hq Hdir).
    unfold Search.exact_matches.
    destruct (List.filter (Search.is_exact_match fs dataset_folder digest) names);
      reflexivity. }
  split; [exact (search_similar_filter len q t fps Hsq Hall)|].
  split.
  - intros fs' names' Hf Hp. unfold Search.exact_matches.
    rewrite (filter_ext (Search.is_exact_match fs' dataset_folder digest)
               (Search.is_exact_match fs dataset_folder digest))
      by (intros file; apply is_exact_match_files; exact Hf).
    apply filter_Permutation'. exact Hp.
  - intros fps' Hp. unfold Search.similar_matches.
    apply Permutation_map, filter_Permutation'. exact Hp.
Qed.

Lemma search_results_keep_enumeration_order_witness :
  Search.search_similar "0f0f" 5
      (Some [Search.mkEntry "far.png" "0f0e"; Search.mkEntry "near.png" "0f0f"])
    = Returned (map (Search.similar_of "0f0f")
                  (List.filter (Search.within "0f0f" 5)
                     [Search.mkEntry "far.png" "0f0e"; Search.mkEntry "near.png" "0f0f"])).
Proof.
  refine (proj1 (proj2 (search_results_keep_enumeration_order (L:=Sample.libs)
            Sample.fs "/srv/uploads/q.png" "/srv/dataset"
            "1122330000000000000000000000000000000000000000000000000000000000"
            ["b.png"; "notes.txt"; "thumbs"; "a.png"; "other.png"]
            4 "0f0f" 5
            [Search.mkEntry "far.png" "0f0e"; Search.mkEntry "near.png" "0f0f"]
            _ _ _ _))).
  - vm_compute. reflexivity.
  - vm_compute. reflexivity.
  - in_hash_space_by_computation.
  - repeat (constructor; [in_hash_space_by_computation|]). constructor.
Defined.

(** ** The fingerprint store *)

Section StoreFacts.
Import Db.

Lemma set_hash_filename e h r : filename (set_hash e h r) = filename r.
Proof. unfold set_hash. destruct (Nat.eqb (id r) (id e)); reflexivity. Qed.

Lemma map_filename_set_hash e h rows :
  map filename (map (set_hash e h) rows) = map filename rows.
Proof.
  induction rows as [|a rows IH]; cbn; [reflexivity|].
  now rewrite set_hash_filename, IH.
Qed.

Lemma existsb_find k rows :
  existsb (keyp k) rows = match List.find (keyp k) rows with Some _ => true | None => false end.
Proof.
  induction rows as [|a rows IH]; cbn; [reflexivity|].
  destruct (keyp k a); [reflexivity|exact IH].
Qed.

Lemma find_filter_head {A} (f : A -> bool) l :
  List.find f l = head (List.filter f l).
Proof.
  induction l as [|a l IH]; cbn; [reflexivity|].
  destruct (f a); [reflexivity|exact IH].
Qed.

Lemma filter_none_of_absent k rows :
  ~ In k (map filename rows) -> List.filter (keyp k) rows = [].
Proof.
  induction rows as [|a rows IH]; cbn; [reflexivity|]. intros Hn.
  unfold keyp at 1. destruct (String.eqb_spec (filename a) k) as [Heq|_].
  - exfalso. apply Hn. left. exact Heq.
  - apply IH. intros Hin. apply Hn. right. exact Hin.
Qed.

(** Under the unique constraint a key has at most one record. *)
Lemma keys_unique_at_most_one k rows :
  List.NoDup (map filename rows) -> length (List.filter (keyp k) rows) <= 1.
Proof.
  induction rows as [|a rows IH]; cbn; [lia|]. intros Hnd.
  inversion Hnd as [|? ? Hnotin Hnd']; subst.
  unfold keyp at 1. destruct (String.eqb_spec (filename a) k) as [Heq|_].
  - rewrite filter_none_of_absent by (rewrite <- Heq; exact Hnotin). cbn. lia.
  - apply IH. exact Hnd'.
Qed.

(** The update reaches the record of the key and no other record of it. *)
Lemma filter_after_update k h e rows :
  List.NoDup (map filename rows) ->
  List.find (keyp k) rows = Some e ->
  List.filter (keyp k) (map (set_hash e h) rows) = [mkRow (id e) k h].
Proof.
  induction rows as [|a rows IH]; cbn [List.find map List.filter]; [discriminate|].
  intros Hnd Hfind. inversion Hnd as [|? ? Hnotin Hnd']; subst.
  assert (Hk : keyp k (set_hash e h a) = keyp k a)
    by (unfold keyp; now rewrite set_hash_filename).
  rewrite Hk. destruct (keyp k a) eqn:Ha.
  - injection Hfind as <-. apply String.eqb_eq in Ha.
    unfold set_hash at 1. rewrite Nat.eqb_refl, Ha.
    f_equal. apply filter_none_of_absent.
    rewrite map_filename_set_hash, <- Ha. exact Hnotin.
  - apply IH; assumption.
Qed.

Lemma filter_app_new k h i rows :
  List.find (keyp k) rows = None ->
  List.filter (keyp k) (rows ++ [mkRow i k h]) = [mkRow i k h].
Proof.
  intros Hfind. rewrite List.filter_app.
  assert (Hnil : List.filter (keyp k) rows = []).
  { rewrite find_filter_head in Hfind.
    destruct (List.filter (keyp k) rows); [reflexivity|discriminate]. }
  rewrite Hnil. cbn. unfold keyp. cbn. now rewrite String.eqb_refl.
Qed.

Lemma find_none_not_in k rows :
  List.find (keyp k) rows = None -> ~ In k (map filename rows).
Proof.
  induction rows as [|a rows IH]; cbn; [tauto|].
  unfold keyp at 1. destruct (String.eqb_spec (filename a) k) as [Heq|Hne];
    [discriminate|].
  intros Hfind [Hin|Hin]; [congruence|]. exact (IH Hfind Hin).
Qed.

(** One upsert on a store that answers: it returns, the table keeps its
    unique keys, the key has exactly one record, with the new hash, and
    the table grows only when the key is new. *)
Lemma save_fingerprint_available db k h :
  db_fault db = None -> keys_unique db ->
  exists i,
    fst (save_fingerprint k h db) = Returned tt /\
    db_fault (snd (save_fingerprint k h db)) = None /\
    keys_unique (snd (save_fingerprint k h db)) /\
    records_of k (snd (save_fingerprint k h db)) = [mkRow i k h] /\
    (List.find (keyp k) (db_rows db) <> None ->
     length (db_rows (snd (save_fingerprint k h db))) = length (db_rows db)).
Proof.
  intros Hf Hu. unfold save_fingerprint, add_commit. rewrite Hf.
  rewrite existsb_find.
  destruct (List.find (keyp k) (db_rows db)) as [e|] eqn:Hfind.
  - cbn [integrity_error exn_class]. rewrite String.eqb_refl.
    unfold query_first. rewrite Hf, Hfind.
    unfold update_commit. rewrite Hf. cbn [fst snd].
    exists (id e). unfold keys_unique, records_of, with_rows. cbn [db_rows db_fault].
    split; [reflexivity|]. split; [exact Hf|].
    split; [rewrite map_filename_set_hash; exact Hu|].
    split; [apply filter_after_update; assumption|].
    intros _. apply length_map.
  - cbn [fst snd]. exists (next_id (db_rows db)).
    unfold keys_unique, records_of, with_rows. cbn [db_rows db_fault].
    split; [reflexivity|]. split; [exact Hf|].
    split.
    { rewrite map_app. cbn. apply List.NoDup_app; [exact Hu| |].
      - constructor; [intros []|constructor].
      - intros x Hx [<-|[]]. exact (find_none_not_in k _ Hfind Hx). }
    split; [apply filter_app_new; exact Hfind|].
    intros Hne. congruence.
Qed.

End StoreFacts.

Section StoreInvariant.
Import Db.

Lemma NoDup_map_filter {A B} (f : A -> B) (g : A -> bool) l :
  List.NoDup (map f l) -> List.NoDup (map f (List.filter g l)).
Proof.
  induction l as [|a l IH]; cbn; [auto|]. intros Hnd.
  inversion Hnd as [|? ? Hnotin Hnd']; subst.
  destruct (g a); [|auto]. cbn. constructor; [|auto].
  intros Hin. apply Hnotin. apply in_map_iff in Hin as (x & Hx & Hin).
  apply in_map_iff. exists x. split; [exact Hx|].
  apply filter_In in Hin. tauto.
Qed.

Lemma save_fingerprint_faulted db k h e :
  db_fault db = Some e -> save_fingerprint k h db = (Raised e, db).
Proof.
  intros Hf. unfold save_fingerprint, add_commit, query_first. rewrite Hf.
  destruct (String.eqb (exn_class e) "IntegrityError"); rewrite ?Hf; reflexivity.
Qed.

Lemma save_keeps_keys_unique db k h :
  keys_unique db -> keys_unique (snd (save_fingerprint k h db)).
Proof.
  intros Hu. destruct (db_fault db) as [e|] eqn:Hf.
  - rewrite (save_fingerprint_faulted db k h e Hf). exact Hu.
  - destruct (save_fingerprint_available db k h Hf Hu) as (i & _ & _ & Hu' & _).
    exact Hu'.
Qed.

Lemma delete_keeps_keys_unique db k :
  keys_unique db -> keys_unique (snd (delete_fingerprint k db)).
Proof.
  intros Hu. unfold delete_fingerprint, query_first.
  destruct (db_fault db); [exact Hu|].
  destruct (List.find (keyp k) (db_rows db)); [|exact Hu].
  unfold keys_unique, with_rows. cbn [snd db_rows].
  apply NoDup_map_filter. exact Hu.
Qed.

(** The unique constraint holds in every store the process can be in. *)
Lemma reachable_keys_unique db : reachable db -> keys_unique db.
Proof.
  induction 1 as [|drop db _ IH|k h db _ IH|k db _ IH|f db _ IH].
  - constructor.
  - destruct drop; [constructor|exact IH].
  - apply save_keeps_keys_unique. exact IH.
  - apply delete_keeps_keys_unique. exact IH.
  - exact IH.
Qed.

End StoreInvariant.

(** C3.  On a store that answers, [upsert(k, h1)] followed by
    [upsert(k, h2)] leaves exactly one record for [k], that record holds
    [h2] and is the one a lookup of [k] finds, and the second call does not
    change the count; in every reachable store a key has at most one
    record. *)
Theorem upsert_twice_one_record (db : Db.Store) (k h1 h2 : string) :
  Db.reachable db ->
  Db.db_fault db = None ->
  let first := Db.save_fingerprint k h1 db in
  let second := Db.save_fingerprint k h2 (snd first) in
  fst first = Returned tt /\
  fst second = Returned tt /\
  (exists i,
     Db.records_of k (snd second) = [Db.mkRow i k h2] /\
     Db.get_fingerprint_by_filename k (snd second) = Returned (Some (Db.mkRow i k h2))) /\
  (exists n,
     Db.count_fingerprints (snd first) = Returned n /\
     Db.count_fingerprints (snd second) = Returned n) /\
  (forall db' k', Db.reachable db' -> length (Db.records_of k' db') <= 1).
Proof.
  intros Hreach Hf first second.
  pose proof (reachable_keys_unique db Hreach) as Hu.
  destruct (save_fingerprint_available db k h1 Hf Hu) as (i1 & Hr1 & Hf1 & Hu1 & Hrec1 & _).
  fold first in Hr1, Hf1, Hu1, Hrec1.
  destruct (save_fingerprint_available (snd first) k h2 Hf1 Hu1)
    as (i2 & Hr2 & Hf2 & _ & Hrec2 & Hlen).
  fold second in Hr2, Hf2, Hrec2, Hlen.
  split; [exact Hr1|]. split; [exact Hr2|].
  split; [|split].
  - exists i2. split; [exact Hrec2|].
    unfold Db.get_fingerprint_by_filename, Db.query_first. rewrite Hf2.
    rewrite find_filter_head. unfold Db.records_of in Hrec2. rewrite Hrec2. reflexivity.
  - exists (length (Db.db_rows (snd first))).
    unfold Db.count_fingerprints. rewrite Hf1, Hf2.
    split; [reflexivity|]. f_equal. apply Hlen.
    rewrite find_filter_head. unfold Db.records_of in Hrec1. rewrite Hrec1. discriminate.
  - intros db' k' Hreach'. unfold Db.records_of.
    apply keys_unique_at_most_one. exact (reachable_keys_unique db' Hreach').
Qed.

Lemma upsert_twice_one_record_witness :
  Db.count_fingerprints
    (snd (Db.save_fingerprint "a.jpg" "h2"
            (snd (Db.save_fingerprint "a.jpg" "h1"
                    (snd (Db.save_fingerprint "b.jpg" "h0" (Db.mkStore [] None)))))))
  = Returned 2.
Proof.
  destruct (upsert_twice_one_record
              (snd (Db.save_fingerprint "b.jpg" "h0" (Db.mkStore [] None)))
              "a.jpg" "h1" "h2")
    as (_ & _ & _ & (n & Hn1 & Hn2) & _).
  - apply Db.reach_save, Db.reach_empty.
  - reflexivity.
  - vm_compute in Hn1. injection Hn1 as <-. exact Hn2.
Defined.

(** ** The analyze pipeline *)

Section PipelineFacts.
Import Main.
Context `{L : Libraries}.

(** A request whose upload is saved and fingerprinted goes on with the
    remaining stages. *)
Lemma analyze_image_reaches X file w name fs fingerprint :
  upload_filename file = Some name -> name <> "" ->
  _save_upload_to_disk (UPLOAD_FOLDER X) file (file_location_of X name) (w_fs w)
    = Returned fs ->
  Fingerprint.generate_fingerprint fs (file_location_of X name) false
    = Returned fingerprint ->
  startswith fingerprint "Error" = false ->
  analyze_image X file w
    = after_fingerprint X fs (_safe_filename X name) (file_location_of X name)
        fingerprint (w_db w) (w_log w).
Proof.
  intros Hname Hne Hsave Hfp Hok. unfold analyze_image. rewrite Hname.
  destruct name as [|c name]; [congruence|].
  fold (file_location_of X (String c name)).
  rewrite Hsave, Hfp, Hok. reflexivity.
Qed.

(** The response does not depend on the store or on the log. *)
Lemma after_fingerprint_response_any_store X fs safe_name loc fingerprint db log db' log' :
  fst (after_fingerprint X fs safe_name loc fingerprint db log)
    = fst (after_fingerprint X fs safe_name loc fingerprint db' log').
Proof.
  unfold after_fingerprint.
  destruct (detect_deepfake X fs loc) as [detected|e]; [|reflexivity].
  destruct (dict_has "error" (detection_dict detected)); reflexivity.
Qed.

Lemma analyze_image_response_any_store X file fs db log db' log' :
  fst (analyze_image X file (mkWorld fs db log))
    = fst (analyze_image X file (mkWorld fs db' log')).
Proof.
  unfold analyze_image. cbn [w_fs w_db w_log].
  destruct (upload_filename file) as [[|c name]|]; try reflexivity.
  destruct (_save_upload_to_disk _ _ _ fs) as [fs1|e]; [|reflexivity].
  destruct (Fingerprint.generate_fingerprint fs1 _ false) as [fp|e]; [|reflexivity].
  destruct (startswith fp "Error"); [reflexivity|].
  apply after_fingerprint_response_any_store.
Qed.

(** No response has a field for similar matches or for stage errors. *)
Lemma after_fingerprint_fields X fs safe_name loc fingerprint db log code content :
  fst (after_fingerprint X fs safe_name loc fingerprint db log) = JSONResponse code content ->
  dict_has "stage_errors" content = false /\ dict_has "similar_matches" content = false.
Proof.
  unfold after_fingerprint.
  destruct (detect_deepfake X fs loc) as [detected|e].
  - destruct detected as [msg|f p c]; cbn [detection_dict dict_has dict_get String.eqb];
      cbn; intros [= _ <-]; split; reflexivity.
  - cbn. intros [= _ <-]. split; reflexivity.
Qed.

Lemma after_fingerprint_verdict X fs safe_name loc fingerprint db log f p c :
  detect_deepfake X fs loc = Returned (Detection f p c) ->
  fst (after_fingerprint X fs safe_name loc fingerprint db log)
    = JSONResponse 200
        [("file", VStr safe_name);
         ("fingerprint", VStr fingerprint);
         ("search_result", VDict (search_result_of (search_stage X fs loc)));
         ("deepfake_result", VDict (detection_dict (Detection f p c)));
         ("alert_file",
          fst (artifacts_of
                 (fst (report_stage X safe_name (detection_dict (Detection f p c))
                         (normalize_matches (search_result_of (search_stage X fs loc)))
                         fs))));
         ("takedown_request",
          snd (artifacts_of
                 (fst (report_stage X safe_name (detection_dict (Detection f p c))
                         (normalize_matches (search_result_of (search_stage X fs loc)))
                         fs))))].
Proof. intros Hd. unfold after_fingerprint. rewrite Hd. reflexivity. Qed.

Lemma after_fingerprint_classifier_raises X fs safe_name loc fingerprint db log e :
  detect_deepfake X fs loc = Raised e ->
  fst (after_fingerprint X fs safe_name loc fingerprint db log)
    = JSONResponse 500 [("error", VStr ("Deepfake detection failed: " +:+ exn_str e))].
Proof. intros Hd. unfold after_fingerprint. rewrite Hd. reflexivity. Qed.

Lemma after_fingerprint_store_failure_logged X fs safe_name loc fingerprint db log e db' :
  Db.save_fingerprint safe_name fingerprint db = (Raised e, db') ->
  In "Failed to save fingerprint to DB"
     (w_log (snd (after_fingerprint X fs safe_name loc fingerprint db log))).
Proof.
  intros Hs. unfold after_fingerprint. rewrite Hs. cbn [fst snd logged].
  assert (Hin : forall {A} (m : outcome A) msg l,
             In "Failed to save fingerprint to DB" l ->
             In "Failed to save fingerprint to DB" (logged m msg l)).
  { intros A m msg l Hl. destruct m; cbn; [exact Hl|]. apply in_or_app. now left. }
  assert (H0 : In "Failed to save fingerprint to DB"
                 (logged (search_stage X fs loc) "Dataset search failed"
                    (log ++ ["Failed to save fingerprint to DB"])))
    by (apply Hin, in_or_app; right; left; reflexivity).
  destruct (detect_deepfake X fs loc) as [detected|e'].
  - destruct (dict_has "error" (detection_dict detected)); cbn [snd w_log].
    + apply in_or_app. now left.
    + apply Hin. exact H0.
  - cbn [snd w_log]. apply in_or_app. now left.
Qed.

(** The classifier of [deepfake_detector.py] reports its own failures as a
    dictionary with the key ["error"]; the endpoint answers with that
    dictionary alone, with status 500. *)
Lemma after_fingerprint_detector_error X fs safe_name loc fingerprint db log msg :
  detect_deepfake X fs loc = Returned (DetectionError msg) ->
  fst (after_fingerprint X fs safe_name loc fingerprint db log)
    = JSONResponse 500 [("error", VStr msg)].
Proof. intros Hd. unfold after_fingerprint. rewrite Hd. reflexivity. Qed.

(** A JSON answer with status 500 comes from the classifier, and from
    nothing else. *)
Lemma after_fingerprint_500 X fs safe_name loc fingerprint db log content :
  fst (after_fingerprint X fs safe_name loc fingerprint db log) = JSONResponse 500 content ->
  (exists e, detect_deepfake X fs loc = Raised e /\
             content = [("error", VStr ("Deepfake detection failed: " +:+ exn_str e))]) \/
  (exists msg, detect_deepfake X fs loc = Returned (DetectionError msg) /\
               content = [("error", VStr msg)]).
Proof.
  unfold after_fingerprint.
  destruct (detect_deepfake X fs loc) as [[msg|f p c]|e].
  - cbn. intros [= <-]. right. exists msg. split; reflexivity.
  - cbn. discriminate.
  - cbn. intros [= <-]. left. exists e. split; reflexivity.
Qed.

(** [detect_deepfake] itself never raises: what is raised inside it comes
    back as [DetectionError]. *)
Lemma detect_deepfake_never_raises (model : string -> list byte -> outcome (bool * Q))
    (fs : FS) (image_path : string) :
  is_raised (DeepfakeDetector.detect_deepfake model fs image_path) = false.
Proof.
  unfold DeepfakeDetector.detect_deepfake.
  destruct (fs_files fs !! image_path) as [content|]; cbn [Py.bind try_except is_raised].
  - destruct (model image_path content); reflexivity.
  - destruct (fs_dirs fs !! image_path); reflexivity.
Qed.

(** What [detect_deepfake] returns for a file that is there. *)
Lemma detect_deepfake_on_file (model : string -> list byte -> outcome (bool * Q))
    (fs : FS) (image_path : string) (content : list byte) :
  fs_files fs !! image_path = Some content ->
  DeepfakeDetector.detect_deepfake model fs image_path
    = match model image_path content with
      | Raised e => Returned (DetectionError (exn_str e))
      | Returned predicted =>
          Returned (Detection (OsPath.basename image_path)
                      (if fst predicted then "FAKE" else "REAL") (snd predicted))
      end.
Proof.
  intros Hf. unfold DeepfakeDetector.detect_deepfake. rewrite Hf. cbn [Py.bind].
  destruct (model image_path content); reflexivity.
Qed.

(** What [_save_upload_to_disk] leaves on disk. *)
Lemma save_upload_inv folder file dest fs fs1 :
  _save_upload_to_disk folder file dest fs = Returned fs1 ->
  fs1 = mkFS (<[dest := upload_content file]> (fs_files fs)) (fs_dirs fs).
Proof.
  unfold _save_upload_to_disk.
  destruct (fs_dirs fs !! folder); [|discriminate].
  destruct (fs_dirs fs !! dest); [discriminate|]. now intros [= <-].
Qed.

(** The sentinel of the search is an empty list for the report writers. *)
Lemma normalize_matches_sentinel search_result :
  dict_get "matches" search_result = Some (VList [VStr "No matches found"]) ->
  normalize_matches search_result = [].
Proof. intros Hm. unfold normalize_matches. rewrite Hm. reflexivity. Qed.

End PipelineFacts.

(** C7.  A failure of the classifier is answered with a single error.
    The classifier of deepfake_detector.py catches what is raised inside it
    (by PIL on the stored upload, by the transform or by the network) and
    returns the dictionary [{"error": str(e)}]; it never raises, and the
    endpoint answers with that dictionary alone and status 500.  A
    classifier call that did raise would be answered with
    ["Deepfake detection failed: ..."], again alone and with status 500.
    Whichever way the classifier failed, the only field of the response is
    ["error"]: it carries no verdict, no matches, no fingerprint and no
    artifact references.  And a JSON response with status 500 comes from a
    failure of the classifier, from nothing else. *)
Theorem classifier_failure_is_single_error `{L : Libraries}
    (X : Main.Externals) (file : Main.UploadFile) (w : Main.World)
    (name : string) (fs : FS) (fingerprint : string) :
  Main.upload_filename file = Some name -> name <> "" ->
  Main._save_upload_to_disk (Main.UPLOAD_FOLDER X) file (Main.file_location_of X name)
      (Main.w_fs w) = Returned fs ->
  Fingerprint.generate_fingerprint fs (Main.file_location_of X name) false
    = Returned fingerprint ->
  startswith fingerprint "Error" = false ->
  let file_location := Main.file_location_of X name in
  let single content :=
    dict_keys content = ["error"] /\
    Forall (fun key => dict_has key content = false)
      ["verdict"; "deepfake_result"; "exact_matches"; "similar_matches"; "search_result";
       "artifacts"; "alert_file"; "takedown_request"; "fingerprint"; "file"] in
  (forall model,
     (forall fs' path,
        Main.detect_deepfake X fs' path
          = DeepfakeDetector.detect_deepfake model fs' path) ->
     is_raised (Main.detect_deepfake X fs file_location) = false /\
     forall e,
       model file_location (Main.upload_content file) = Raised e ->
       Main.detect_deepfake X fs file_location
         = Returned (Main.DetectionError (exn_str e)) /\
       fst (Main.analyze_image X file w)
         = Main.JSONResponse 500 [("error", VStr (exn_str e))]) /\
  (forall msg,
     Main.detect_deepfake X fs file_location = Returned (Main.DetectionError msg) ->
     fst (Main.analyze_image X file w) = Main.JSONResponse 500 [("error", VStr msg)]) /\
  (forall e,
     Main.detect_deepfake X fs file_location = Raised e ->
     fst (Main.analyze_image X file w)
       = Main.JSONResponse 500
           [("error", VStr ("Deepfake detection failed: " +:+ exn_str e))]) /\
  (forall content,
     fst (Main.analyze_image X file w) = Main.JSONResponse 500 content ->
     single content /\
     ((exists e, Main.detect_deepfake X fs file_location = Raised e) \/
      (exists msg,
         Main.detect_deepfake X fs file_location = Returned (Main.DetectionError msg)))).
Proof.
  intros Hname Hne Hsave Hfp Hok file_location single.
  rewrite (analyze_image_reaches X file w name fs fingerprint Hname Hne Hsave Hfp Hok).
  fold file_location.
  split; [|split; [|split]].
  - intros model Hshipped.
    split; [rewrite Hshipped; apply detect_deepfake_never_raises|].
    intros e Hmodel.
    assert (Hd : Main.detect_deepfake X fs file_location
                 = Returned (Main.DetectionError (exn_str e))).
    { rewrite Hshipped.
      rewrite (detect_deepfake_on_file model fs file_location (Main.upload_content file)).
      - rewrite Hmodel. reflexivity.
      - rewrite (save_upload_inv _ _ _ _ _ Hsave). cbn [fs_files].
        apply lookup_insert_eq. }
    split; [exact Hd|].
    exact (after_fingerprint_detector_error _ _ _ _ _ _ _ _ Hd).
  - intros msg Hd. exact (after_fingerprint_detector_error _ _ _ _ _ _ _ _ Hd).
  - intros e Hd. exact (after_fingerprint_classifier_raises _ _ _ _ _ _ _ e Hd).
  - intros content Hr.
    destruct (after_fingerprint_500 _ _ _ _ _ _ _ _ Hr) as [(e & Hd & ->)|(msg & Hd & ->)].
    + split; [split; [reflexivity|repeat constructor]|]. left. exists e. exact Hd.
    + split; [split; [reflexivity|repeat constructor]|]. right. exists msg. exact Hd.
Qed.

Lemma classifier_failure_is_single_error_witness :
  fst (Main.analyze_image (H:=Sample.libs)
         (Sample2.externals_shipped Sample2.unreadable_model)
         Sample.upload (Sample.world DbKeys.two_rows))
  = Main.JSONResponse 500
      [("error", VStr "cannot identify image file '/srv/uploads/0f3a_q.png'")].
Proof.
  refine (proj2 (proj2 (proj1 (classifier_failure_is_single_error (L:=Sample.libs)
            (Sample2.externals_shipped Sample2.unreadable_model)
            Sample.upload (Sample.world DbKeys.two_rows)
            "holiday/q.png" (Sample.fs_uploaded "/srv") Sample.digest_of_query
            _ _ _ _ _)
          Sample2.unreadable_model _)
          (Sample.unidentified "/srv/uploads/0f3a_q.png") _)).
  - reflexivity.
  - discriminate.
  - vm_compute. reflexivity.
  - vm_compute. reflexivity.
  - vm_compute. reflexivity.
  - reflexivity.
  - reflexivity.
Defined.

(** C5, as stated, fails.  With a store that cannot be reached the
    pipeline answers with status 200, but the response has no field for
    stage errors and none for similar matches: its fields are [file],
    [fingerprint], [search_result], [deepfake_result], [alert_file] and
    [takedown_request]. *)
Lemma store_failure_leaves_no_stage_error :
  Db.save_fingerprint "0f3a_q.png" Sample.digest_of_query
      (Db.mkStore [] (Some Sample.operational_error))
    = (Raised Sample.operational_error, Db.mkStore [] (Some Sample.operational_error)) /\
  exists content,
    fst (Main.analyze_image (H:=Sample.libs)
           (Sample.externals (Returned (Main.Detection "0f3a_q.png" "FAKE" (9 # 10))))
           Sample.upload (Sample.world (Db.mkStore [] (Some Sample.operational_error))))
      = Main.JSONResponse 200 content /\
    dict_keys content
      = ["file"; "fingerprint"; "search_result"; "deepfake_result"; "alert_file";
         "takedown_request"] /\
    dict_has "stage_errors" content = false /\
    dict_has "similar_matches" content = false.
Proof.
  split; [vm_compute; reflexivity|].
  eexists. split; [vm_compute; reflexivity|].
  repeat split; vm_compute; reflexivity.
Qed.

(** C5, amended.  When persisting the fingerprint fails, the exception is
    caught and logged ("Failed to save fingerprint to DB") and nothing else
    records it: the response is the one the request gets with any other
    store, and no response has a [stage_errors] or a [similar_matches]
    field.  When the classifier returns a verdict, the response has status
    200 and carries the fingerprint, the result of the exact-match search
    and the verdict. *)
Theorem store_failure_is_logged_only `{L : Libraries}
    (X : Main.Externals) (file : Main.UploadFile) (w : Main.World)
    (name : string) (fs : FS) (fingerprint : string) (e : exn) (db' : Db.Store) :
  Main.upload_filename file = Some name -> name <> "" ->
  Main._save_upload_to_disk (Main.UPLOAD_FOLDER X) file (Main.file_location_of X name)
      (Main.w_fs w) = Returned fs ->
  Fingerprint.generate_fingerprint fs (Main.file_location_of X name) false
    = Returned fingerprint ->
  startswith fingerprint "Error" = false ->
  Db.save_fingerprint (Main._safe_filename X name) fingerprint (Main.w_db w)
    = (Raised e, db') ->
  (forall db log,
     fst (Main.analyze_image X file (Main.mkWorld (Main.w_fs w) db log))
       = fst (Main.analyze_image X file w)) /\
  In "Failed to save fingerprint to DB" (Main.w_log (snd (Main.analyze_image X file w))) /\
  (forall code content,
     fst (Main.analyze_image X file w) = Main.JSONResponse code content ->
     dict_has "stage_errors" content = false /\
     dict_has "similar_matches" content = false) /\
  (forall f p c,
     Main.detect_deepfake X fs (Main.file_location_of X name)
       = Returned (Main.Detection f p c) ->
     exists alert_file takedown_request,
       fst (Main.analyze_image X file w)
         = Main.JSONResponse 200
             [("file", VStr (Main._safe_filename X name));
              ("fingerprint", VStr fingerprint);
              ("search_result",
               VDict (Main.search_result_of
                        (Main.search_stage X fs (Main.file_location_of X name))));
              ("deepfake_result", VDict (Main.detection_dict (Main.Detection f p c)));
              ("alert_file", alert_file);
              ("takedown_request", takedown_request)]).
Proof.
  intros Hname Hne Hsave Hfp Hok Hstore.
  split; [|split; [|split]].
  - intros db log. destruct w as [wfs wdb wlog]. apply analyze_image_response_any_store.
  - rewrite (analyze_image_reaches X file w name fs fingerprint Hname Hne Hsave Hfp Hok).
    exact (after_fingerprint_store_failure_logged _ _ _ _ _ _ _ e db' Hstore).
  - intros code content.
    rewrite (analyze_image_reaches X file w name fs fingerprint Hname Hne Hsave Hfp Hok).
    apply after_fingerprint_fields.
  - intros f p c Hd.
    rewrite (analyze_image_reaches X file w name fs fingerprint Hname Hne Hsave Hfp Hok).
    rewrite (after_fingerprint_verdict _ _ _ _ _ _ _ f p c Hd).
    eexists. eexists. reflexivity.
Qed.

Lemma store_failure_is_logged_only_witness :
  In "Failed to save fingerprint to DB"
     (Main.w_log (snd (Main.analyze_image (H:=Sample.libs)
        (Sample.externals (Returned (Main.Detection "0f3a_q.png" "FAKE" (9 # 10))))
        Sample.upload (Sample.world (Db.mkStore [] (Some Sample.operational_error)))))).
Proof.
  refine (proj1 (proj2 (store_failure_is_logged_only (L:=Sample.libs)
            (Sample.externals (Returned (Main.Detection "0f3a_q.png" "FAKE" (9 # 10))))
            Sample.upload (Sample.world (Db.mkStore [] (Some Sample.operational_error)))
            "holiday/q.png" (Sample.fs_uploaded "/srv") Sample.digest_of_query
            Sample.operational_error (Db.mkStore [] (Some Sample.operational_error))
            _ _ _ _ _ _))).
  - reflexivity.
  - discriminate.
  - vm_compute. reflexivity.
  - vm_compute. reflexivity.
  - vm_compute. reflexivity.
  - vm_compute. reflexivity.
Defined.

(** C10, as stated, fails.  The dataset [/srv/meta] holds no byte-identical
    copy of the query, only a file that differs from it in its metadata byte
    and decodes to the same pixels; the search returns the name of that
    file, not the sentinel.  And for a query that is no picture the search
    returns an error dictionary with no matches at all. *)
Lemma no_identical_copy_yet_no_sentinel :
  fs_dirs Sample.fs !! "/srv/meta" = Some ["ref.png"] /\
  fs_files Sample.fs !! "/srv/meta/ref.png" <> fs_files Sample.fs !! "/srv/uploads/q.png" /\
  Search.search_image_in_dataset (H:=Sample.libs) Sample.fs "/srv/uploads/q.png" "/srv/meta"
    = Returned [("query", VStr "q.png"); ("matches", VList [VStr "ref.png"])] /\
  fs_dirs Sample.fs !! "/srv/none" = Some ["other.png"] /\
  fs_files Sample.fs !! "/srv/none/other.png" <> fs_files Sample.fs !! "/srv/uploads/bad.jpg" /\
  Search.search_image_in_dataset (H:=Sample.libs) Sample.fs "/srv/uploads/bad.jpg" "/srv/none"
    = Returned [("error",
                 VStr "Error generating fingerprint: cannot identify image file '/srv/uploads/bad.jpg'")].
Proof.
  split; [vm_compute; reflexivity|].
  split; [vm_compute; discriminate|].
  split; [vm_compute; reflexivity|].
  split; [vm_compute; reflexivity|].
  split; [vm_compute; discriminate|].
  vm_compute; reflexivity.
Qed.

(** C10, amended.  A matches list returned by the search is never empty.
    It is the sentinel ["No matches found"] when the query decodes, the
    dataset folder is a directory and no enumerated regular file has the
    fingerprint of the query (files that are no byte-identical copies may
    have it).  The analyze endpoint puts the dictionary of the search,
    unchanged, in the [search_result] field of its response, and hands the
    report writers the empty list when that dictionary holds the
    sentinel. *)
Theorem search_sentinel_exposed_and_normalized `{L : Libraries}
    (X : Main.Externals) (file : Main.UploadFile) (w : Main.World)
    (name : string) (fs : FS) (fingerprint : string)
    (f p : string) (c : Q) (sr : list (string * value)) :
  Main.upload_filename file = Some name -> name <> "" ->
  Main._save_upload_to_disk (Main.UPLOAD_FOLDER X) file (Main.file_location_of X name)
      (Main.w_fs w) = Returned fs ->
  Fingerprint.generate_fingerprint fs (Main.file_location_of X name) false
    = Returned fingerprint ->
  startswith fingerprint "Error" = false ->
  Main.detect_deepfake X fs (Main.file_location_of X name)
    = Returned (Main.Detection f p c) ->
  Search.search_image_in_dataset fs (Main.file_location_of X name) (Main.DATASET_FOLDER X)
    = Returned sr ->
  dict_get "matches" sr <> Some (VList []) /\
  (forall fs' image_path folder r,
     Search.search_image_in_dataset fs' image_path folder = Returned r ->
     dict_get "matches" r <> Some (VList [])) /\
  (forall fs' image_path folder digest names,
     Fingerprint.fingerprint_body fs' image_path = Returned digest ->
     fs_dirs fs' !! folder = Some names ->
     Search.exact_matches fs' folder digest names = [] ->
     Search.search_image_in_dataset fs' image_path folder
       = Returned [("query", VStr (OsPath.basename image_path));
                   ("matches", VList [VStr "No matches found"])]) /\
  fst (Main.analyze_image X file w)
    = Main.JSONResponse 200
        [("file", VStr (Main._safe_filename X name));
         ("fingerprint", VStr fingerprint);
         ("search_result", VDict sr);
         ("deepfake_result", VDict (Main.detection_dict (Main.Detection f p c)));
         ("alert_file",
          fst (Main.artifacts_of
                 (fst (Main.report_stage X (Main._safe_filename X name)
                         (Main.detection_dict (Main.Detection f p c))
                         (Main.normalize_matches sr) fs))));
         ("takedown_request",
          snd (Main.artifacts_of
                 (fst (Main.report_stage X (Main._safe_filename X name)
                         (Main.detection_dict (Main.Detection f p c))
                         (Main.normalize_matches sr) fs))))] /\
  (dict_get "matches" sr = Some (VList [VStr "No matches found"]) ->
   Main.normalize_matches sr = []).
Proof.
  intros Hname Hne Hsave Hfp Hok Hd Hsr.
  split; [exact (search_matches_nonempty _ _ _ sr Hsr)|].
  split; [intros fs' image_path folder r; apply search_matches_nonempty|].
  split.
  { intros fs' image_path folder digest names Hq Hdir Hnone.
    rewrite (search_image_in_dataset_ok fs' image_path folder digest names Hq Hdir).
    rewrite Hnone. reflexivity. }
  split; [|apply normalize_matches_sentinel].
  rewrite (analyze_image_reaches X file w name fs fingerprint Hname Hne Hsave Hfp Hok).
  rewrite (after_fingerprint_verdict _ _ _ _ _ _ _ f p c Hd).
  unfold Main.search_stage. rewrite Hsr. reflexivity.
Qed.

Lemma search_sentinel_exposed_and_normalized_witness :
  Main.normalize_matches
    [("query", VStr "0f3a_q.png"); ("matches", VList [VStr "No matches found"])] = [].
Proof.
  refine (proj2 (proj2 (proj2 (proj2 (search_sentinel_exposed_and_normalized
            (L:=Sample.libs)
            (Sample.externals_at "/opt"
               (Returned (Main.Detection "0f3a_q.png" "REAL" (9 # 10))))
            Sample.upload (Sample.world (Db.mkStore [] None))
            "holiday/q.png" (Sample.fs_uploaded "/opt") Sample.digest_of_query
            "0f3a_q.png" "REAL" (9 # 10)
            [("query", VStr "0f3a_q.png"); ("matches", VList [VStr "No matches found"])]
            _ _ _ _ _ _ _)))) _).
  - reflexivity.
  - discriminate.
  - vm_compute. reflexivity.
  - vm_compute. reflexivity.
  - vm_compute. reflexivity.
  - reflexivity.
  - vm_compute. reflexivity.
  - reflexivity.
Defined.

(** ** More on the fingerprint store *)

Section StoreMore.
Import Db DbKeys.

Lemma next_id_fresh rows r : In r rows -> id r < next_id rows.
Proof.
  intros Hin. unfold next_id.
  assert (Hle : list_max (map id rows) <= list_max (map id rows)) by lia.
  apply list_max_le in Hle. rewrite List.Forall_forall in Hle.
  specialize (Hle (id r) (in_map id rows r Hin)). lia.
Qed.

Lemma map_id_set_hash e h rows : map id (map (set_hash e h) rows) = map id rows.
Proof.
  induction rows as [|a rows IH]; cbn; [reflexivity|].
  rewrite IH. unfold set_hash. destruct (Nat.eqb (id a) (id e)); reflexivity.
Qed.

Lemma find_some_in {A} (f : A -> bool) l x :
  List.find f l = Some x -> In x l /\ f x = true.
Proof. apply List.find_some. Qed.

Lemma save_keeps_ids_unique db k h :
  ids_unique db -> ids_unique (snd (save_fingerprint k h db)).
Proof.
  intros Hu. destruct (db_fault db) as [e|] eqn:Hf.
  - rewrite (save_fingerprint_faulted db k h e Hf). exact Hu.
  - unfold save_fingerprint, add_commit. rewrite Hf, existsb_find.
    destruct (List.find (keyp k) (db_rows db)) as [e|] eqn:Hfind.
    + cbn [integrity_error exn_class]. rewrite String.eqb_refl.
      unfold query_first. rewrite Hf, Hfind. unfold update_commit. rewrite Hf.
      unfold ids_unique, with_rows. cbn [snd db_rows].
      rewrite map_id_set_hash. exact Hu.
    + unfold ids_unique, with_rows. cbn [snd db_rows].
      rewrite map_app. cbn. apply List.NoDup_app; [exact Hu| |].
      * constructor; [intros []|constructor].
      * intros x Hx [<-|[]]. apply in_map_iff in Hx as (r & Hr & Hin).
        pose proof (next_id_fresh _ r Hin). lia.
Qed.

Lemma delete_keeps_ids_unique db k :
  ids_unique db -> ids_unique (snd (delete_fingerprint k db)).
Proof.
  intros Hu. unfold delete_fingerprint, query_first.
  destruct (db_fault db); [exact Hu|].
  destruct (List.find (keyp k) (db_rows db)); [|exact Hu].
  unfold ids_unique, with_rows. cbn [snd db_rows].
  apply NoDup_map_filter. exact Hu.
Qed.

(** The primary keys are distinct in every store the process can be in. *)
Lemma reachable_ids_unique db : reachable db -> ids_unique db.
Proof.
  induction 1 as [|drop db _ IH|k h db _ IH|k db _ IH|f db _ IH].
  - constructor.
  - destruct drop; [constructor|exact IH].
  - apply save_keeps_ids_unique. exact IH.
  - apply delete_keeps_ids_unique. exact IH.
  - exact IH.
Qed.

Lemma same_id_same_row rows r e :
  List.NoDup (map id rows) -> In r rows -> In e rows -> id r = id e -> r = e.
Proof.
  induction rows as [|a rows IH]; cbn; [tauto|].
  intros Hnd Hr He Hid. inversion Hnd as [|? ? Hnotin Hnd']; subst.
  destruct Hr as [<-|Hr], He as [<-|He]; [reflexivity| | |auto].
  - exfalso. apply Hnotin. rewrite Hid. apply in_map. exact He.
  - exfalso. apply Hnotin. rewrite <- Hid. apply in_map. exact Hr.
Qed.

(** A change of rows that keeps the filenames and leaves the rows of a key
    alone does not change what is stored under that key. *)
Lemma filter_map_frame k' (f : Fingerprint -> Fingerprint) rows :
  (forall r, In r rows -> filename (f r) = filename r) ->
  (forall r, In r rows -> keyp k' r = true -> f r = r) ->
  List.filter (keyp k') (map f rows) = List.filter (keyp k') rows.
Proof.
  induction rows as [|a rows IH]; intros Hname Hsame; cbn [map List.filter]; [reflexivity|].
  assert (Hk : keyp k' (f a) = keyp k' a)
    by (unfold keyp; rewrite Hname; [reflexivity|left; reflexivity]).
  rewrite Hk. rewrite IH;
    [| intros r Hr; apply Hname; right; exact Hr
     | intros r Hr Hr'; apply Hsame; [right; exact Hr|exact Hr'] ].
  destruct (keyp k' a) eqn:Ha; [|reflexivity].
  rewrite (Hsame a (or_introl eq_refl) Ha). reflexivity.
Qed.

(** The rows of another key after an upsert of [k]. *)
Lemma save_fingerprint_frame db k h k' :
  db_fault db = None -> ids_unique db -> k' <> k ->
  records_of k' (snd (save_fingerprint k h db)) = records_of k' db.
Proof.
  intros Hf Hids Hne. unfold save_fingerprint, add_commit. rewrite Hf, existsb_find.
  destruct (List.find (keyp k) (db_rows db)) as [e|] eqn:Hfind.
  - cbn [integrity_error exn_class]. rewrite String.eqb_refl.
    unfold query_first. rewrite Hf, Hfind. unfold update_commit. rewrite Hf.
    unfold records_of, with_rows. cbn [snd db_rows].
    apply find_some_in in Hfind as [Hin He]. apply String.eqb_eq in He.
    apply filter_map_frame.
    + intros r _. apply set_hash_filename.
    + intros r Hr Hk. unfold set_hash.
      destruct (Nat.eqb_spec (id r) (id e)) as [Hid|]; [|reflexivity].
      pose proof (same_id_same_row _ r e Hids Hr Hin Hid) as ->.
      apply String.eqb_eq in Hk. congruence.
  - unfold records_of, with_rows. cbn [snd db_rows].
    rewrite List.filter_app. cbn [List.filter]. unfold keyp at 2. cbn [filename].
    destruct (String.eqb_spec k k') as [Heq|_]; [congruence|]. apply app_nil_r.
Qed.

(** Removing the row of a primary key removes one row. *)
Lemma filter_other_ids_length rows fp :
  List.NoDup (map id rows) -> In fp rows ->
  S (length (List.filter (fun r => negb (Nat.eqb (id r) (id fp))) rows)) = length rows.
Proof.
  induction rows as [|a rows IH]; cbn [In]; [tauto|].
  intros Hnd Hin. inversion Hnd as [|? ? Hnotin Hnd']; subst. cbn [List.filter length].
  destruct (Nat.eqb_spec (id a) (id fp)) as [Hid|Hid]; cbn [negb].
  - f_equal. clear IH.
    assert (Hall : forall r, In r rows -> negb (Nat.eqb (id r) (id fp)) = true).
    { intros r Hr. destruct (Nat.eqb_spec (id r) (id fp)) as [Hr'|]; [|reflexivity].
      exfalso. apply Hnotin. rewrite Hid, <- Hr'. apply in_map. exact Hr. }
    clear -Hall. induction rows as [|b rows IH]; cbn; [reflexivity|].
    rewrite (Hall b (or_introl eq_refl)). cbn. f_equal. apply IH.
    intros r Hr. apply Hall. right. exact Hr.
  - destruct Hin as [<-|Hin]; [congruence|]. cbn [length]. f_equal. apply IH; assumption.
Qed.

Lemma filter_keyp_filter_ids k' fp rows :
  List.NoDup (map id rows) -> In fp rows -> filename fp <> k' ->
  List.filter (keyp k') (List.filter (fun r => negb (Nat.eqb (id r) (id fp))) rows)
    = List.filter (keyp k') rows.
Proof.
  intros Hnd Hin Hne.
  assert (Hall : forall r, In r rows -> keyp k' r = true ->
                           negb (Nat.eqb (id r) (id fp)) = true).
  { intros r Hr Hk. destruct (Nat.eqb_spec (id r) (id fp)) as [Hid|]; [|reflexivity].
    pose proof (same_id_same_row _ r fp Hnd Hr Hin Hid) as ->.
    apply String.eqb_eq in Hk. congruence. }
  clear Hnd Hin. induction rows as [|a rows IH]; cbn [List.filter]; [reflexivity|].
  destruct (negb (Nat.eqb (id a) (id fp))) eqn:Ha; cbn [List.filter].
  - rewrite IH by (intros r Hr Hr'; apply Hall; [right; exact Hr|exact Hr']). reflexivity.
  - rewrite IH by (intros r Hr Hr'; apply Hall; [right; exact Hr|exact Hr']).
    destruct (keyp k' a) eqn:Hk; [|reflexivity].
    rewrite (Hall a (or_introl eq_refl) Hk) in Ha. discriminate.
Qed.

End StoreMore.

Section StoreRoundTrips.
Import Db DbKeys.

Lemma same_key_same_row rows r e :
  List.NoDup (map filename rows) -> In r rows -> In e rows ->
  filename r = filename e -> r = e.
Proof.
  induction rows as [|a rows IH]; cbn; [tauto|].
  intros Hnd Hr He Hk. inversion Hnd as [|? ? Hnotin Hnd']; subst.
  destruct Hr as [<-|Hr], He as [<-|He]; [reflexivity| | |auto].
  - exfalso. apply Hnotin. rewrite Hk. apply in_map. exact He.
  - exfalso. apply Hnotin. rewrite <- Hk. apply in_map. exact Hr.
Qed.

Lemma empty_of_no_member {A} (l : list A) : (forall x, ~ In x l) -> l = [].
Proof. destruct l as [|a l]; [reflexivity|]. intros H. destruct (H a). left. reflexivity. Qed.

Lemma filter_key_after_delete rows fp :
  List.NoDup (map filename rows) -> In fp rows ->
  List.filter (keyp (filename fp))
    (List.filter (fun r => negb (Nat.eqb (id r) (id fp))) rows) = [].
Proof.
  intros Hnd Hin. apply empty_of_no_member. intros r Hr.
  apply filter_In in Hr as [Hr Hk]. apply filter_In in Hr as [Hr Hid].
  apply String.eqb_eq in Hk.
  pose proof (same_key_same_row rows r fp Hnd Hr Hin Hk) as ->.
  rewrite Nat.eqb_refl in Hid. discriminate.
Qed.

Lemma lookup_is_head_of_records k db :
  db_fault db = None ->
  get_fingerprint_by_filename k db = Returned (head (records_of k db)).
Proof.
  intros Hf. unfold get_fingerprint_by_filename, query_first, records_of.
  rewrite Hf, find_filter_head. reflexivity.
Qed.

Lemma save_fault_unchanged db k h :
  db_fault (snd (save_fingerprint k h db)) = db_fault db.
Proof.
  destruct (db_fault db) as [e|] eqn:Hf.
  - rewrite (save_fingerprint_faulted db k h e Hf). exact Hf.
  - unfold save_fingerprint, add_commit. rewrite Hf.
    destruct (existsb (keyp k) (db_rows db)); [|exact Hf].
    cbn [integrity_error exn_class]. rewrite String.eqb_refl.
    unfold query_first. rewrite Hf.
    destruct (List.find (keyp k) (db_rows db)); [|exact Hf].
    unfold update_commit. rewrite Hf. exact Hf.
Qed.

End StoreRoundTrips.

(** X1.  On a store that answers, a lookup after [save_fingerprint k h]
    finds a record of [k] with the hash [h], and the lookup of every other
    key gives what it gave before. *)
Theorem save_then_lookup (db : Db.Store) (k h : string) :
  Db.reachable db ->
  Db.db_fault db = None ->
  let db' := snd (Db.save_fingerprint k h db) in
  (exists i, Db.get_fingerprint_by_filename k db' = Returned (Some (Db.mkRow i k h))) /\
  (forall k', k' <> k ->
     Db.get_fingerprint_by_filename k' db' = Db.get_fingerprint_by_filename k' db).
Proof.
  intros Hreach Hf db'.
  pose proof (reachable_keys_unique db Hreach) as Hu.
  pose proof (reachable_ids_unique db Hreach) as Hids.
  destruct (save_fingerprint_available db k h Hf Hu) as (i & _ & Hf' & _ & Hrec & _).
  fold db' in Hf', Hrec.
  split.
  - exists i. rewrite (lookup_is_head_of_records k db' Hf'), Hrec. reflexivity.
  - intros k' Hne.
    rewrite (lookup_is_head_of_records k' db' Hf'), (lookup_is_head_of_records k' db Hf).
    unfold db'. rewrite (save_fingerprint_frame db k h k' Hf Hids Hne). reflexivity.
Qed.

Lemma save_then_lookup_witness :
  exists i,
    Db.get_fingerprint_by_filename "a.jpg"
      (snd (Db.save_fingerprint "a.jpg" "h9" DbKeys.two_rows))
    = Returned (Some (Db.mkRow i "a.jpg" "h9")).
Proof.
  refine (proj1 (save_then_lookup DbKeys.two_rows "a.jpg" "h9" _ _)).
  - unfold DbKeys.two_rows. apply Db.reach_save, Db.reach_save, Db.reach_empty.
  - reflexivity.
Defined.

(** X2.  On a store that answers, [save_fingerprint] adds one to the count
    when the key is new and leaves the count as it is when the key is
    stored already. *)
Theorem save_count (db : Db.Store) (k h : string) :
  Db.reachable db ->
  Db.db_fault db = None ->
  Db.count_fingerprints (snd (Db.save_fingerprint k h db))
    = Returned (match Db.get_fingerprint_by_filename k db with
                | Returned (Some _) => length (Db.db_rows db)
                | _ => S (length (Db.db_rows db))
                end).
Proof.
  intros Hreach Hf. unfold Db.count_fingerprints. rewrite save_fault_unchanged, Hf.
  f_equal. unfold Db.get_fingerprint_by_filename, Db.query_first. rewrite Hf.
  unfold Db.save_fingerprint, Db.add_commit. rewrite Hf, existsb_find.
  destruct (List.find (Db.keyp k) (Db.db_rows db)) as [e|] eqn:Hfind.
  - cbn [Db.integrity_error exn_class]. rewrite String.eqb_refl.
    unfold Db.query_first. rewrite Hf, Hfind. unfold Db.update_commit. rewrite Hf.
    cbn [snd Db.with_rows Db.db_rows]. apply length_map.
  - cbn [snd Db.with_rows Db.db_rows]. rewrite length_app. cbn. lia.
Qed.

Lemma save_count_witness :
  Db.count_fingerprints (snd (Db.save_fingerprint "c.jpg" "h2" DbKeys.two_rows))
    = Returned 3.
Proof.
  refine (eq_trans (save_count DbKeys.two_rows "c.jpg" "h2" _ _) _).
  - unfold DbKeys.two_rows. apply Db.reach_save, Db.reach_save, Db.reach_empty.
  - reflexivity.
  - reflexivity.
Defined.

(** X3.  On a store that answers, [delete_fingerprint k] returns whether
    [k] was stored; afterwards a lookup of [k] finds nothing, the lookup of
    every other key gives what it gave before, the count is one less when
    [k] was stored, and deleting [k] again returns [False] and changes
    nothing. *)
Theorem delete_removes_only_the_key (db : Db.Store) (k : string) :
  Db.reachable db ->
  Db.db_fault db = None ->
  let stored := match Db.get_fingerprint_by_filename k db with
                | Returned (Some _) => true
                | _ => false
                end in
  let db' := snd (Db.delete_fingerprint k db) in
  fst (Db.delete_fingerprint k db) = Returned stored /\
  Db.get_fingerprint_by_filename k db' = Returned None /\
  (forall k', k' <> k ->
     Db.get_fingerprint_by_filename k' db' = Db.get_fingerprint_by_filename k' db) /\
  Db.count_fingerprints db'
    = Returned (if stored then length (Db.db_rows db) - 1 else length (Db.db_rows db)) /\
  Db.delete_fingerprint k db' = (Returned false, db').
Proof.
  intros Hreach Hf stored db'.
  pose proof (reachable_keys_unique db Hreach) as Hu.
  pose proof (reachable_ids_unique db Hreach) as Hids.
  assert (Hgone : Db.get_fingerprint_by_filename k db' = Returned None /\
                  Db.db_fault db' = None).
  { unfold db', Db.delete_fingerprint, Db.get_fingerprint_by_filename, Db.query_first.
    rewrite Hf. destruct (List.find (Db.keyp k) (Db.db_rows db)) as [fp|] eqn:Hfind.
    - cbn [snd Db.with_rows Db.db_fault Db.db_rows]. rewrite Hf. split; [|reflexivity].
      apply find_some_in in Hfind as [Hin Hk]. apply String.eqb_eq in Hk.
      rewrite find_filter_head, <- Hk, (filter_key_after_delete _ fp Hu Hin). reflexivity.
    - cbn [snd]. rewrite Hf, Hfind. split; reflexivity. }
  destruct Hgone as [Hgone Hf'].
  assert (Hfind : Db.get_fingerprint_by_filename k db
                  = Returned (List.find (Db.keyp k) (Db.db_rows db))).
  { unfold Db.get_fingerprint_by_filename, Db.query_first. rewrite Hf. reflexivity. }
  split; [|split; [exact Hgone|split; [|split]]].
  - unfold stored. rewrite Hfind. unfold Db.delete_fingerprint, Db.query_first. rewrite Hf.
    destruct (List.find (Db.keyp k) (Db.db_rows db)); reflexivity.
  - intros k' Hne.
    rewrite (lookup_is_head_of_records k' db' Hf'), (lookup_is_head_of_records k' db Hf).
    f_equal. unfold db', Db.delete_fingerprint, Db.query_first, Db.records_of. rewrite Hf.
    destruct (List.find (Db.keyp k) (Db.db_rows db)) as [fp|] eqn:Hfp; [|reflexivity].
    cbn [snd Db.with_rows Db.db_rows].
    apply find_some_in in Hfp as [Hin Hk]. apply String.eqb_eq in Hk.
    rewrite filter_keyp_filter_ids; [reflexivity|exact Hids|exact Hin|congruence].
  - unfold stored. rewrite Hfind. unfold Db.count_fingerprints. rewrite Hf'. f_equal.
    unfold db', Db.delete_fingerprint, Db.query_first. rewrite Hf.
    destruct (List.find (Db.keyp k) (Db.db_rows db)) as [fp|] eqn:Hfp; [|reflexivity].
    cbn [snd Db.with_rows Db.db_rows].
    apply find_some_in in Hfp as [Hin _].
    pose proof (filter_other_ids_length _ fp Hids Hin). lia.
  - unfold Db.get_fingerprint_by_filename in Hgone.
    unfold Db.delete_fingerprint. rewrite Hgone. reflexivity.
Qed.

Lemma delete_removes_only_the_key_witness :
  fst (Db.delete_fingerprint "a.jpg" DbKeys.two_rows) = Returned true.
Proof.
  refine (proj1 (delete_removes_only_the_key DbKeys.two_rows "a.jpg" _ _)).
  - unfold DbKeys.two_rows. apply Db.reach_save, Db.reach_save, Db.reach_empty.
  - reflexivity.
Defined.

(** X4.  On a store that answers, storing a new key and deleting it again
    gives back the table as it was, row for row. *)
Theorem save_then_delete_restores (db : Db.Store) (k h : string) :
  Db.reachable db ->
  Db.db_fault db = None ->
  Db.get_fingerprint_by_filename k db = Returned None ->
  Db.delete_fingerprint k (snd (Db.save_fingerprint k h db)) = (Returned true, db).
Proof.
  intros Hreach Hf Hnone.
  unfold Db.get_fingerprint_by_filename, Db.query_first in Hnone. rewrite Hf in Hnone.
  injection Hnone as Hnone.
  unfold Db.save_fingerprint, Db.add_commit. rewrite Hf, existsb_find, Hnone.
  cbn [snd]. unfold Db.delete_fingerprint, Db.query_first, Db.with_rows.
  cbn [Db.db_fault Db.db_rows]. rewrite Hf.
  rewrite find_filter_head, (filter_app_new k h _ _ Hnone). cbn [head Db.id].
  f_equal. destruct db as [rows fault]. cbn [Db.db_rows Db.db_fault] in *. subst fault.
  f_equal. rewrite List.filter_app. cbn [List.filter Db.id].
  rewrite Nat.eqb_refl. cbn [negb]. rewrite app_nil_r.
  apply forallb_filter_id. apply forallb_forall. intros r Hr.
  pose proof (next_id_fresh rows r Hr).
  destruct (Nat.eqb_spec (Db.id r) (Db.next_id rows)); [lia|reflexivity].
Qed.

Lemma save_then_delete_restores_witness :
  Db.delete_fingerprint "c.jpg" (snd (Db.save_fingerprint "c.jpg" "h2" DbKeys.two_rows))
    = (Returned true, DbKeys.two_rows).
Proof.
  refine (save_then_delete_restores DbKeys.two_rows "c.jpg" "h2" _ _ _).
  - unfold DbKeys.two_rows. apply Db.reach_save, Db.reach_save, Db.reach_empty.
  - reflexivity.
  - reflexivity.
Defined.

(** ** More on the exact-match search *)

Section ExactSearchMore.
Import Fingerprint Search.
Context `{L : Libraries}.

Lemma is_exact_match_iff fs folder digest file :
  contains "Error" digest = false ->
  is_exact_match fs folder digest file = true <->
  OsPath.isfile fs (OsPath.join folder file) = true /\
  fingerprint_body fs (OsPath.join folder file) = Returned digest.
Proof.
  intros Hd. unfold is_exact_match, generate_fingerprint.
  destruct (OsPath.isfile fs (OsPath.join folder file)); cbn [andb];
    [|split; [discriminate|intros [? _]; discriminate]].
  destruct (fingerprint_body fs (OsPath.join folder file)) as [d|e]; cbn [try_except].
  - rewrite String.eqb_eq. split; [intros ->; auto|intros [_ [= ->]]; reflexivity].
  - rewrite String.eqb_eq. split; [|intros [_ ?]; discriminate].
    intros Heq. rewrite <- Heq, error_string_contains_Error in Hd. discriminate.
Qed.

Lemma listdir_of_regular_file fs folder content :
  fs_dirs fs !! folder = None -> fs_files fs !! folder = Some content ->
  OsPath.exists_ fs folder = true /\
  OsPath.listdir fs folder
    = Raised (Exn "NotADirectoryError" ("[Errno 20] Not a directory: '" +:+ folder +:+ "'")).
Proof.
  intros Hd Hf. unfold OsPath.exists_, OsPath.listdir. rewrite Hd, Hf.
  split; [|reflexivity]. rewrite bool_decide_eq_true_2 by eauto. reflexivity.
Qed.

End ExactSearchMore.

(** X5.  The error outcomes of the exact-match search.  A query that cannot
    be fingerprinted gives a dictionary whose only key is ["error"], holding
    the text of the fingerprint error, whatever the dataset folder is; a
    query that decodes with a dataset folder that does not exist gives the
    dictionary ["Dataset folder '...' not found."]; and when the dataset
    path is a regular file the function raises [NotADirectoryError] instead
    of returning. *)
Theorem exact_search_error_outcomes `{L : Libraries}
    (fs : FS) (image_path dataset_folder : string) :
  (forall e,
     Fingerprint.fingerprint_body fs image_path = Raised e ->
     Search.search_image_in_dataset fs image_path dataset_folder
       = Returned [("error", VStr ("Error generating fingerprint: " +:+ exn_str e))]) /\
  (forall digest,
     Fingerprint.fingerprint_body fs image_path = Returned digest ->
     OsPath.exists_ fs dataset_folder = false ->
     Search.search_image_in_dataset fs image_path dataset_folder
       = Returned [("error",
                    VStr ("Dataset folder '" +:+ dataset_folder +:+ "' not found."))]) /\
  (forall digest content,
     Fingerprint.fingerprint_body fs image_path = Returned digest ->
     fs_dirs fs !! dataset_folder = None ->
     fs_files fs !! dataset_folder = Some content ->
     Search.search_image_in_dataset fs image_path dataset_folder
       = Raised (Exn "NotADirectoryError"
                   ("[Errno 20] Not a directory: '" +:+ dataset_folder +:+ "'"))).
Proof.
  split; [|split].
  - intros e He. unfold Search.search_image_in_dataset.
    rewrite (generate_fingerprint_err fs image_path e He). cbn [Py.bind].
    rewrite error_string_contains_Error. reflexivity.
  - intros digest Hd Hex. unfold Search.search_image_in_dataset.
    rewrite (generate_fingerprint_ok fs image_path false digest Hd). cbn [Py.bind].
    destruct (fingerprint_body_digest fs image_path digest Hd) as [bs ->].
    rewrite hexlify_no_Error, Hex. reflexivity.
  - intros digest content Hd Hdir Hfile. unfold Search.search_image_in_dataset.
    rewrite (generate_fingerprint_ok fs image_path false digest Hd). cbn [Py.bind].
    destruct (fingerprint_body_digest fs image_path digest Hd) as [bs ->].
    destruct (listdir_of_regular_file fs dataset_folder content Hdir Hfile) as [Hex Hls].
    rewrite hexlify_no_Error, Hex, Hls. reflexivity.
Qed.

(** X6.  For a query that decodes and a dataset folder that is a directory,
    the names the search keeps are exactly the enumerated names that are
    regular files and decode to the digest of the query: a sub-directory, a
    name that is no regular file and a file that cannot be decoded are never
    among the matches. *)
Theorem exact_matches_characterized `{L : Libraries}
    (fs : FS) (image_path dataset_folder digest : string) (names : list string) :
  Fingerprint.fingerprint_body fs image_path = Returned digest ->
  fs_dirs fs !! dataset_folder = Some names ->
  exists found,
    Search.search_image_in_dataset fs image_path dataset_folder
      = Returned [("query", VStr (OsPath.basename image_path));
                  ("matches",
                   VList (map VStr match found with
                                   | [] => ["No matches found"]
                                   | _ => found
                                   end))] /\
    forall X,
      In X found <->
      In X names /\
      OsPath.isfile fs (OsPath.join dataset_folder X) = true /\
      Fingerprint.fingerprint_body fs (OsPath.join dataset_folder X) = Returned digest.
Proof.
  intros Hq Hdir. exists (Search.exact_matches fs dataset_folder digest names).
  split; [exact (search_image_in_dataset_ok fs image_path dataset_folder digest names Hq Hdir)|].
  intros X. unfold Search.exact_matches. rewrite filter_In.
  destruct (fingerprint_body_digest fs image_path digest Hq) as [bs ->].
  rewrite (is_exact_match_iff fs dataset_folder _ X (hexlify_no_Error _)). tauto.
Qed.

Lemma exact_matches_characterized_witness :
  exists found,
    Search.search_image_in_dataset (H:=Sample.libs) Sample.fs "/srv/uploads/q.png" "/srv/dataset"
      = Returned [("query", VStr (OsPath.basename "/srv/uploads/q.png"));
                  ("matches",
                   VList (map VStr match found with
                                   | [] => ["No matches found"]
                                   | _ => found
                                   end))].
Proof.
  destruct (exact_matches_characterized (L:=Sample.libs) Sample.fs "/srv/uploads/q.png"
              "/srv/dataset" Sample.digest_of_query
              ["b.png"; "notes.txt"; "thumbs"; "a.png"; "other.png"])
    as (found & Hfound & _).
  - vm_compute. reflexivity.
  - vm_compute. reflexivity.
  - exists found. exact Hfound.
Defined.

(** X7.  A match whose file name is the text of the sentinel cannot be told
    from no match: when the only matching file is named
    ["No matches found"], the search returns the very dictionary it returns
    for no match, and the endpoint's normalisation turns it into the empty
    list. *)
Theorem match_named_like_sentinel_is_lost `{L : Libraries}
    (fs : FS) (image_path dataset_folder digest : string) (names : list string) :
  Fingerprint.fingerprint_body fs image_path = Returned digest ->
  fs_dirs fs !! dataset_folder = Some names ->
  Search.exact_matches fs dataset_folder digest names = ["No matches found"] ->
  Search.search_image_in_dataset fs image_path dataset_folder
    = Returned [("query", VStr (OsPath.basename image_path));
                ("matches", VList [VStr "No matches found"])] /\
  (forall fs' names',
     fs_dirs fs' !! dataset_folder = Some names' ->
     Fingerprint.fingerprint_body fs' image_path = Returned digest ->
     Search.exact_matches fs' dataset_folder digest names' = [] ->
     Search.search_image_in_dataset fs' image_path dataset_folder
       = Search.search_image_in_dataset fs image_path dataset_folder) /\
  Main.normalize_matches
    [("query", VStr (OsPath.basename image_path));
     ("matches", VList [VStr "No matches found"])] = [].
Proof.
  intros Hq Hdir Hfound.
  pose proof (search_image_in_dataset_ok fs image_path dataset_folder digest names Hq Hdir)
    as Hs. rewrite Hfound in Hs.
  split; [exact Hs|]. split; [|reflexivity].
  intros fs' names' Hdir' Hq' Hnone. rewrite Hs.
  rewrite (search_image_in_dataset_ok fs' image_path dataset_folder digest names' Hq' Hdir').
  rewrite Hnone. reflexivity.
Qed.

Lemma match_named_like_sentinel_is_lost_witness :
  Search.search_image_in_dataset (H:=Sample.libs) Sample2.fs_sentinel
      "/srv/uploads/q.png" "/data"
    = Returned [("query", VStr (OsPath.basename "/srv/uploads/q.png"));
                ("matches", VList [VStr "No matches found"])].
Proof.
  refine (proj1 (match_named_like_sentinel_is_lost (L:=Sample.libs) Sample2.fs_sentinel
                   "/srv/uploads/q.png" "/data" Sample.digest_of_query
                   ["No matches found"] _ _ _));
    vm_compute; reflexivity.
Defined.

(** ** More on the similarity search *)

Section SimilarSearchMore.
Import ImageHash Search.

Lemma count_differing_le_length a b : count_differing a b <= length a.
Proof.
  revert b. induction a as [|x a IH]; intros [|y b]; cbn; try lia.
  specialize (IH b). destruct (xorb x y); lia.
Qed.

Lemma hamming_bound len q h :
  in_hash_space len q -> in_hash_space len h -> hamming q h <= hash_bits len.
Proof.
  intros Hq Hh. unfold hamming.
  assert (Hbq : (int_of_hex q < 2 ^ N.of_nat (hash_bits len))%N) by apply Hq.
  assert (Hbh : (int_of_hex h < 2 ^ N.of_nat (hash_bits len))%N) by apply Hh.
  assert (Hw : 0 < hash_bits len) by (apply hash_bits_pos, Hq).
  rewrite <- (count_differing_format_bin (hash_bits len)) by assumption.
  etransitivity; [apply count_differing_le_length|].
  rewrite format_bin_length by assumption. reflexivity.
Qed.

Lemma hex_to_hash_size len s h :
  in_hash_space len s -> hex_to_hash s = Returned h -> size h = hash_bits len.
Proof.
  intros Hs Hh. destruct (hex_to_hash_in_space len s Hs) as (h' & Hh' & Hflat).
  rewrite Hh in Hh'. injection Hh' as <-. unfold size. rewrite Hflat.
  apply format_bin_length; [apply hash_bits_pos, Hs|apply Hs].
Qed.

(** The loop over candidates of the hash space of the query, followed by
    more candidates. *)
Lemma scan_fingerprints_prefix len q tq t pre rest results :
  in_hash_space len q -> hex_to_hash q = Returned tq ->
  Forall (fun fp => in_hash_space len (hash_value fp)) pre ->
  scan_fingerprints tq t (pre ++ rest) results
    = scan_fingerprints tq t rest (results ++ similar_matches q t pre).
Proof.
  intros Hq Htq Hall. revert results.
  induction Hall as [|fp pre Hfp _ IH]; intros results.
  - cbn. now rewrite app_nil_r.
  - cbn [app scan_fingerprints].
    destruct (hex_to_hash_in_space len _ Hfp) as (th & Hth & _).
    rewrite Hth. cbn [Py.bind].
    rewrite (sub_in_space len q (hash_value fp) tq th Hq Hfp Htq Hth). cbn [Py.bind].
    change (Z.of_nat (hamming q (hash_value fp)) <=? t)%Z with (within q t fp).
    unfold similar_matches in *. cbn [List.filter].
    destruct (within q t fp).
    + rewrite IH. cbn [map]. rewrite <- app_assoc. reflexivity.
    + apply IH.
Qed.

Lemma similar_matches_threshold q t t' fps :
  (t <= t')%Z ->
  similar_matches q t fps
    = List.filter (fun r => (Z.of_nat (s_distance r) <=? t)%Z) (similar_matches q t' fps).
Proof.
  intros Hle. unfold similar_matches.
  induction fps as [|fp fps IH]; cbn [List.filter map]; [reflexivity|].
  assert (Hw : within q t fp = true -> within q t' fp = true).
  { unfold within. rewrite !Z.leb_le. lia. }
  assert (HP : (Z.of_nat (s_distance (similar_of q fp)) <=? t)%Z = within q t fp)
    by reflexivity.
  destruct (within q t fp) eqn:H1.
  - rewrite (Hw eq_refl). cbn [map List.filter]. rewrite HP. f_equal. exact IH.
  - destruct (within q t' fp); cbn [map List.filter]; [rewrite HP|]; exact IH.
Qed.

Lemma count_differing_lsb_triangle w a b c :
  count_differing (lsb_bits w a) (lsb_bits w c)
    <= count_differing (lsb_bits w a) (lsb_bits w b)
       + count_differing (lsb_bits w b) (lsb_bits w c).
Proof.
  revert a b c. induction w as [|w IH]; intros a b c; cbn [lsb_bits count_differing]; [lia|].
  specialize (IH (N.div2 a) (N.div2 b) (N.div2 c)).
  destruct (N.odd a), (N.odd b), (N.odd c); cbn [xorb]; lia.
Qed.

Lemma hamming_triangle len a b c :
  in_hash_space len a -> in_hash_space len b -> in_hash_space len c ->
  hamming a c <= hamming a b + hamming b c.
Proof.
  intros Ha Hb Hc. unfold hamming.
  assert (Hba : (int_of_hex a < 2 ^ N.of_nat (hash_bits len))%N) by apply Ha.
  assert (Hbb : (int_of_hex b < 2 ^ N.of_nat (hash_bits len))%N) by apply Hb.
  assert (Hbc : (int_of_hex c < 2 ^ N.of_nat (hash_bits len))%N) by apply Hc.
  rewrite <- !(count_differing_lsb (hash_bits len)) by assumption.
  apply count_differing_lsb_triangle.
Qed.

Lemma hamming_sym a b : hamming a b = hamming b a.
Proof. unfold hamming. now rewrite N.lxor_comm. Qed.

End SimilarSearchMore.

(** X8.  The similarity search without candidates and without a query.
    For a query of a hash space, no candidates ([None] or the empty list)
    give the empty result; the empty string as the query makes the search
    raise [ValueError], whatever the candidates are. *)
Theorem similar_search_without_candidates (len : nat) (q : string) (t : Z) :
  ImageHash.in_hash_space len q ->
  Search.search_similar q t None = Returned [] /\
  Search.search_similar q t (Some []) = Returned [] /\
  (forall t' fps,
     Search.search_similar "" t' fps
       = Raised (Exn "ValueError" "invalid literal for int() with base 16: ''")).
Proof.
  intros Hq.
  pose proof (search_similar_filter len q t [] Hq (List.Forall_nil _)) as Hs.
  split; [exact Hs|]. split; [exact Hs|]. reflexivity.
Qed.

Lemma similar_search_without_candidates_witness :
  Search.search_similar "0f0f" 3 None = Returned [].
Proof.
  refine (proj1 (similar_search_without_candidates 4 "0f0f" 3 _)).
  in_hash_space_by_computation.
Defined.

(** X9.  One candidate of another hash size makes the whole similarity
    search raise [TypeError] ("ImageHashes must be of the same shape."):
    the matches found among the candidates before it are lost and the
    candidates after it are not looked at. *)
Theorem similar_search_mixed_sizes_raises
    (len len' : nat) (q : string) (t : Z)
    (before after : list Search.entry) (odd_one : Search.entry) :
  ImageHash.in_hash_space len q ->
  Forall (fun fp => ImageHash.in_hash_space len (Search.hash_value fp)) before ->
  ImageHash.in_hash_space len' (Search.hash_value odd_one) ->
  ImageHash.hash_bits len' <> ImageHash.hash_bits len ->
  Search.search_similar q t (Some (before ++ odd_one :: after))
    = Raised (Exn "TypeError" "ImageHashes must be of the same shape.").
Proof.
  intros Hq Hbefore Hodd Hne. unfold Search.search_similar.
  destruct (hex_to_hash_in_space len q Hq) as (tq & Htq & _).
  rewrite Htq. cbn [Py.bind].
  rewrite (scan_fingerprints_prefix len q tq t before _ [] Hq Htq Hbefore).
  cbn [Search.scan_fingerprints].
  destruct (hex_to_hash_in_space len' _ Hodd) as (th & Hth & _).
  rewrite Hth. cbn [Py.bind]. unfold ImageHash.sub.
  rewrite (hex_to_hash_size len q tq Hq Htq), (hex_to_hash_size len' _ th Hodd Hth).
  destruct (Nat.eqb_spec (ImageHash.hash_bits len) (ImageHash.hash_bits len'));
    [congruence|reflexivity].
Qed.

Lemma similar_search_mixed_sizes_raises_witness :
  Search.search_similar "0f0f" 16
      (Some ([Search.mkEntry "a.png" "0f0f"]
             ++ Search.mkEntry "b.png" "0f0f0f0f0f0f0f0f" :: [Search.mkEntry "c.png" "0f0f"]))
    = Raised (Exn "TypeError" "ImageHashes must be of the same shape.").
Proof.
  refine (similar_search_mixed_sizes_raises 4 16 "0f0f" 16
            [Search.mkEntry "a.png" "0f0f"] [Search.mkEntry "c.png" "0f0f"]
            (Search.mkEntry "b.png" "0f0f0f0f0f0f0f0f") _ _ _ _).
  - in_hash_space_by_computation.
  - repeat (constructor; [in_hash_space_by_computation|]). constructor.
  - in_hash_space_by_computation.
  - vm_compute. discriminate.
Defined.

(** X10.  In one hash space the distances the similarity search reports are
    at most the number of bits of a hash; a threshold of at least that
    number keeps every candidate, and a negative threshold keeps none. *)
Theorem similar_search_threshold_extremes
    (len : nat) (q : string) (t : Z) (fps : list Search.entry) :
  ImageHash.in_hash_space len q ->
  Forall (fun fp => ImageHash.in_hash_space len (Search.hash_value fp)) fps ->
  exists results,
    Search.search_similar q t (Some fps) = Returned results /\
    (forall r, In r results -> Search.s_distance r <= ImageHash.hash_bits len) /\
    ((Z.of_nat (ImageHash.hash_bits len) <= t)%Z ->
     results = map (Search.similar_of q) fps) /\
    ((t < 0)%Z -> results = []).
Proof.
  intros Hq Hall. exists (Search.similar_matches q t fps).
  split; [exact (search_similar_filter len q t fps Hq Hall)|].
  rewrite List.Forall_forall in Hall.
  split; [|split].
  - intros r Hr. unfold Search.similar_matches in Hr.
    apply in_map_iff in Hr as (fp & <- & Hfp). apply filter_In in Hfp as [Hin _].
    cbn [Search.similar_of Search.s_distance].
    apply (hamming_bound len q _ Hq (Hall fp Hin)).
  - intros Ht. unfold Search.similar_matches. f_equal.
    apply forallb_filter_id, forallb_forall. intros fp Hin.
    unfold Search.within. apply Z.leb_le.
    pose proof (hamming_bound len q _ Hq (Hall fp Hin)). lia.
  - intros Ht. unfold Search.similar_matches.
    replace (List.filter (Search.within q t) fps) with (@nil Search.entry); [reflexivity|].
    symmetry. apply empty_of_no_member. intros fp Hfp.
    apply filter_In in Hfp as [_ Hw]. unfold Search.within in Hw.
    apply Z.leb_le in Hw. lia.
Qed.

Lemma similar_search_threshold_extremes_witness :
  exists results,
    Search.search_similar "0f0f" 16
      (Some [Search.mkEntry "a.png" "f0f0"; Search.mkEntry "b.png" "0f0e"])
    = Returned results.
Proof.
  destruct (similar_search_threshold_extremes 4 "0f0f" 16
              [Search.mkEntry "a.png" "f0f0"; Search.mkEntry "b.png" "0f0e"])
    as (results & Hr & _).
  - in_hash_space_by_computation.
  - repeat (constructor; [in_hash_space_by_computation|]). constructor.
  - exists results. exact Hr.
Defined.

(** X11.  Lowering the threshold only removes results: in one hash space,
    the results for a threshold [t] are the results for a larger threshold
    [t'] whose distance is at most [t], in the same order. *)
Theorem similar_search_threshold_monotone
    (len : nat) (q : string) (t t' : Z) (fps : list Search.entry) :
  ImageHash.in_hash_space len q ->
  Forall (fun fp => ImageHash.in_hash_space len (Search.hash_value fp)) fps ->
  (t <= t')%Z ->
  exists results results',
    Search.search_similar q t (Some fps) = Returned results /\
    Search.search_similar q t' (Some fps) = Returned results' /\
    results = List.filter (fun r => (Z.of_nat (Search.s_distance r) <=? t)%Z) results'.
Proof.
  intros Hq Hall Hle.
  exists (Search.similar_matches q t fps), (Search.similar_matches q t' fps).
  split; [exact (search_similar_filter len q t fps Hq Hall)|].
  split; [exact (search_similar_filter len q t' fps Hq Hall)|].
  apply similar_matches_threshold. exact Hle.
Qed.

Lemma similar_search_threshold_monotone_witness :
  exists results results',
    Search.search_similar "0f0f" 1
      (Some [Search.mkEntry "a.png" "f0f0"; Search.mkEntry "b.png" "0f0e"])
      = Returned results /\
    Search.search_similar "0f0f" 16
      (Some [Search.mkEntry "a.png" "f0f0"; Search.mkEntry "b.png" "0f0e"])
      = Returned results' /\
    results = List.filter (fun r => (Z.of_nat (Search.s_distance r) <=? 1)%Z) results'.
Proof.
  refine (similar_search_threshold_monotone 4 "0f0f" 1 16
            [Search.mkEntry "a.png" "f0f0"; Search.mkEntry "b.png" "0f0e"] _ _ _).
  - in_hash_space_by_computation.
  - repeat (constructor; [in_hash_space_by_computation|]). constructor.
  - lia.
Defined.

(** X12.  In one hash space similarity is a distance.  Searching [b] from
    [a] and [a] from [b] reports the same distance and keeps the candidate
    for the same thresholds, and distances chain: the distance from [a] to
    [c] is at most the distance from [a] to [b] plus that from [b] to [c],
    so a candidate within [t1] of a hash within [t2] of the query is found
    with the threshold [t1 + t2]. *)
Theorem similarity_is_symmetric_and_chains
    (len : nat) (a b c na nb nc : string) :
  ImageHash.in_hash_space len a ->
  ImageHash.in_hash_space len b ->
  ImageHash.in_hash_space len c ->
  exists dab dbc dac,
    (forall t,
       Search.search_similar a t (Some [Search.mkEntry nb b])
         = Returned (if (Z.of_nat dab <=? t)%Z then [Search.mkSimilar nb b dab] else [])) /\
    (forall t,
       Search.search_similar b t (Some [Search.mkEntry na a])
         = Returned (if (Z.of_nat dab <=? t)%Z then [Search.mkSimilar na a dab] else [])) /\
    (forall t,
       Search.search_similar b t (Some [Search.mkEntry nc c])
         = Returned (if (Z.of_nat dbc <=? t)%Z then [Search.mkSimilar nc c dbc] else [])) /\
    (forall t,
       Search.search_similar a t (Some [Search.mkEntry nc c])
         = Returned (if (Z.of_nat dac <=? t)%Z then [Search.mkSimilar nc c dac] else [])) /\
    dac <= dab + dbc.
Proof.
  intros Ha Hb Hc.
  exists (Search.hamming a b), (Search.hamming b c), (Search.hamming a c).
  assert (Hone : forall x y ny t,
            ImageHash.in_hash_space len x -> ImageHash.in_hash_space len y ->
            Search.search_similar x t (Some [Search.mkEntry ny y])
              = Returned (if (Z.of_nat (Search.hamming x y) <=? t)%Z
                          then [Search.mkSimilar ny y (Search.hamming x y)] else [])).
  { intros x y ny t Hx Hy.
    rewrite (search_similar_filter len x t [Search.mkEntry ny y] Hx)
      by (constructor; [exact Hy|constructor]).
    unfold Search.similar_matches, Search.within. cbn [List.filter Search.hash_value].
    destruct (Z.of_nat (Search.hamming x y) <=? t)%Z; reflexivity. }
  split; [intros t; apply Hone; assumption|].
  split; [intros t; rewrite (hamming_sym a b); apply Hone; assumption|].
  split; [intros t; apply Hone; assumption|].
  split; [intros t; apply Hone; assumption|].
  exact (hamming_triangle len a b c Ha Hb Hc).
Qed.

Lemma similarity_is_symmetric_and_chains_witness :
  exists dab dbc dac,
    (forall t,
       Search.search_similar "0f0f" t (Some [Search.mkEntry "b.png" "0f0e"])
         = Returned (if (Z.of_nat dab <=? t)%Z
                     then [Search.mkSimilar "b.png" "0f0e" dab] else [])) /\
    (forall t,
       Search.search_similar "0f0e" t (Some [Search.mkEntry "a.png" "0f0f"])
         = Returned (if (Z.of_nat dab <=? t)%Z
                     then [Search.mkSimilar "a.png" "0f0f" dab] else [])) /\
    (forall t,
       Search.search_similar "0f0e" t (Some [Search.mkEntry "c.png" "ff0e"])
         = Returned (if (Z.of_nat dbc <=? t)%Z
                     then [Search.mkSimilar "c.png" "ff0e" dbc] else [])) /\
    (forall t,
       Search.search_similar "0f0f" t (Some [Search.mkEntry "c.png" "ff0e"])
         = Returned (if (Z.of_nat dac <=? t)%Z
                     then [Search.mkSimilar "c.png" "ff0e" dac] else [])) /\
    dac <= dab + dbc.
Proof.
  refine (similarity_is_symmetric_and_chains 4 "0f0f" "0f0e" "ff0e"
            "a.png" "b.png" "c.png" _ _ _);
    in_hash_space_by_computation.
Defined.

(** ** Digests as hashes *)

Section DigestsAsHashes.
Import ImageHash Search Fingerprint Digests.

Lemma hex_value_of_hex_digit n : (n < 16)%N -> hex_value (hex_digit n) = Some n.
Proof.
  intros Hn. destruct n as [|p]; [reflexivity|].
  do 4 (destruct p as [p|p|]; try lia; try reflexivity).
Qed.

Lemma int_of_hex_from_hexlify_value bs acc :
  int_of_hex_from acc (hexlify bs) = Some (bytes_value bs acc).
Proof.
  revert acc. induction bs as [|b bs IH]; intros acc; [reflexivity|].
  cbn [hexlify int_of_hex_from].
  pose proof (Byte.to_N_bounded b) as Hb.
  assert (Hhi : (Byte.to_N b / 16 < 16)%N)
    by (apply N.Div0.div_lt_upper_bound; lia).
  assert (Hlo : (Byte.to_N b mod 16 < 16)%N) by (apply N.mod_lt; lia).
  rewrite (hex_value_of_hex_digit _ Hhi), (hex_value_of_hex_digit _ Hlo), IH.
  unfold bytes_value. cbn [fold_left]. do 2 f_equal.
  pose proof (N.div_mod (Byte.to_N b) 16). lia.
Qed.

Lemma byte_to_N_inj b1 b2 : Byte.to_N b1 = Byte.to_N b2 -> b1 = b2.
Proof.
  intros H. pose proof (Byte.of_to_N b1) as H1. rewrite H, Byte.of_to_N in H1.
  congruence.
Qed.

Lemma bytes_value_inj bs1 bs2 a1 a2 :
  length bs1 = length bs2 -> bytes_value bs1 a1 = bytes_value bs2 a2 ->
  a1 = a2 /\ bs1 = bs2.
Proof.
  revert bs2 a1 a2. induction bs1 as [|b1 bs1 IH]; intros [|b2 bs2] a1 a2 Hlen Hv;
    cbn in Hlen; try discriminate.
  - cbn in Hv. auto.
  - unfold bytes_value in Hv. cbn [fold_left] in Hv.
    destruct (IH bs2 _ _ (eq_add_S _ _ Hlen) Hv) as [Ha ->].
    pose proof (Byte.to_N_bounded b1). pose proof (Byte.to_N_bounded b2).
    assert (a1 = a2) by lia. subst a2.
    assert (Byte.to_N b1 = Byte.to_N b2) by lia.
    split; [reflexivity|]. f_equal. now apply byte_to_N_inj.
Qed.

Lemma int_of_hex_hexlify bs : int_of_hex (hexlify bs) = bytes_value bs 0.
Proof. unfold int_of_hex. now rewrite int_of_hex_from_hexlify_value. Qed.

(** Two digests of one length are at distance zero exactly when their
    hexadecimal texts are equal. *)
Lemma digest_distance_zero qb hb :
  length hb = length qb ->
  hamming (hexlify qb) (hexlify hb) = 0 <-> hexlify hb = hexlify qb.
Proof.
  intros Hlen. rewrite hamming_zero, !int_of_hex_hexlify. split.
  - intros Hv. symmetry in Hv. now destruct (bytes_value_inj hb qb 0 0 Hlen Hv) as [_ ->].
  - intros Heq. rewrite <- !int_of_hex_hexlify. now rewrite Heq.
Qed.

Lemma similar_matches_zero_on_digests qb fps :
  Forall (fun fp => exists bs, length bs = length qb /\ hash_value fp = hexlify bs) fps ->
  similar_matches (hexlify qb) 0 fps
    = map (fun fp => mkSimilar (filename fp) (hash_value fp) 0)
        (List.filter (fun fp => String.eqb (hash_value fp) (hexlify qb)) fps).
Proof.
  unfold similar_matches.
  induction 1 as [|fp fps (bs & Hlen & Hh) _ IH]; cbn [List.filter]; [reflexivity|].
  pose proof (digest_distance_zero qb bs Hlen) as Hz. rewrite <- Hh in Hz.
  assert (Hw : within (hexlify qb) 0 fp = String.eqb (hash_value fp) (hexlify qb)).
  { unfold within.
    destruct (String.eqb_spec (hash_value fp) (hexlify qb)) as [Heq|Hne].
    - rewrite (proj2 Hz Heq). reflexivity.
    - apply Z.leb_gt. destruct (hamming (hexlify qb) (hash_value fp)) eqn:Hd; [|lia].
      exfalso. apply Hne, Hz. reflexivity. }
  rewrite Hw.
  destruct (String.eqb_spec (hash_value fp) (hexlify qb)) as [Heq|Hne]; [|exact IH].
  cbn [map]. rewrite IH. f_equal.
  unfold similar_of. rewrite (proj2 Hz Heq). reflexivity.
Qed.

End DigestsAsHashes.

(** X13.  Over SHA-256 digests as the fingerprint engine writes them (the
    hexadecimal text of 32 bytes), the similarity search returns, and with
    the threshold 0 its results are the candidates whose stored text equals
    the text of the query, each at distance 0, in the order of the
    candidates. *)
Theorem similar_search_on_digests_exact (qb : list byte) (fps : list Search.entry) :
  length qb = 32 ->
  Forall (fun fp => exists bs, length bs = length qb /\
                               Search.hash_value fp = Fingerprint.hexlify bs) fps ->
  Search.search_similar (Fingerprint.hexlify qb) 0 (Some fps)
    = Returned
        (map (fun fp => Search.mkSimilar (Search.filename fp) (Search.hash_value fp) 0)
           (List.filter
              (fun fp => String.eqb (Search.hash_value fp) (Fingerprint.hexlify qb)) fps)).
Proof.
  intros Hlen Hall.
  rewrite (search_similar_filter 64 (Fingerprint.hexlify qb) 0 fps).
  - f_equal. apply similar_matches_zero_on_digests. exact Hall.
  - apply digest_in_hash_space. exact Hlen.
  - eapply List.Forall_impl; [|exact Hall]. cbn beta.
    intros fp (bs & Hbs & ->). apply digest_in_hash_space. congruence.
Qed.

Lemma similar_search_on_digests_exact_witness :
  Search.search_similar (Fingerprint.hexlify (replicate 32 "a"%byte)) 0
      (Some [Digests.entry_of "x.png" (replicate 32 "b"%byte);
             Digests.entry_of "y.png" (replicate 32 "a"%byte)])
    = Returned
        (map (fun fp => Search.mkSimilar (Search.filename fp) (Search.hash_value fp) 0)
           (List.filter
              (fun fp => String.eqb (Search.hash_value fp)
                           (Fingerprint.hexlify (replicate 32 "a"%byte)))
              [Digests.entry_of "x.png" (replicate 32 "b"%byte);
               Digests.entry_of "y.png" (replicate 32 "a"%byte)])).
Proof.
  refine (similar_search_on_digests_exact (replicate 32 "a"%byte)
            [Digests.entry_of "x.png" (replicate 32 "b"%byte);
             Digests.entry_of "y.png" (replicate 32 "a"%byte)] _ _).
  - reflexivity.
  - repeat (constructor; [eexists; split; [|reflexivity]; reflexivity|]). constructor.
Defined.

(** ** Paths of uploads *)

Section PathFacts.
Import OsPath.

Lemma prefix_empty s : String.prefix "" s = true.
Proof. destruct s; reflexivity. Qed.

Lemma contains_slash_cons c r :
  contains "/" (String c r) = Ascii.eqb c "/" || contains "/" r.
Proof.
  cbn [contains].
  change (String.prefix "/" (String c r))
    with (if ascii_dec "/" c then String.prefix "" r else false).
  rewrite prefix_empty.
  destruct (ascii_dec "/" c) as [<-|Hne]; [reflexivity|].
  destruct (Ascii.eqb_spec c "/"); [congruence|reflexivity].
Qed.

Lemma contains_slash_app a b :
  contains "/" (a +:+ b) = contains "/" a || contains "/" b.
Proof.
  induction a as [|c a IH].
  - cbn. destruct b; reflexivity.
  - change (String c a +:+ b) with (String c (a +:+ b)).
    rewrite !contains_slash_cons, IH. apply orb_assoc.
Qed.

Lemma append_assoc_char pre c s : (pre +:+ String c "") +:+ s = pre +:+ String c s.
Proof.
  induction pre as [|d pre IH]; [reflexivity|].
  change (String d ((pre +:+ String c "") +:+ s) = String d (pre +:+ String c s)).
  now rewrite IH.
Qed.

Lemma append_empty_r s : s +:+ "" = s.
Proof.
  induction s as [|c s IH]; [reflexivity|].
  change (String c (s +:+ "") = String c s). now rewrite IH.
Qed.

Lemma append_assoc a b c : (a +:+ b) +:+ c = a +:+ (b +:+ c).
Proof.
  induction a as [|d a IH]; [reflexivity|].
  change (String d ((a +:+ b) +:+ c) = String d (a +:+ (b +:+ c))). now rewrite IH.
Qed.

Lemma basename_from_no_slash s pre :
  contains "/" pre = false ->
  contains "/" (basename_from (pre +:+ s) s) = false.
Proof.
  revert pre. induction s as [|c s IH]; intros pre Hpre; cbn [basename_from].
  - now rewrite append_empty_r.
  - destruct (Ascii.eqb c "/") eqn:Hc.
    + apply (IH ""). reflexivity.
    + rewrite <- append_assoc_char. apply IH.
      rewrite contains_slash_app, Hpre, contains_slash_cons, Hc. reflexivity.
Qed.

(** [os.path.basename] never contains a slash. *)
Lemma basename_no_slash s : contains "/" (basename s) = false.
Proof. apply (basename_from_no_slash s ""). reflexivity. Qed.

Lemma basename_from_plain name acc :
  contains "/" name = false -> basename_from acc name = acc.
Proof.
  induction name as [|c name IH]; [reflexivity|].
  rewrite contains_slash_cons. intros H. apply orb_false_elim in H as [Hc Hn].
  cbn [basename_from]. rewrite Hc. apply IH. exact Hn.
Qed.

Lemma basename_from_after_slash pre name acc :
  ends_with_slash pre = true -> contains "/" name = false ->
  basename_from acc (pre +:+ name) = name.
Proof.
  intros Hpre Hname. revert acc Hpre.
  induction pre as [|c pre IH]; intros acc Hpre; [discriminate|].
  change (String c pre +:+ name) with (String c (pre +:+ name)). cbn [basename_from].
  destruct pre as [|c' pre'].
  - cbn in Hpre. rewrite Hpre. cbn. apply basename_from_plain. exact Hname.
  - change (ends_with_slash (String c (String c' pre')))
      with (ends_with_slash (String c' pre')) in Hpre.
    destruct (Ascii.eqb c "/"); apply IH; exact Hpre.
Qed.

Lemma ends_with_slash_snoc a : ends_with_slash (a +:+ "/") = true.
Proof.
  induction a as [|c a IH]; [reflexivity|].
  change (String c a +:+ "/") with (String c (a +:+ "/")).
  destruct (a +:+ "/") eqn:Ha; [destruct a; discriminate|]. exact IH.
Qed.

Lemma no_slash_no_slash_prefix b : contains "/" b = false -> String.prefix "/" b = false.
Proof.
  destruct b as [|c b]; [reflexivity|]. cbn [contains].
  intros H. apply orb_false_elim in H as [H _]. exact H.
Qed.

(** Joining a name without slash to a folder gives a path in the folder
    whose base name is the name. *)
Lemma join_plain_name a b :
  contains "/" b = false ->
  basename (join a b) = b /\ String.prefix a (join a b) = true.
Proof.
  intros Hb. unfold join, basename. rewrite (no_slash_no_slash_prefix b Hb).
  destruct (String.eqb_spec a "") as [->|Ha]; cbn [orb].
  - split; [apply basename_from_plain; exact Hb|apply prefix_empty].
  - destruct (ends_with_slash a) eqn:He.
    + split; [apply basename_from_after_slash; assumption|apply prefix_app].
    + split; [|apply prefix_app].
      rewrite <- append_assoc. apply basename_from_after_slash; [|exact Hb].
      apply ends_with_slash_snoc.
Qed.

End PathFacts.

(** X14.  Whatever file name the client sends, the name the upload is stored
    under contains no slash when the hexadecimal text of the UUID contains
    none; the path of the upload then starts with the upload folder and its
    base name is that name, so the upload lands in the upload folder
    itself. *)
Theorem safe_filename_stays_in_upload_folder
    (X : Main.Externals) (original_filename : string) :
  contains "/" (Main.uuid4_hex X) = false ->
  contains "/" (Main._safe_filename X original_filename) = false /\
  OsPath.basename (Main.file_location_of X original_filename)
    = Main._safe_filename X original_filename /\
  startswith (Main.file_location_of X original_filename) (Main.UPLOAD_FOLDER X) = true.
Proof.
  intros Hu.
  assert (Hsafe : contains "/" (Main._safe_filename X original_filename) = false).
  { unfold Main._safe_filename. rewrite !contains_slash_app, Hu, basename_no_slash.
    reflexivity. }
  split; [exact Hsafe|]. unfold Main.file_location_of, startswith.
  exact (join_plain_name _ _ Hsafe).
Qed.

Lemma safe_filename_stays_in_upload_folder_witness :
  contains "/" (Main._safe_filename (Sample.externals (Returned (Main.DetectionError "x")))
                  "../../etc/passwd") = false.
Proof.
  refine (proj1 (safe_filename_stays_in_upload_folder
                   (Sample.externals (Returned (Main.DetectionError "x")))
                   "../../etc/passwd" _)).
  reflexivity.
Defined.

(** ** More on the analyze pipeline *)

Section PipelineMore.
Import Main.
Context `{L : Libraries}.

Lemma after_fingerprint_not_http X fs safe_name loc fp db log code detail :
  fst (after_fingerprint X fs safe_name loc fp db log) <> HTTPException code detail.
Proof.
  unfold after_fingerprint.
  destruct (detect_deepfake X fs loc) as [d|e]; [|discriminate].
  destruct (dict_has "error" (detection_dict d)); discriminate.
Qed.

Lemma after_fingerprint_db X fs safe_name loc fp db log :
  w_db (snd (after_fingerprint X fs safe_name loc fp db log))
    = snd (Db.save_fingerprint safe_name fp db).
Proof.
  unfold after_fingerprint.
  destruct (detect_deepfake X fs loc) as [d|e]; [|reflexivity].
  destruct (dict_has "error" (detection_dict d)); reflexivity.
Qed.

(** The file system after the remaining stages: what the report writers
    left when the request has its verdict, and what it was otherwise. *)
Lemma after_fingerprint_fs X fs safe_name loc fp db log :
  w_fs (snd (after_fingerprint X fs safe_name loc fp db log))
    = match detect_deepfake X fs loc with
      | Returned (Detection f p c) =>
          snd (report_stage X safe_name (detection_dict (Detection f p c))
                 (normalize_matches (search_result_of (search_stage X fs loc))) fs)
      | _ => fs
      end.
Proof.
  unfold after_fingerprint.
  destruct (detect_deepfake X fs loc) as [[msg|f p c]|e]; reflexivity.
Qed.

(** The report stage of a request with a verdict, step by step. *)
Lemma report_stage_verdict X safe_name f p c ms fs :
  report_stage X safe_name (detection_dict (Detection f p c)) ms fs
    = match generate_alert X safe_name (VStr p) c ms fs with
      | (Returned alert_path, fs1) =>
          match generate_takedown_request X safe_name (VStr p) ms fs1 with
          | (Returned takedown_path, fs2) =>
              (Returned (VStr alert_path, VStr takedown_path), fs2)
          | (Raised e, fs2) => (Raised e, fs2)
          end
      | (Raised e, fs1) => (Raised e, fs1)
      end.
Proof.
  unfold report_stage, io_bind, io_lift, io_ret.
  cbn [detection_dict get_or_none dict_get String.eqb]. cbn.
  destruct (generate_alert X safe_name (VStr p) c ms fs) as [[a|e] fs1]; [|reflexivity].
  destruct (generate_takedown_request X safe_name (VStr p) ms fs1) as [[t|e] fs2];
    reflexivity.
Qed.

(** A request whose upload was saved either stops without a verdict, and
    then nothing more is written, or is answered with status 200 after the
    report stage ran. *)
Lemma analyze_image_saved X file w name fs :
  upload_filename file = Some name -> name <> "" ->
  _save_upload_to_disk (UPLOAD_FOLDER X) file (file_location_of X name) (w_fs w)
    = Returned fs ->
  (w_fs (snd (analyze_image X file w)) = fs /\
   forall content, fst (analyze_image X file w) <> JSONResponse 200 content) \/
  (exists fingerprint search_result f p c,
     let reporting :=
       report_stage X (_safe_filename X name) (detection_dict (Detection f p c))
         (normalize_matches search_result) fs in
     w_fs (snd (analyze_image X file w)) = snd reporting /\
     fst (analyze_image X file w)
       = JSONResponse 200
           [("file", VStr (_safe_filename X name));
            ("fingerprint", VStr fingerprint);
            ("search_result", VDict search_result);
            ("deepfake_result", VDict (detection_dict (Detection f p c)));
            ("alert_file", fst (artifacts_of (fst reporting)));
            ("takedown_request", snd (artifacts_of (fst reporting)))]).
Proof.
  intros Hname Hne Hsave. unfold analyze_image. rewrite Hname.
  destruct name as [|ch name]; [congruence|].
  fold (file_location_of X (String ch name)). rewrite Hsave.
  destruct (Fingerprint.generate_fingerprint fs _ false) as [fp|e];
    [|left; split; [reflexivity|discriminate]].
  destruct (startswith fp "Error"); [left; split; [reflexivity|discriminate]|].
  unfold after_fingerprint.
  destruct (detect_deepfake X fs _) as [[msg|f p c]|e].
  - left. split; [reflexivity|]. cbn. discriminate.
  - right. exists fp, (search_result_of (search_stage X fs (file_location_of X (String ch name)))),
      f, p, c.
    split; reflexivity.
  - left. split; [reflexivity|]. cbn. discriminate.
Qed.

Lemma report_stage_takedown_fails X safe_name f p c ms fs e :
  fst (generate_takedown_request X safe_name (VStr p) ms
         (snd (generate_alert X safe_name (VStr p) c ms fs))) = Raised e ->
  artifacts_of (fst (report_stage X safe_name (detection_dict (Detection f p c)) ms fs))
    = (VNone, VNone).
Proof.
  intros Ht. rewrite report_stage_verdict.
  destruct (generate_alert X safe_name (VStr p) c ms fs) as [[a|e'] fs1]; [|reflexivity].
  cbn [snd] in Ht.
  destruct (generate_takedown_request X safe_name (VStr p) ms fs1) as [[t|e'] fs2];
    [discriminate|reflexivity].
Qed.

Lemma report_stage_alert_fails X safe_name f p c ms fs e :
  fst (generate_alert X safe_name (VStr p) c ms fs) = Raised e ->
  artifacts_of (fst (report_stage X safe_name (detection_dict (Detection f p c)) ms fs))
    = (VNone, VNone).
Proof.
  intros Ha. rewrite report_stage_verdict.
  destruct (generate_alert X safe_name (VStr p) c ms fs) as [[a|e'] fs1];
    [discriminate|reflexivity].
Qed.

End PipelineMore.

(** X15.  A request that is answered with an [HTTPException] (no file
    name, the upload cannot be saved, or the upload cannot be
    fingerprinted) has written nothing to the store; with status 400
    nothing at all has changed. *)
Theorem rejected_request_leaves_store `{L : Libraries}
    (X : Main.Externals) (file : Main.UploadFile) (w : Main.World)
    (code : nat) (detail : string) :
  fst (Main.analyze_image X file w) = Main.HTTPException code detail ->
  Main.w_db (snd (Main.analyze_image X file w)) = Main.w_db w /\
  (code = 400 \/ code = 500) /\
  (code = 400 -> snd (Main.analyze_image X file w) = w).
Proof.
  unfold Main.analyze_image.
  destruct (Main.upload_filename file) as [[|c name]|].
  - cbn. intros [= <- _]. auto.
  - destruct (Main._save_upload_to_disk _ _ _ _) as [fs|e].
    + destruct (Fingerprint.generate_fingerprint fs _ false) as [fp|e]; [|discriminate].
      destruct (startswith fp "Error").
      * cbn. intros [= <- _]. split; [reflexivity|]. split; [auto|discriminate].
      * intros H. exfalso. exact (after_fingerprint_not_http _ _ _ _ _ _ _ _ _ H).
    + cbn. intros [= <- _]. split; [reflexivity|]. split; [auto|discriminate].
  - cbn. intros [= <- _]. auto.
Qed.

Lemma rejected_request_leaves_store_witness :
  Main.w_db (snd (Main.analyze_image (H:=Sample.libs)
                    (Sample.externals (Returned (Main.DetectionError "x")))
                    (Main.mkUpload (Some "bad.jpg") (map Sample.byte_of [1; 2; 3]))
                    (Sample.world DbKeys.two_rows)))
  = DbKeys.two_rows.
Proof.
  refine (proj1 (rejected_request_leaves_store (L:=Sample.libs)
            (Sample.externals (Returned (Main.DetectionError "x")))
            (Main.mkUpload (Some "bad.jpg") (map Sample.byte_of [1; 2; 3]))
            (Sample.world DbKeys.two_rows) 500
            "Error generating fingerprint: cannot identify image file '/srv/uploads/0f3a_bad.jpg'" _)).
  vm_compute. reflexivity.
Defined.

(** X17.  An upload that PIL cannot open is fatal: once it is saved, the
    request is answered with status 500 and, as its detail, the text
    ["Error generating fingerprint: "] followed by the message of PIL for
    the stored file; the fingerprint is not stored. *)
Theorem undecodable_upload_is_fatal `{L : Libraries}
    (X : Main.Externals) (file : Main.UploadFile) (w : Main.World)
    (name : string) (fs : FS) (error : string -> exn) :
  Main.upload_filename file = Some name -> name <> "" ->
  Main._save_upload_to_disk (Main.UPLOAD_FOLDER X) file (Main.file_location_of X name)
      (Main.w_fs w) = Returned fs ->
  Image_open_L (Main.upload_content file) = Undecodable error ->
  let e := error (Main.file_location_of X name) in
  fst (Main.analyze_image X file w)
    = Main.HTTPException 500 ("Error generating fingerprint: " +:+ exn_str e) /\
  Main.w_db (snd (Main.analyze_image X file w)) = Main.w_db w.
Proof.
  intros Hname Hne Hsave Hopen e.
  assert (Hfp : Fingerprint.generate_fingerprint fs (Main.file_location_of X name) false
                = Returned (Fingerprint.error_prefix +:+ exn_str e)).
  { apply generate_fingerprint_err.
    apply (fingerprint_body_undecodable fs _ (Main.upload_content file) error); [|exact Hopen].
    rewrite (save_upload_inv _ _ _ _ _ Hsave). cbn [fs_files].
    apply lookup_insert_eq. }
  unfold Main.analyze_image. rewrite Hname.
  destruct name as [|c name]; [congruence|].
  fold (Main.file_location_of X (String c name)). rewrite Hsave, Hfp.
  assert (Hs : startswith (Fingerprint.error_prefix +:+ exn_str e) "Error" = true)
    by (unfold startswith; exact (prefix_app "Error" _)).
  rewrite Hs. split; reflexivity.
Qed.

Lemma undecodable_upload_is_fatal_witness :
  fst (Main.analyze_image (H:=Sample.libs)
         (Sample.externals (Returned (Main.DetectionError "x")))
         (Main.mkUpload (Some "bad.jpg") (map Sample.byte_of [1; 2; 3]))
         (Sample.world DbKeys.two_rows))
  = Main.HTTPException 500
      ("Error generating fingerprint: " +:+ "cannot identify image file '/srv/uploads/0f3a_bad.jpg'").
Proof.
  refine (proj1 (undecodable_upload_is_fatal (L:=Sample.libs)
            (Sample.externals (Returned (Main.DetectionError "x")))
            (Main.mkUpload (Some "bad.jpg") (map Sample.byte_of [1; 2; 3]))
            (Sample.world DbKeys.two_rows) "bad.jpg"
            (mkFS (<["/srv/uploads/0f3a_bad.jpg" := map Sample.byte_of [1; 2; 3]]>
                     (fs_files Sample.fs)) (fs_dirs Sample.fs))
            Sample.unidentified _ _ _ _)).
  - reflexivity.
  - discriminate.
  - vm_compute. reflexivity.
  - reflexivity.
Defined.

(** X18.  A failure of the report writers is not fatal: when the request
    has its verdict and [generate_alert] or [generate_takedown_request]
    raises, the response still has status 200 with the fingerprint, the
    search result and the verdict, and both [alert_file] and
    [takedown_request] are null, also when the alert had been written
    before the takedown writer failed. *)
Theorem report_failure_is_not_fatal `{L : Libraries}
    (X : Main.Externals) (file : Main.UploadFile) (w : Main.World)
    (name : string) (fs : FS) (fingerprint f p : string) (c : Q) (e : exn) :
  Main.upload_filename file = Some name -> name <> "" ->
  Main._save_upload_to_disk (Main.UPLOAD_FOLDER X) file (Main.file_location_of X name)
      (Main.w_fs w) = Returned fs ->
  Fingerprint.generate_fingerprint fs (Main.file_location_of X name) false
    = Returned fingerprint ->
  startswith fingerprint "Error" = false ->
  Main.detect_deepfake X fs (Main.file_location_of X name)
    = Returned (Main.Detection f p c) ->
  let search_result :=
    Main.search_result_of (Main.search_stage X fs (Main.file_location_of X name)) in
  let alerted :=
    Main.generate_alert X (Main._safe_filename X name) (VStr p) c
      (Main.normalize_matches search_result) fs in
  fst alerted = Raised e \/
  fst (Main.generate_takedown_request X (Main._safe_filename X name) (VStr p)
         (Main.normalize_matches search_result) (snd alerted)) = Raised e ->
  fst (Main.analyze_image X file w)
    = Main.JSONResponse 200
        [("file", VStr (Main._safe_filename X name));
         ("fingerprint", VStr fingerprint);
         ("search_result", VDict search_result);
         ("deepfake_result", VDict (Main.detection_dict (Main.Detection f p c)));
         ("alert_file", VNone);
         ("takedown_request", VNone)].
Proof.
  intros Hname Hne Hsave Hfp Hok Hd search_result alerted Hfail.
  rewrite (analyze_image_reaches X file w name fs fingerprint Hname Hne Hsave Hfp Hok).
  rewrite (after_fingerprint_verdict _ _ _ _ _ _ _ f p c Hd).
  fold search_result.
  assert (Hart : Main.artifacts_of
                   (fst (Main.report_stage X (Main._safe_filename X name)
                           (Main.detection_dict (Main.Detection f p c))
                           (Main.normalize_matches search_result) fs)) = (VNone, VNone)).
  { destruct Hfail as [Ha|Ht].
    - exact (report_stage_alert_fails _ _ f p c _ fs e Ha).
    - exact (report_stage_takedown_fails _ _ f p c _ fs e Ht). }
  rewrite Hart. reflexivity.
Qed.

Lemma report_failure_is_not_fatal_witness :
  fst (Main.analyze_image (H:=Sample.libs)
         (Sample2.externals_takedown_fails
            (Returned (Main.Detection "0f3a_q.png" "FAKE" (9 # 10))))
         Sample.upload (Sample.world (Db.mkStore [] None)))
  = Main.JSONResponse 200
      [("file", VStr "0f3a_q.png");
       ("fingerprint", VStr Sample.digest_of_query);
       ("search_result",
        VDict [("query", VStr "0f3a_q.png");
               ("matches", VList [VStr "b.png"; VStr "a.png"])]);
       ("deepfake_result",
        VDict (Main.detection_dict (Main.Detection "0f3a_q.png" "FAKE" (9 # 10))));
       ("alert_file", VNone);
       ("takedown_request", VNone)].
Proof.
  refine (eq_trans (report_failure_is_not_fatal (L:=Sample.libs)
            (Sample2.externals_takedown_fails
               (Returned (Main.Detection "0f3a_q.png" "FAKE" (9 # 10))))
            Sample.upload (Sample.world (Db.mkStore [] None))
            "holiday/q.png" (Sample.fs_uploaded "/srv") Sample.digest_of_query
            "0f3a_q.png" "FAKE" (9 # 10)
            (Exn "OSError" "[Errno 28] No space left on device") _ _ _ _ _ _ _) _).
  - reflexivity.
  - discriminate.
  - vm_compute. reflexivity.
  - vm_compute. reflexivity.
  - vm_compute. reflexivity.
  - reflexivity.
  - right. reflexivity.
  - vm_compute. reflexivity.
Defined.

(** X19.  A search that raises is not fatal: when the request has its
    verdict and [search_image_in_dataset] raises (as it does when the
    dataset path is a regular file), the response has status 200, its
    [search_result] is the dictionary ["Dataset search failed: ..."] with
    the message of the exception, and the report writers are given the
    empty list of matches. *)
Theorem search_failure_is_not_fatal `{L : Libraries}
    (X : Main.Externals) (file : Main.UploadFile) (w : Main.World)
    (name : string) (fs : FS) (fingerprint f p : string) (c : Q) (e : exn) :
  Main.upload_filename file = Some name -> name <> "" ->
  Main._save_upload_to_disk (Main.UPLOAD_FOLDER X) file (Main.file_location_of X name)
      (Main.w_fs w) = Returned fs ->
  Fingerprint.generate_fingerprint fs (Main.file_location_of X name) false
    = Returned fingerprint ->
  startswith fingerprint "Error" = false ->
  Main.detect_deepfake X fs (Main.file_location_of X name)
    = Returned (Main.Detection f p c) ->
  Search.search_image_in_dataset fs (Main.file_location_of X name) (Main.DATASET_FOLDER X)
    = Raised e ->
  let reported :=
    fst (Main.report_stage X (Main._safe_filename X name)
           (Main.detection_dict (Main.Detection f p c)) [] fs) in
  fst (Main.analyze_image X file w)
    = Main.JSONResponse 200
        [("file", VStr (Main._safe_filename X name));
         ("fingerprint", VStr fingerprint);
         ("search_result",
          VDict [("error", VStr ("Dataset search failed: " +:+ exn_str e))]);
         ("deepfake_result", VDict (Main.detection_dict (Main.Detection f p c)));
         ("alert_file", fst (Main.artifacts_of reported));
         ("takedown_request", snd (Main.artifacts_of reported))].
Proof.
  intros Hname Hne Hsave Hfp Hok Hd Hsearch reported.
  rewrite (analyze_image_reaches X file w name fs fingerprint Hname Hne Hsave Hfp Hok).
  rewrite (after_fingerprint_verdict _ _ _ _ _ _ _ f p c Hd).
  unfold Main.search_stage. rewrite Hsearch. reflexivity.
Qed.

Lemma search_failure_is_not_fatal_witness :
  fst (Main.analyze_image (H:=Sample.libs)
         (Sample.externals_at "/mnt" (Returned (Main.Detection "0f3a_q.png" "REAL" (9 # 10))))
         Sample.upload (Main.mkWorld Sample2.fs_dataset_is_file (Db.mkStore [] None) []))
  = Main.JSONResponse 200
      [("file", VStr "0f3a_q.png");
       ("fingerprint", VStr Sample.digest_of_query);
       ("search_result",
        VDict [("error",
                VStr "Dataset search failed: [Errno 20] Not a directory: '/mnt/dataset'")]);
       ("deepfake_result",
        VDict (Main.detection_dict (Main.Detection "0f3a_q.png" "REAL" (9 # 10))));
       ("alert_file", VStr "alerts/alert_20240101_000000.txt");
       ("takedown_request", VStr "alerts/takedown_20240101_000000.txt")].
Proof.
  refine (eq_trans (search_failure_is_not_fatal (L:=Sample.libs)
            (Sample.externals_at "/mnt"
               (Returned (Main.Detection "0f3a_q.png" "REAL" (9 # 10))))
            Sample.upload (Main.mkWorld Sample2.fs_dataset_is_file (Db.mkStore [] None) [])
            "holiday/q.png" Sample2.fs_dataset_is_file_uploaded Sample.digest_of_query
            "0f3a_q.png" "REAL" (9 # 10)
            (Exn "NotADirectoryError" "[Errno 20] Not a directory: '/mnt/dataset'")
            _ _ _ _ _ _ _) _).
  - reflexivity.
  - discriminate.
  - vm_compute. reflexivity.
  - vm_compute. reflexivity.
  - vm_compute. reflexivity.
  - reflexivity.
  - vm_compute. reflexivity.
  - vm_compute. reflexivity.
Defined.

(** X20.  The fingerprint is stored before the search and the classifier
    run: for a request that passes fingerprinting, on a store that answers,
    a lookup of the stored name afterwards finds the fingerprint, whatever
    the classifier returned or raised, and the records of other names are
    as before. *)
Theorem fingerprint_is_stored_before_classification `{L : Libraries}
    (X : Main.Externals) (file : Main.UploadFile) (w : Main.World)
    (name : string) (fs : FS) (fingerprint : string) :
  Main.upload_filename file = Some name -> name <> "" ->
  Main._save_upload_to_disk (Main.UPLOAD_FOLDER X) file (Main.file_location_of X name)
      (Main.w_fs w) = Returned fs ->
  Fingerprint.generate_fingerprint fs (Main.file_location_of X name) false
    = Returned fingerprint ->
  startswith fingerprint "Error" = false ->
  Db.reachable (Main.w_db w) ->
  Db.db_fault (Main.w_db w) = None ->
  let db' := Main.w_db (snd (Main.analyze_image X file w)) in
  (exists i,
     Db.get_fingerprint_by_filename (Main._safe_filename X name) db'
       = Returned (Some (Db.mkRow i (Main._safe_filename X name) fingerprint))) /\
  (forall k, k <> Main._safe_filename X name ->
     Db.get_fingerprint_by_filename k db' = Db.get_fingerprint_by_filename k (Main.w_db w)).
Proof.
  intros Hname Hne Hsave Hfp Hok Hreach Hf db'.
  assert (Hdb : db' = snd (Db.save_fingerprint (Main._safe_filename X name) fingerprint
                             (Main.w_db w))).
  { unfold db'.
    rewrite (analyze_image_reaches X file w name fs fingerprint Hname Hne Hsave Hfp Hok).
    apply after_fingerprint_db. }
  rewrite Hdb.
  pose proof (reachable_keys_unique _ Hreach) as Hu.
  pose proof (reachable_ids_unique _ Hreach) as Hids.
  destruct (save_fingerprint_available _ (Main._safe_filename X name) fingerprint Hf Hu)
    as (i & _ & Hf' & _ & Hrec & _).
  split.
  - exists i. rewrite (lookup_is_head_of_records _ _ Hf'), Hrec. reflexivity.
  - intros k Hk.
    rewrite (lookup_is_head_of_records _ _ Hf'), (lookup_is_head_of_records _ _ Hf).
    rewrite (save_fingerprint_frame _ _ _ k Hf Hids Hk). reflexivity.
Qed.

Lemma fingerprint_is_stored_before_classification_witness :
  exists i,
    Db.get_fingerprint_by_filename "0f3a_q.png"
      (Main.w_db (snd (Main.analyze_image (H:=Sample.libs)
                         (Sample.externals (Raised (Exn "RuntimeError" "CUDA out of memory")))
                         Sample.upload (Sample.world DbKeys.two_rows))))
    = Returned (Some (Db.mkRow i "0f3a_q.png" Sample.digest_of_query)).
Proof.
  refine (proj1 (fingerprint_is_stored_before_classification (L:=Sample.libs)
            (Sample.externals (Raised (Exn "RuntimeError" "CUDA out of memory")))
            Sample.upload (Sample.world DbKeys.two_rows)
            "holiday/q.png" (Sample.fs_uploaded "/srv") Sample.digest_of_query
            _ _ _ _ _ _ _)).
  - reflexivity.
  - discriminate.
  - vm_compute. reflexivity.
  - vm_compute. reflexivity.
  - vm_compute. reflexivity.
  - unfold Sample.world, DbKeys.two_rows. cbn [Main.w_db].
    apply Db.reach_save, Db.reach_save, Db.reach_empty.
  - reflexivity.
Defined.

(** X21.  With the classifier of [deepfake_detector.py] the branch for a
    raising classifier is never taken: a network that raises on the upload
    gives status 500 with the dictionary [{"error": str(e)}] alone (not the
    text ["Deepfake detection failed: ..."]), and a network that answers
    gives status 200 with the label [FAKE] for class 1 and [REAL]
    otherwise, the confidence, and the base name of the stored upload. *)
Theorem shipped_detector_in_pipeline `{L : Libraries}
    (X : Main.Externals) (file : Main.UploadFile) (w : Main.World)
    (name : string) (fs : FS) (fingerprint : string)
    (model : string -> list byte -> outcome (bool * Q)) :
  Main.upload_filename file = Some name -> name <> "" ->
  Main._save_upload_to_disk (Main.UPLOAD_FOLDER X) file (Main.file_location_of X name)
      (Main.w_fs w) = Returned fs ->
  Fingerprint.generate_fingerprint fs (Main.file_location_of X name) false
    = Returned fingerprint ->
  startswith fingerprint "Error" = false ->
  (forall fs' path,
     Main.detect_deepfake X fs' path = DeepfakeDetector.detect_deepfake model fs' path) ->
  match model (Main.file_location_of X name) (Main.upload_content file) with
  | Raised e =>
      fst (Main.analyze_image X file w)
        = Main.JSONResponse 500 [("error", VStr (exn_str e))]
  | Returned (fake, confidence) =>
      exists alert_file takedown_request,
        fst (Main.analyze_image X file w)
          = Main.JSONResponse 200
              [("file", VStr (Main._safe_filename X name));
               ("fingerprint", VStr fingerprint);
               ("search_result",
                VDict (Main.search_result_of
                         (Main.search_stage X fs (Main.file_location_of X name))));
               ("deepfake_result",
                VDict [("file", VStr (OsPath.basename (Main.file_location_of X name)));
                       ("prediction", VStr (if fake then "FAKE" else "REAL"));
                       ("confidence", VFloat confidence)]);
               ("alert_file", alert_file);
               ("takedown_request", takedown_request)]
  end.
Proof.
  intros Hname Hne Hsave Hfp Hok Hshipped.
  rewrite (analyze_image_reaches X file w name fs fingerprint Hname Hne Hsave Hfp Hok).
  assert (Hd : Main.detect_deepfake X fs (Main.file_location_of X name)
               = match model (Main.file_location_of X name) (Main.upload_content file) with
                 | Raised e => Returned (Main.DetectionError (exn_str e))
                 | Returned predicted =>
                     Returned (Main.Detection
                                 (OsPath.basename (Main.file_location_of X name))
                                 (if fst predicted then "FAKE" else "REAL") (snd predicted))
                 end).
  { rewrite Hshipped. apply detect_deepfake_on_file.
    rewrite (save_upload_inv _ _ _ _ _ Hsave). cbn [fs_files].
    apply lookup_insert_eq. }
  destruct (model (Main.file_location_of X name) (Main.upload_content file))
    as [[fake confidence]|e].
  - rewrite (after_fingerprint_verdict _ _ _ _ _ _ _ _ _ _ Hd).
    eexists. eexists. reflexivity.
  - unfold Main.after_fingerprint. rewrite Hd. reflexivity.
Qed.

Lemma shipped_detector_in_pipeline_witness :
  fst (Main.analyze_image (H:=Sample.libs)
         (Sample2.externals_shipped Sample2.broken_model)
         Sample.upload (Sample.world (Db.mkStore [] None)))
  = Main.JSONResponse 500 [("error", VStr "CUDA out of memory")].
Proof.
  refine (shipped_detector_in_pipeline (L:=Sample.libs)
            (Sample2.externals_shipped Sample2.broken_model)
            Sample.upload (Sample.world (Db.mkStore [] None))
            "holiday/q.png" (Sample.fs_uploaded "/srv") Sample.digest_of_query
            Sample2.broken_model _ _ _ _ _ _).
  - reflexivity.
  - discriminate.
  - vm_compute. reflexivity.
  - vm_compute. reflexivity.
  - vm_compute. reflexivity.
  - reflexivity.
Defined.

(** X22.  An upload whose bytes are those of a regular file [ref] of the
    dataset folder is reported: when the upload decodes and the classifier
    returns a verdict, the response has status 200, its fingerprint is the
    digest of the decoded upload, and the matches of its [search_result]
    are real names (not the sentinel) with [ref] among them. *)
Theorem identical_copy_is_reported `{L : Libraries}
    (X : Main.Externals) (file : Main.UploadFile) (w : Main.World)
    (name : string) (fs : FS) (img : image) (names : list string) (ref : string)
    (f p : string) (c : Q) :
  Main.upload_filename file = Some name -> name <> "" ->
  Main._save_upload_to_disk (Main.UPLOAD_FOLDER X) file (Main.file_location_of X name)
      (Main.w_fs w) = Returned fs ->
  Image_open_L (Main.upload_content file) = Decoded img ->
  fs_dirs (Main.w_fs w) !! Main.DATASET_FOLDER X = Some names ->
  In ref names ->
  fs_files (Main.w_fs w) !! OsPath.join (Main.DATASET_FOLDER X) ref
    = Some (Main.upload_content file) ->
  Main.detect_deepfake X fs (Main.file_location_of X name)
    = Returned (Main.Detection f p c) ->
  exists found alert_file takedown_request,
    fst (Main.analyze_image X file w)
      = Main.JSONResponse 200
          [("file", VStr (Main._safe_filename X name));
           ("fingerprint",
            VStr (Fingerprint.hexlify
                    (sha256 (pixel_bytes_of (Image_resize img (128, 128))))));
           ("search_result",
            VDict [("query", VStr (OsPath.basename (Main.file_location_of X name)));
                   ("matches", VList (map VStr found))]);
           ("deepfake_result", VDict (Main.detection_dict (Main.Detection f p c)));
           ("alert_file", alert_file);
           ("takedown_request", takedown_request)] /\
    In ref found.
Proof.
  intros Hname Hne Hsave Hopen Hdir Hin Hcopy Hd.
  pose proof (save_upload_inv _ _ _ _ _ Hsave) as Hfs.
  set (loc := Main.file_location_of X name) in *.
  set (digest := Fingerprint.hexlify (sha256 (pixel_bytes_of (Image_resize img (128, 128))))).
  assert (Hloc : fs_files fs !! loc = Some (Main.upload_content file))
    by (rewrite Hfs; cbn [fs_files]; apply lookup_insert_eq).
  assert (Hbody : Fingerprint.fingerprint_body fs loc = Returned digest)
    by exact (fingerprint_body_decoded fs loc _ img Hloc Hopen).
  assert (Hdir' : fs_dirs fs !! Main.DATASET_FOLDER X = Some names)
    by (rewrite Hfs; exact Hdir).
  assert (Hcopy' : fs_files fs !! OsPath.join (Main.DATASET_FOLDER X) ref
                   = Some (Main.upload_content file)).
  { rewrite Hfs. cbn [fs_files].
    destruct (decide (loc = OsPath.join (Main.DATASET_FOLDER X) ref)) as [<-|Hne'].
    - apply lookup_insert_eq.
    - rewrite lookup_insert_ne by exact Hne'. exact Hcopy. }
  pose proof (identical_copy_is_match fs loc _ digest names ref _ Hbody Hloc Hcopy' Hin)
    as Hfound.
  rewrite (analyze_image_reaches X file w name fs digest Hname Hne Hsave
             (generate_fingerprint_ok fs loc false digest Hbody)
             (hexlify_not_startswith_Error _)).
  rewrite (after_fingerprint_verdict _ _ _ _ _ _ _ f p c Hd).
  unfold Main.search_stage.
  rewrite (search_image_in_dataset_ok fs loc _ digest names Hbody Hdir').
  cbn [Main.search_result_of].
  set (found := Search.exact_matches fs (Main.DATASET_FOLDER X) digest names) in *.
  assert (Hmatch : match found with
                   | [] => [Search.no_matches_found]
                   | _ => found
                   end = found)
    by (destruct found; [destruct Hfound|reflexivity]).
  rewrite Hmatch. exists found. eexists. eexists. split; [reflexivity|exact Hfound].
Qed.

Lemma identical_copy_is_reported_witness :
  exists found alert_file takedown_request,
    fst (Main.analyze_image (H:=Sample.libs)
           (Sample.externals (Returned (Main.Detection "0f3a_q.png" "REAL" (9 # 10))))
           Sample.upload (Sample.world (Db.mkStore [] None)))
      = Main.JSONResponse 200
          [("file", VStr (Main._safe_filename
                            (Sample.externals
                               (Returned (Main.Detection "0f3a_q.png" "REAL" (9 # 10))))
                            "holiday/q.png"));
           ("fingerprint",
            VStr (Fingerprint.hexlify
                    (@sha256 Sample.libs
                       (@pixel_bytes_of Sample.libs
                          (@Image_resize Sample.libs
                             (map Sample.byte_of [17; 34; 51]) (128, 128))))));
           ("search_result",
            VDict [("query",
                    VStr (OsPath.basename
                            (Main.file_location_of
                               (Sample.externals
                                  (Returned (Main.Detection "0f3a_q.png" "REAL" (9 # 10))))
                               "holiday/q.png")));
                   ("matches", VList (map VStr found))]);
           ("deepfake_result",
            VDict (Main.detection_dict (Main.Detection "0f3a_q.png" "REAL" (9 # 10))));
           ("alert_file", alert_file);
           ("takedown_request", takedown_request)] /\
    In "a.png" found.
Proof.
  refine (identical_copy_is_reported (L:=Sample.libs)
            (Sample.externals (Returned (Main.Detection "0f3a_q.png" "REAL" (9 # 10))))
            Sample.upload (Sample.world (Db.mkStore [] None))
            "holiday/q.png" (Sample.fs_uploaded "/srv")
            (map Sample.byte_of [17; 34; 51])
            ["b.png"; "notes.txt"; "thumbs"; "a.png"; "other.png"] "a.png"
            "0f3a_q.png" "REAL" (9 # 10) _ _ _ _ _ _ _ _).
  - reflexivity.
  - discriminate.
  - vm_compute. reflexivity.
  - reflexivity.
  - vm_compute. reflexivity.
  - cbn. tauto.
  - vm_compute. reflexivity.
  - reflexivity.
Defined.

(** ** The report writers *)

Section AlertFacts.
Import Alerts.

Lemma write_text_inv path text fs fs' :
  write_text path text fs = Returned fs' ->
  fs_dirs fs !! ALERTS_FOLDER <> None /\ fs_dirs fs !! path = None /\
  fs' = mkFS (<[path := String.list_byte_of_string text]> (fs_files fs)) (fs_dirs fs).
Proof.
  unfold write_text. destruct (fs_dirs fs !! ALERTS_FOLDER); [|discriminate].
  destruct (fs_dirs fs !! path); [discriminate|]. intros [= <-]. auto.
Qed.

Lemma write_text_again path text text' fs fs' :
  write_text path text fs = Returned fs' ->
  write_text path text' fs'
    = Returned (mkFS (<[path := String.list_byte_of_string text']> (fs_files fs))
                     (fs_dirs fs)).
Proof.
  intros Hw. destruct (write_text_inv _ _ _ _ Hw) as (Hdir & Hpath & ->).
  unfold write_text. cbn [fs_dirs fs_files].
  destruct (fs_dirs fs !! ALERTS_FOLDER); [|congruence].
  rewrite Hpath, insert_insert_eq. reflexivity.
Qed.

Lemma append_length a b : String.length (a +:+ b) = String.length a + String.length b.
Proof.
  induction a as [|c a IH]; [reflexivity|].
  change (String c a +:+ b) with (String c (a +:+ b)). cbn [String.length]. now rewrite IH.
Qed.

Lemma append_inv_tail a b s : a +:+ s = b +:+ s -> a = b.
Proof.
  revert b. induction a as [|c a IH]; intros [|d b] H.
  - reflexivity.
  - apply (f_equal String.length) in H.
    change (String.length s = S (String.length (b +:+ s))) in H.
    rewrite append_length in H. lia.
  - apply (f_equal String.length) in H.
    change (S (String.length (a +:+ s)) = String.length s) in H.
    rewrite append_length in H. lia.
  - change (String c (a +:+ s) = String d (b +:+ s)) in H.
    injection H as -> H. f_equal. apply IH. exact H.
Qed.

Lemma alert_path_inj ts ts' : alert_path ts = alert_path ts' -> ts = ts'.
Proof.
  unfold alert_path. intros H.
  change (OsPath.join ALERTS_FOLDER ("alert_" +:+ ts +:+ ".txt"))
    with ("alerts/alert_" +:+ (ts +:+ ".txt")) in H.
  change (OsPath.join ALERTS_FOLDER ("alert_" +:+ ts' +:+ ".txt"))
    with ("alerts/alert_" +:+ (ts' +:+ ".txt")) in H.
  change ("alerts/alert_" +:+ (ts +:+ ".txt"))
    with (String "a" (String "l" (String "e" (String "r" (String "t" (String "s"
         (String "/" (String "a" (String "l" (String "e" (String "r" (String "t"
         (String "_" (ts +:+ ".txt")))))))))))))) in H.
  change ("alerts/alert_" +:+ (ts' +:+ ".txt"))
    with (String "a" (String "l" (String "e" (String "r" (String "t" (String "s"
         (String "/" (String "a" (String "l" (String "e" (String "r" (String "t"
         (String "_" (ts' +:+ ".txt")))))))))))))) in H.
  injection H as H. exact (append_inv_tail _ _ _ H).
Qed.

Lemma takedown_path_not_alert_path ts ts' : takedown_path ts <> alert_path ts'.
Proof.
  unfold takedown_path, alert_path. intros H.
  change (OsPath.join ALERTS_FOLDER ("takedown_" +:+ ts +:+ ".txt"))
    with (String "a" (String "l" (String "e" (String "r" (String "t" (String "s"
         (String "/" (String "t" ("akedown_" +:+ ts +:+ ".txt"))))))))) in H.
  change (OsPath.join ALERTS_FOLDER ("alert_" +:+ ts' +:+ ".txt"))
    with (String "a" (String "l" (String "e" (String "r" (String "t" (String "s"
         (String "/" (String "a" ("lert_" +:+ ts' +:+ ".txt"))))))))) in H.
  discriminate H.
Qed.

End AlertFacts.

(** X23.  The name of an alert file is its timestamp, to the second.  A
    second alert written within the same second goes to the same path and
    replaces the first report, whose text is lost.  An alert of another
    second, and the takedown request of the same second, are written to
    paths of their own and leave the first file as it is. *)
Theorem alerts_of_one_second_overwrite
    (timestamp : string) (format_2f : Q -> string)
    (image1 prediction1 : string) (confidence1 : Q) (matches1 : option (list string))
    (image2 prediction2 : string) (confidence2 : Q) (matches2 : option (list string))
    (fs fs1 : FS) (path1 : string) :
  Alerts.generate_alert timestamp format_2f image1 prediction1 confidence1 matches1 fs
    = Returned (path1, fs1) ->
  (exists fs2,
     Alerts.generate_alert timestamp format_2f image2 prediction2 confidence2 matches2 fs1
       = Returned (path1, fs2) /\
     fs_files fs2 !! path1
       = Some (String.list_byte_of_string
                 (Alerts.alert_text timestamp format_2f image2 prediction2 confidence2
                    matches2))) /\
  (forall later path2 fs2,
     later <> timestamp ->
     Alerts.generate_alert later format_2f image2 prediction2 confidence2 matches2 fs1
       = Returned (path2, fs2) ->
     path2 <> path1 /\ fs_files fs2 !! path1 = fs_files fs1 !! path1) /\
  (forall path3 fs3,
     Alerts.generate_takedown_request timestamp image1 prediction1 matches1 fs1
       = Returned (path3, fs3) ->
     path3 <> path1 /\ fs_files fs3 !! path1 = fs_files fs1 !! path1).
Proof.
  unfold Alerts.generate_alert at 1.
  destruct (Alerts.write_text (Alerts.alert_path timestamp) _ fs) as [fs1'|e] eqn:Hw;
    [|discriminate].
  cbn [Py.bind]. intros [= <- <-].
  split; [|split].
  - unfold Alerts.generate_alert. rewrite (write_text_again _ _ _ _ _ Hw). cbn [Py.bind].
    eexists. split; [reflexivity|]. cbn [fs_files]. apply lookup_insert_eq.
  - intros later path2 fs2 Hlater. unfold Alerts.generate_alert.
    destruct (Alerts.write_text (Alerts.alert_path later) _ fs1') as [fs2'|e] eqn:Hw2;
      [|discriminate].
    cbn [Py.bind]. intros [= <- <-].
    assert (Hp : Alerts.alert_path later <> Alerts.alert_path timestamp)
      by (intros Heq; apply Hlater, alert_path_inj, Heq).
    split; [exact Hp|].
    destruct (write_text_inv _ _ _ _ Hw2) as (_ & _ & ->). cbn [fs_files].
    apply lookup_insert_ne. exact Hp.
  - intros path3 fs3. unfold Alerts.generate_takedown_request.
    destruct (Alerts.write_text (Alerts.takedown_path timestamp) _ fs1') as [fs3'|e] eqn:Hw3;
      [|discriminate].
    cbn [Py.bind]. intros [= <- <-].
    split; [apply takedown_path_not_alert_path|].
    destruct (write_text_inv _ _ _ _ Hw3) as (_ & _ & ->). cbn [fs_files].
    apply lookup_insert_ne. apply takedown_path_not_alert_path.
Qed.

Lemma alerts_of_one_second_overwrite_witness :
  exists fs2,
    Alerts.generate_alert "20240101_000000" Alerts.two_decimals_stub
        "second.png" "REAL" (93 # 100) None
        (mkFS (<["alerts/alert_20240101_000000.txt" :=
                   String.list_byte_of_string
                     (Alerts.alert_text "20240101_000000" Alerts.two_decimals_stub
                        "first.png" "FAKE" (93 # 100) (Some ["ref.png"]))]>
                 (fs_files Alerts.empty_folder))
              (fs_dirs Alerts.empty_folder))
      = Returned ("alerts/alert_20240101_000000.txt", fs2) /\
    fs_files fs2 !! "alerts/alert_20240101_000000.txt"
      = Some (String.list_byte_of_string
                (Alerts.alert_text "20240101_000000" Alerts.two_decimals_stub
                   "second.png" "REAL" (93 # 100) None)).
Proof.
  refine (proj1 (alerts_of_one_second_overwrite "20240101_000000" Alerts.two_decimals_stub
            "first.png" "FAKE" (93 # 100) (Some ["ref.png"])
            "second.png" "REAL" (93 # 100) None
            Alerts.empty_folder _ "alerts/alert_20240101_000000.txt" _)).
  reflexivity.
Defined.

(** ** The report writers in the pipeline *)

Section ReportFacts.
Import Alerts.

Lemma prefix_slash_inv s : String.prefix "/" s = true -> exists r, s = String "/" r.
Proof.
  destruct s as [|c s]; [discriminate|].
  change (String.prefix "/" (String c s))
    with (if ascii_dec "/" c then String.prefix "" s else false).
  destruct (ascii_dec "/" c) as [<-|]; [|discriminate]. intros _. eexists. reflexivity.
Qed.

Lemma prefix_slash_cons r : String.prefix "/" (String "/" r) = true.
Proof.
  change (String.prefix "/" (String "/" r))
    with (if ascii_dec "/" "/" then String.prefix "" r else false).
  destruct (ascii_dec "/" "/"); [apply prefix_empty|congruence].
Qed.

(** A path joined to an absolute path is absolute. *)
Lemma join_absolute a b :
  String.prefix "/" a = true -> String.prefix "/" (OsPath.join a b) = true.
Proof.
  intros Ha. destruct (prefix_slash_inv _ Ha) as [r ->]. unfold OsPath.join.
  destruct (String.prefix "/" b) eqn:Hb; [exact Hb|].
  destruct (String.eqb (String "/" r) "" || OsPath.ends_with_slash (String "/" r)).
  - change (String "/" r +:+ b) with (String "/" (r +:+ b)). apply prefix_slash_cons.
  - change (String "/" r +:+ "/" +:+ b) with (String "/" (r +:+ "/" +:+ b)).
    apply prefix_slash_cons.
Qed.

Lemma file_location_absolute X name :
  String.prefix "/" (Main.PROJECT_ROOT X) = true ->
  String.prefix "/" (Main.file_location_of X name) = true.
Proof.
  intros Hroot. unfold Main.file_location_of, Main.UPLOAD_FOLDER.
  apply join_absolute, join_absolute. exact Hroot.
Qed.

(** The report files are named relative to the working directory. *)
Lemma alert_path_relative ts : String.prefix "/" (alert_path ts) = false.
Proof.
  unfold alert_path.
  change (OsPath.join ALERTS_FOLDER ("alert_" +:+ ts +:+ ".txt"))
    with (String "a" ("lerts/alert_" +:+ ts +:+ ".txt")).
  reflexivity.
Qed.

Lemma takedown_path_relative ts : String.prefix "/" (takedown_path ts) = false.
Proof.
  unfold takedown_path.
  change (OsPath.join ALERTS_FOLDER ("takedown_" +:+ ts +:+ ".txt"))
    with (String "a" ("lerts/takedown_" +:+ ts +:+ ".txt")).
  reflexivity.
Qed.

(** A writer either raises and leaves the disk as it was, or returns its
    path after creating or overwriting the file there. *)
Lemma reports_alert_effect ts format_2f render image prediction confidence matches fs :
  let r := Reports.generate_alert ts format_2f render image prediction confidence matches fs in
  (exists e, fst r = Raised e /\ snd r = fs) \/
  (exists text,
     fst r = Returned (alert_path ts) /\
     snd r = mkFS (<[alert_path ts := text]> (fs_files fs)) (fs_dirs fs)).
Proof.
  cbv zeta. unfold Reports.generate_alert.
  destruct (Reports.strings_of 0 matches) as [names|e];
    [|left; exists e; split; reflexivity].
  unfold Alerts.generate_alert, Reports.written.
  destruct (write_text (alert_path ts) _ fs) as [fs'|e] eqn:Hw; cbn [Py.bind].
  - right. destruct (write_text_inv _ _ _ _ Hw) as (_ & _ & ->).
    eexists. split; reflexivity.
  - left. exists e. split; reflexivity.
Qed.

Lemma reports_takedown_effect ts render image prediction matches fs :
  let r := Reports.generate_takedown_request ts render image prediction matches fs in
  (exists e, fst r = Raised e /\ snd r = fs) \/
  (exists text,
     fst r = Returned (takedown_path ts) /\
     snd r = mkFS (<[takedown_path ts := text]> (fs_files fs)) (fs_dirs fs)).
Proof.
  cbv zeta. unfold Reports.generate_takedown_request.
  destruct (Reports.strings_of 0 matches) as [names|e];
    [|left; exists e; split; reflexivity].
  unfold Alerts.generate_takedown_request, Reports.written.
  destruct (write_text (takedown_path ts) _ fs) as [fs'|e] eqn:Hw; cbn [Py.bind].
  - right. destruct (write_text_inv _ _ _ _ Hw) as (_ & _ & ->).
    eexists. split; reflexivity.
  - left. exists e. split; reflexivity.
Qed.

(** Writing one file keeps the others, and removes none. *)
Lemma insert_frame (files : gmap string (list byte)) q text path :
  path <> q -> <[q := text]> files !! path = files !! path.
Proof. intros Hp. apply lookup_insert_ne. congruence. Qed.

Lemma insert_keeps (files : gmap string (list byte)) q text path :
  is_Some (files !! path) -> is_Some (<[q := text]> files !! path).
Proof.
  intros Hs. destruct (decide (q = path)) as [->|Hne].
  - rewrite lookup_insert_eq. eauto.
  - rewrite lookup_insert_ne by exact Hne. exact Hs.
Qed.

(** The report stage with the writers of alert.py: it writes at most the
    alert and the takedown file, and the files it names are there. *)
Lemma report_stage_effect (X : Main.Externals) safe_name f p c ms fs
    alert_time takedown_time format_2f render :
  (forall image prediction confidence matches fs',
     Main.generate_alert X image prediction confidence matches fs'
       = Reports.generate_alert alert_time format_2f render
           image prediction confidence matches fs') ->
  (forall image prediction matches fs',
     Main.generate_takedown_request X image prediction matches fs'
       = Reports.generate_takedown_request takedown_time render
           image prediction matches fs') ->
  let r := Main.report_stage X safe_name (Main.detection_dict (Main.Detection f p c)) ms fs in
  (forall path,
     path <> alert_path alert_time -> path <> takedown_path takedown_time ->
     fs_files (snd r) !! path = fs_files fs !! path) /\
  (forall path, is_Some (fs_files fs !! path) -> is_Some (fs_files (snd r) !! path)) /\
  (forall path,
     fst (Main.artifacts_of (fst r)) = VStr path \/
     snd (Main.artifacts_of (fst r)) = VStr path ->
     is_Some (fs_files (snd r) !! path)).
Proof.
  intros Ha Ht r. subst r. rewrite report_stage_verdict, Ha.
  destruct (reports_alert_effect alert_time format_2f render safe_name (VStr p) c ms fs)
    as [(e & He & Hs)|(text & He & Hs)];
    destruct (Reports.generate_alert alert_time format_2f render safe_name (VStr p) c ms fs)
      as [o1 fs1]; cbn [fst snd] in He, Hs; subst o1 fs1.
  - cbn [fst snd Main.artifacts_of].
    split; [reflexivity|]. split; [auto|]. intros path [H|H]; discriminate.
  - rewrite Ht.
    destruct (reports_takedown_effect takedown_time render safe_name (VStr p) ms
                (mkFS (<[alert_path alert_time := text]> (fs_files fs)) (fs_dirs fs)))
      as [(e & He & Hs)|(text' & He & Hs)];
      destruct (Reports.generate_takedown_request takedown_time render safe_name (VStr p) ms
                  (mkFS (<[alert_path alert_time := text]> (fs_files fs)) (fs_dirs fs)))
        as [o2 fs2]; cbn [fst snd] in He, Hs; subst o2 fs2;
      cbn [fst snd Main.artifacts_of fs_files].
    + split; [intros path H1 _; apply insert_frame; exact H1|].
      split; [intros path; apply insert_keeps|].
      intros path [H|H]; discriminate.
    + split.
      { intros path H1 H2. rewrite insert_frame by exact H2. apply insert_frame. exact H1. }
      split; [intros path Hs; apply insert_keeps, insert_keeps; exact Hs|].
      intros path [[= <-]|[= <-]].
      * apply insert_keeps. rewrite lookup_insert_eq. eauto.
      * rewrite lookup_insert_eq. eauto.
Qed.

End ReportFacts.

(** X16.  Once the upload is saved it stays on disk.  With the report
    writers of alert.py and a project root that is an absolute path,
    whatever the outcome of the request (also a fatal one), the upload is
    afterwards at its location with the bytes that were sent.  The database
    apart, the only other files the request writes are the alert and the
    takedown file of its report stage: every other file has the content it
    had, and no file is removed.  A request that is not answered with status
    200 writes no report, and a report file that a response names is on
    disk. *)
Theorem upload_stays_on_disk `{L : Libraries}
    (X : Main.Externals) (file : Main.UploadFile) (w : Main.World)
    (name : string) (fs : FS)
    (alert_time takedown_time : string) (format_2f : Q -> string)
    (render : value -> string) :
  Main.upload_filename file = Some name -> name <> "" ->
  Main._save_upload_to_disk (Main.UPLOAD_FOLDER X) file (Main.file_location_of X name)
      (Main.w_fs w) = Returned fs ->
  String.prefix "/" (Main.PROJECT_ROOT X) = true ->
  (forall image prediction confidence matches fs',
     Main.generate_alert X image prediction confidence matches fs'
       = Reports.generate_alert alert_time format_2f render
           image prediction confidence matches fs') ->
  (forall image prediction matches fs',
     Main.generate_takedown_request X image prediction matches fs'
       = Reports.generate_takedown_request takedown_time render
           image prediction matches fs') ->
  let after := Main.w_fs (snd (Main.analyze_image X file w)) in
  fs_files after !! Main.file_location_of X name = Some (Main.upload_content file) /\
  (forall path,
     path <> Main.file_location_of X name ->
     path <> Alerts.alert_path alert_time ->
     path <> Alerts.takedown_path takedown_time ->
     fs_files after !! path = fs_files (Main.w_fs w) !! path) /\
  (forall path,
     is_Some (fs_files (Main.w_fs w) !! path) -> is_Some (fs_files after !! path)) /\
  ((forall content, fst (Main.analyze_image X file w) <> Main.JSONResponse 200 content) ->
   after = fs) /\
  (forall content path,
     fst (Main.analyze_image X file w) = Main.JSONResponse 200 content ->
     dict_get "alert_file" content = Some (VStr path) \/
     dict_get "takedown_request" content = Some (VStr path) ->
     is_Some (fs_files after !! path)).
Proof.
  intros Hname Hne Hsave Hroot Ha Ht after.
  pose proof (save_upload_inv _ _ _ _ _ Hsave) as Hfs.
  set (loc := Main.file_location_of X name) in *.
  assert (Habs : String.prefix "/" loc = true) by (apply file_location_absolute; exact Hroot).
  assert (Hla : loc <> Alerts.alert_path alert_time).
  { intros Heq. rewrite Heq, alert_path_relative in Habs. discriminate. }
  assert (Hlt : loc <> Alerts.takedown_path takedown_time).
  { intros Heq. rewrite Heq, takedown_path_relative in Habs. discriminate. }
  assert (Hup : fs_files fs !! loc = Some (Main.upload_content file))
    by (rewrite Hfs; cbn [fs_files]; apply lookup_insert_eq).
  assert (Hframe : forall path, path <> loc ->
                     fs_files fs !! path = fs_files (Main.w_fs w) !! path)
    by (intros path Hp; rewrite Hfs; cbn [fs_files]; apply insert_frame; exact Hp).
  assert (Hkeep : forall path, is_Some (fs_files (Main.w_fs w) !! path) ->
                    is_Some (fs_files fs !! path))
    by (intros path Hs; rewrite Hfs; cbn [fs_files]; apply insert_keeps; exact Hs).
  destruct (analyze_image_saved X file w name fs Hname Hne Hsave)
    as [[Hafter Hno]|(fp & sr & f & p & c & Hafter & Hresp)].
  - fold after in Hafter. rewrite Hafter.
    split; [exact Hup|]. split; [intros path Hp _ _; apply Hframe; exact Hp|].
    split; [exact Hkeep|]. split; [reflexivity|].
    intros content path Hr. exfalso. exact (Hno content Hr).
  - fold after in Hafter. cbv zeta in Hafter, Hresp.
    destruct (report_stage_effect X (Main._safe_filename X name) f p c
                (Main.normalize_matches sr) fs alert_time takedown_time format_2f render
                Ha Ht) as (Hf & Hk & Hnamed).
    cbv zeta in Hf, Hk, Hnamed. rewrite <- Hafter in Hf, Hk, Hnamed.
    split; [rewrite (Hf loc Hla Hlt); exact Hup|].
    split; [intros path Hp H1 H2; rewrite (Hf path H1 H2); apply Hframe; exact Hp|].
    split; [intros path Hs; apply Hk, Hkeep; exact Hs|].
    split; [intros Hno; exfalso; exact (Hno _ Hresp)|].
    intros content path Hr Hfield. rewrite Hresp in Hr. injection Hr as <-.
    apply Hnamed.
    cbn [dict_get String.eqb] in Hfield. cbn in Hfield.
    destruct Hfield as [[= H]|[= H]]; [left|right]; exact H.
Qed.

Lemma upload_stays_on_disk_witness :
  fs_files (Main.w_fs (snd (Main.analyze_image (H:=Sample.libs)
                              (Sample.externals
                                 (Returned (Main.Detection "0f3a_q.png" "FAKE" (9 # 10))))
                              Sample.upload (Sample.world (Db.mkStore [] None)))))
    !! Main.file_location_of
         (Sample.externals (Returned (Main.Detection "0f3a_q.png" "FAKE" (9 # 10))))
         "holiday/q.png"
  = Some (Main.upload_content Sample.upload).
Proof.
  refine (proj1 (upload_stays_on_disk (L:=Sample.libs)
            (Sample.externals (Returned (Main.Detection "0f3a_q.png" "FAKE" (9 # 10))))
            Sample.upload (Sample.world (Db.mkStore [] None))
            "holiday/q.png" (Sample.fs_uploaded "/srv")
            Sample.clock Sample.clock Sample.format_2f Sample.render _ _ _ _ _ _)).
  - reflexivity.
  - discriminate.
  - vm_compute. reflexivity.
  - reflexivity.
  - reflexivity.
  - reflexivity.
Defined.

(** X24.  On a store that answers, the listing, the count and the lookups
    agree: [count_fingerprints] is the length of [get_fingerprints], the
    listing holds no file name and no primary key twice, and a lookup finds
    a record exactly when the listing holds it under that name. *)
Theorem listing_count_and_lookup_agree (db : Db.Store) :
  Db.reachable db ->
  Db.db_fault db = None ->
  exists rows,
    Db.get_fingerprints db = Returned rows /\
    Db.count_fingerprints db = Returned (length rows) /\
    List.NoDup (map Db.filename rows) /\
    List.NoDup (map Db.id rows) /\
    (forall k r,
       Db.get_fingerprint_by_filename k db = Returned (Some r)
       <-> In r rows /\ Db.filename r = k).
Proof.
  intros Hreach Hf. exists (Db.db_rows db).
  pose proof (reachable_keys_unique db Hreach) as Hu.
  pose proof (reachable_ids_unique db Hreach) as Hids.
  unfold Db.get_fingerprints, Db.count_fingerprints, Db.get_fingerprint_by_filename,
    Db.query_first. rewrite Hf.
  split; [reflexivity|]. split; [reflexivity|]. split; [exact Hu|]. split; [exact Hids|].
  intros k r. split.
  - intros [= Hfind]. apply find_some_in in Hfind as [Hin Hk].
    apply String.eqb_eq in Hk. auto.
  - intros [Hin Hk]. f_equal.
    destruct (List.find (Db.keyp k) (Db.db_rows db)) as [r'|] eqn:Hfind.
    + apply find_some_in in Hfind as [Hin' Hk']. apply String.eqb_eq in Hk'.
      f_equal. apply (same_key_same_row (Db.db_rows db)); [exact Hu|assumption..|congruence].
    + exfalso. apply (find_none_not_in k _ Hfind). rewrite <- Hk. apply in_map. exact Hin.
Qed.

Lemma listing_count_and_lookup_agree_witness :
  exists rows,
    Db.get_fingerprints DbKeys.two_rows = Returned rows /\
    Db.count_fingerprints DbKeys.two_rows = Returned (length rows) /\
    List.NoDup (map Db.filename rows) /\
    List.NoDup (map Db.id rows) /\
    (forall k r,
       Db.get_fingerprint_by_filename k DbKeys.two_rows = Returned (Some r)
       <-> In r rows /\ Db.filename r = k).
Proof.
  refine (listing_count_and_lookup_agree DbKeys.two_rows _ _).
  - unfold DbKeys.two_rows. apply Db.reach_save, Db.reach_save, Db.reach_empty.
  - reflexivity.
Defined.

(** X25.  Files of the dataset that cannot be decoded do not break the
    search: when the dataset folder is a directory, the search returns a
    dictionary and never raises, whatever the query and the files are. *)
Theorem search_survives_corrupt_dataset_files `{L : Libraries}
    (fs : FS) (image_path dataset_folder : string) (names : list string) :
  fs_dirs fs !! dataset_folder = Some names ->
  exists result,
    Search.search_image_in_dataset fs image_path dataset_folder = Returned result /\
    (dict_keys result = ["error"] \/ dict_keys result = ["query"; "matches"]).
Proof.
  intros Hdir. unfold Search.search_image_in_dataset.
  destruct (generate_fingerprint_returns fs image_path) as [q ->]. cbn [Py.bind].
  destruct (contains "Error" q); [eexists; split; [reflexivity|left; reflexivity]|].
  unfold OsPath.exists_, OsPath.listdir. rewrite Hdir.
  rewrite (bool_decide_eq_true_2 (is_Some (Some names))) by eauto.
  rewrite orb_true_r. cbn [negb Py.bind].
  rewrite scan_dataset_filter. cbn [Py.bind].
  eexists. split; [reflexivity|right; reflexivity].
Qed.

Lemma search_survives_corrupt_dataset_files_witness :
  exists result,
    Search.search_image_in_dataset (H:=Sample.libs) Sample.fs "/srv/uploads/q.png"
        "/srv/dataset" = Returned result /\
    (dict_keys result = ["error"] \/ dict_keys result = ["query"; "matches"]).
Proof.
  refine (search_survives_corrupt_dataset_files (L:=Sample.libs) Sample.fs
            "/srv/uploads/q.png" "/srv/dataset"
            ["b.png"; "notes.txt"; "thumbs"; "a.png"; "other.png"] _).
  vm_compute. reflexivity.
Defined.
